(** * The dental help-desk agent: orchestration logic and callable functions

    A shallow embedding of the control logic of three variants of the agent:

    - [HelpDesk]      : AIAssistedCustomerHelpDesk.py
    - [MultiFunction] : AIAssistedCustomerHelpDeskMultiFunction.py
    - [Knolabs]       : KnolabsDentalAssistant.py

    Speech, the language model, the real-time room and the CRM are external
    collaborators.  Every interaction with them is recorded as an [effect] in
    a trace; what they answer is an explicit argument ([http_outcome],
    [sip_outcome]) of the function that talks to them. *)

From Stdlib Require Import ZArith QArith List String Ascii Bool Lia.
Import ListNotations.
Set Warnings "-register-all".
Open Scope string_scope.
Open Scope Z_scope.

(* ================================================================== *)
(** ** Python values that the code manipulates *)

(** Python [str], restricted to 8-bit characters; only the ASCII letters
    have a case. *)
Module PyStr.

Definition is_upper (c : ascii) : bool :=
  let n := nat_of_ascii c in (Nat.leb 65 n && Nat.leb n 90)%bool.

Definition lower_char (c : ascii) : ascii :=
  if is_upper c then ascii_of_nat (nat_of_ascii c + 32) else c.

(** [s.lower()] *)
Fixpoint lower (s : string) : string :=
  match s with
  | EmptyString => EmptyString
  | String c s' => String (lower_char c) (lower s')
  end.

(** [needle in hay] for two strings *)
Fixpoint contains (needle hay : string) : bool :=
  if String.prefix needle hay then true
  else match hay with
       | EmptyString => false
       | String _ hay' => contains needle hay'
       end.

(** [any(keyword in text for keyword in keywords)] *)
Definition any_in (keywords : list string) (text : string) : bool :=
  existsb (fun keyword => contains keyword text) keywords.

(** Truth value of a string in a condition. *)
Definition truthy (s : string) : bool :=
  match s with EmptyString => false | _ => true end.

End PyStr.

(** The value a coroutine of the function context returns: a string, or
    [None]. *)
Inductive pyval : Type :=
| PNone
| PStr (s : string).

Definition pyval_eqb (a b : pyval) : bool :=
  match a, b with
  | PNone, PNone => true
  | PStr x, PStr y => String.eqb x y
  | _, _ => false
  end.

Definition is_text (v : pyval) : bool :=
  match v with PStr _ => true | PNone => false end.

(** Exceptions.  [ConnectionError], [HTTPError] and the [JSONDecodeError]
    of [requests] derive from [requests.RequestException]; the others do
    not. *)
Inductive exn : Type :=
| ConnectionError
| HTTPError
| JSONDecodeError
| KeyError
| IndexError
| TypeError
| AttributeError
| NameError (name : string)
| ApiError.   (* raised by the LiveKit API client *)

Definition is_RequestException (e : exn) : bool :=
  match e with
  | ConnectionError | HTTPError | JSONDecodeError => true
  | _ => false
  end.

Inductive result (A : Type) : Type :=
| Ok (a : A)
| Raise (e : exn).
Arguments Ok {A} a.
Arguments Raise {A} e.

(* ================================================================== *)
(** ** Regular expressions: what [re.match] decides *)

Module Re.

(** A one-character pattern: a literal, or a negated one-element set. *)
Inductive charset : Type :=
| Lit (c : ascii)       (* [@], [\.] *)
| NotLit (c : ascii).   (* [[^@]] *)

Definition accepts (cs : charset) (c : ascii) : bool :=
  match cs with
  | Lit d => Ascii.eqb c d
  | NotLit d => negb (Ascii.eqb c d)
  end.

Inductive regex : Type :=
| Empty                     (* matches nothing *)
| Eps                       (* matches the empty string *)
| Chr (cs : charset)
| Cat (r1 r2 : regex)
| Alt (r1 r2 : regex)
| Star (r : regex).

(** [r+] *)
Definition Plus (r : regex) : regex := Cat r (Star r).

Fixpoint nullable (r : regex) : bool :=
  match r with
  | Empty => false
  | Eps => true
  | Chr _ => false
  | Cat r1 r2 => nullable r1 && nullable r2
  | Alt r1 r2 => nullable r1 || nullable r2
  | Star _ => true
  end.

(** Brzozowski derivative: what is left to match after reading [c]. *)
Fixpoint deriv (c : ascii) (r : regex) : regex :=
  match r with
  | Empty => Empty
  | Eps => Empty
  | Chr cs => if accepts cs c then Eps else Empty
  | Cat r1 r2 =>
      if nullable r1
      then Alt (Cat (deriv c r1) r2) (deriv c r2)
      else Cat (deriv c r1) r2
  | Alt r1 r2 => Alt (deriv c r1) (deriv c r2)
  | Star r1 => Cat (deriv c r1) (Star r1)
  end.

(** [re.fullmatch(r, s) is not None]: the whole of [s] is matched. *)
Fixpoint fullmatch (r : regex) (s : string) : bool :=
  match s with
  | EmptyString => nullable r
  | String c s' => fullmatch (deriv c r) s'
  end.

(** [re.match(r, s) is not None]: some prefix of [s], starting at
    position 0, is matched; nothing is required of the rest. *)
Fixpoint re_match (r : regex) (s : string) : bool :=
  if nullable r then true
  else match s with
       | EmptyString => false
       | String c s' => re_match (deriv c r) s'
       end.

(** The language of a regular expression, as a relation. *)
Inductive lang : regex -> string -> Prop :=
| lang_eps : lang Eps ""
| lang_chr cs c : accepts cs c = true -> lang (Chr cs) (String c "")
| lang_cat r1 r2 s1 s2 : lang r1 s1 -> lang r2 s2 -> lang (Cat r1 r2) (s1 ++ s2)
| lang_alt_l r1 r2 s : lang r1 s -> lang (Alt r1 r2) s
| lang_alt_r r1 r2 s : lang r2 s -> lang (Alt r1 r2) s
| lang_star_nil r : lang (Star r) ""
| lang_star_cons r s1 s2 : lang r s1 -> lang (Star r) s2 -> lang (Star r) (s1 ++ s2).

(** With a pattern written [^r$], [re.match] requires the match to end at
    the end of the string, or just before a newline that ends it. *)
Fixpoint strip_final_newline (s : string) : option string :=
  match s with
  | EmptyString => None
  | String c EmptyString =>
      if Ascii.eqb c (ascii_of_nat 10) then Some EmptyString else None
  | String c s' => option_map (String c) (strip_final_newline s')
  end.

Definition anchored_match (r : regex) (s : string) : bool :=
  fullmatch r s ||
  match strip_final_newline s with
  | Some s' => fullmatch r s'
  | None => false
  end.

End Re.

(** The pattern [[^@]+@[^@]+\.[^@]+] that [book_appointment] hands to
    [re.match]. *)
Definition email_pattern : Re.regex :=
  let not_at := Re.Plus (Re.Chr (Re.NotLit "@"%char)) in
  Re.Cat not_at
    (Re.Cat (Re.Chr (Re.Lit "@"%char))
       (Re.Cat not_at
          (Re.Cat (Re.Chr (Re.Lit "."%char)) not_at))).

(** The spec's reading of the validation: the same pattern anchored at both
    ends, [^[^@]+@[^@]+\.[^@]+$]. *)
Definition spec_anchored_email (email : string) : bool :=
  Re.anchored_match email_pattern email.

(* ================================================================== *)
(** ** Decoded JSON documents *)

(** What [response.json()] returns.  An object keeps the order of its keys,
    as a Python [dict] does: [find_appointment_slots] reads the first one. *)
Inductive json : Type :=
| JNull
| JBool (b : bool)
| JNum (q : Q)
| JStr (s : string)
| JArr (items : list json)
| JObj (fields : list (string * json)).

Module PyJson.

(** Truth value in a condition ([if slots:]). *)
Definition truthy (j : json) : bool :=
  match j with
  | JNull => false
  | JBool b => b
  | JNum q => negb (Qnum q =? 0)
  | JStr s => PyStr.truthy s
  | JArr items => match items with [] => false | _ => true end
  | JObj fields => match fields with [] => false | _ => true end
  end.

Fixpoint assoc (key : string) (fields : list (string * json)) : option json :=
  match fields with
  | [] => None
  | (k, v) :: rest => if String.eqb k key then Some v else assoc key rest
  end.

(** [j[key]] with a string key. *)
Definition getitem_key (j : json) (key : string) : result json :=
  match j with
  | JObj fields =>
      match assoc key fields with
      | Some v => Ok v
      | None => Raise KeyError
      end
  | _ => Raise TypeError   (* list and str want integer indices; the rest is not subscriptable *)
  end.

(** [j[0]] *)
Definition getitem_0 (j : json) : result json :=
  match j with
  | JArr (x :: _) => Ok x
  | JArr [] => Raise IndexError
  | JStr (String c _) => Ok (JStr (String c ""))
  | JStr EmptyString => Raise IndexError
  | JObj _ => Raise KeyError   (* the keys of a decoded object are strings *)
  | _ => Raise TypeError
  end.

(** [list(j.keys())] *)
Definition keys (j : json) : result (list string) :=
  match j with
  | JObj fields => Ok (map fst fields)
  | _ => Raise AttributeError
  end.

(** [j.get(key, [])] *)
Definition get_or_empty_list (j : json) (key : string) : result json :=
  match j with
  | JObj fields =>
      match assoc key fields with
      | Some v => Ok v
      | None => Ok (JArr [])
      end
  | _ => Raise AttributeError
  end.

(** The items a [for] loop over [j] visits. *)
Definition iterate (j : json) : result (list json) :=
  match j with
  | JArr items => Ok items
  | JObj fields => Ok (map (fun kv => JStr (fst kv)) fields)
  | JStr s => Ok (map (fun c => JStr (String c "")) (list_ascii_of_string s))
  | _ => Raise TypeError
  end.

Definition is_str (j : json) (s : string) : bool :=
  match j with JStr t => String.eqb t s | _ => false end.

(** [s in j] for a string [s]. *)
Definition str_in (s : string) (j : json) : result bool :=
  match j with
  | JArr items => Ok (existsb (fun x => is_str x s) items)
  | JObj fields => Ok (existsb (fun kv => String.eqb (fst kv) s) fields)
  | JStr t => Ok (PyStr.contains s t)
  | _ => Raise TypeError
  end.

End PyJson.

(* ================================================================== *)
(** ** Effects *)

Inductive http_verb : Type := GET | POST | PUT.

(** How one HTTP exchange ends, as far as the calling code can tell: the
    call raises, or [raise_for_status()] raises, or the status passes and
    the body is there to be read.  The body is a JSON document, or it is
    empty or otherwise not JSON, and then [response.json()] raises. *)
Inductive http_outcome : Type :=
| RequestFailed              (* [requests.<verb>] itself raises: no connection, timeout, bad URL *)
| ErrorStatus                (* a response arrives and [raise_for_status()] raises [HTTPError] *)
| Success (payload : json)   (* [raise_for_status()] passes; [payload] is the decoded body *)
| SuccessNotJson.            (* [raise_for_status()] passes; the body is empty or is not JSON *)

Inductive role : Type := System | User | Assistant.

Inductive VideoFrame : Type := Frame (id : nat).

Inductive content_item : Type :=
| Text (t : pyval)
| Image (image : VideoFrame).

Record ChatMessage : Type := { msg_role : role; content : list content_item }.

(** A coroutine handed to [asyncio.create_task]. *)
Inductive task : Type :=
| AnswerTask (text : pyval) (use_image human_agent_present ai_assistance_required : bool)
| FollowUpTask (email : string)
| SipTask (phone_number : option string) (room_name : string).

Inductive effect : Type :=
| Print (line : string)
| Http (verb : http_verb) (url : option string) (data : list (string * json))
| Sleep (seconds : Z)
| CreateTask (t : task)
| GptChat (chat_ctx : list ChatMessage)     (* [gpt.chat(chat_ctx=...)]: one model invocation *)
| Say                                       (* [assistant.say(stream)] *)
| CreateSipParticipant (sip_call_to : option string) (room_name participant_identity : string)
| CloseApi.                                 (* [livekit_api.aclose()] *)

Definition is_http (e : effect) : bool :=
  match e with Http _ _ _ => true | _ => false end.
Definition is_post (e : effect) : bool :=
  match e with Http POST _ _ => true | _ => false end.
Definition is_gpt (e : effect) : bool :=
  match e with GptChat _ => true | _ => false end.

Definition count (p : effect -> bool) (tr : list effect) : nat :=
  List.length (filter p tr).

(** The tasks a trace creates, in order. *)
Fixpoint spawned (tr : list effect) : list task :=
  match tr with
  | [] => []
  | CreateTask t :: rest => t :: spawned rest
  | _ :: rest => spawned rest
  end.

(** Code without access to the session: a trace and a result. *)
Module IO.

Definition io (A : Type) : Type := (list effect * result A)%type.

Definition ret {A} (a : A) : io A := ([], Ok a).
Definition raise {A} (e : exn) : io A := ([], Raise e).
Definition emit (e : effect) : io unit := ([e], Ok tt).
(** [print(...)]; where the source prints an exception after a fixed text,
    the line is the fixed text. *)
Definition print (line : string) : io unit := emit (Print line).
Definition of_result {A} (r : result A) : io A := ([], r).

Definition bind {A B} (m : io A) (k : A -> io B) : io B :=
  match m with
  | (tr, Ok a) => let (tr', r) := k a in ((tr ++ tr')%list, r)
  | (tr, Raise e) => (tr, Raise e)
  end.

(** [try: body  except requests.RequestException: handler] *)
Definition try_except_RequestException {A} (body : io A) (handler : io A) : io A :=
  match body with
  | (tr, Ok a) => (tr, Ok a)
  | (tr, Raise e) =>
      if is_RequestException e
      then let (tr', r) := handler in ((tr ++ tr')%list, r)
      else (tr, Raise e)
  end.

Definition trace {A} (m : io A) : list effect := fst m.
Definition value {A} (m : io A) : result A := snd m.

End IO.

Declare Scope io_scope.
Delimit Scope io_scope with io.
Notation "x <- m ;; k" := (IO.bind m (fun x => k))
  (at level 61, m at next level, right associativity) : io_scope.
Notation "m ;; k" := (IO.bind m (fun _ => k))
  (at level 61, right associativity) : io_scope.

(** The [requests] calls.  Each records the request and then behaves as the
    outcome says. *)
Record response : Type := {
  raises_for_status : bool;
  body : option json           (* [None]: the body does not decode *)
}.

Definition requests_call (verb : http_verb) (url : option string)
    (data : list (string * json)) (o : http_outcome) : IO.io response :=
  (IO.emit (Http verb url data) ;;
   match o with
   | RequestFailed => IO.raise ConnectionError
   | ErrorStatus => IO.ret {| raises_for_status := true; body := None |}
   | Success payload => IO.ret {| raises_for_status := false; body := Some payload |}
   | SuccessNotJson => IO.ret {| raises_for_status := false; body := None |}
   end)%io.

Definition raise_for_status (r : response) : IO.io unit :=
  if raises_for_status r then IO.raise HTTPError else IO.ret tt.

(** [response.json()] *)
Definition response_json (r : response) : IO.io json :=
  match body r with
  | Some decoded => IO.ret decoded
  | None => IO.raise JSONDecodeError
  end.

(** [os.getenv] gives [None] for a variable that is not set; an f-string
    prints that as the word None. *)
Definition fstr (v : option string) : string :=
  match v with Some s => s | None => "None" end.

Definition json_of_env (v : option string) : json :=
  match v with Some s => JStr s | None => JNull end.

(** [datetime] values are counted in microseconds; [timedelta] likewise. *)
Definition timedelta_hours (h : Z) : Z := h * 3600 * 1000000.
Definition timedelta_days (d : Z) : Z := d * 24 * 3600 * 1000000.

(* ================================================================== *)
(** ** The function context shared by the variants *)

Module DentalAssistantFunction.
Section Functions.

Variable getenv : string -> option string.

Definition urgent_keywords : list string :=
  ["severe pain"; "swelling"; "bleeding"; "trauma"; "knocked out"; "broken"].

Definition analyze_dental_image (user_msg : string) : IO.io pyval :=
  (IO.print ("Analyzing dental image: " ++ user_msg) ;;
   IO.ret PNone)%io.

Definition book_appointment (email name : string) (o : http_outcome) : IO.io pyval :=
  if negb (Re.re_match email_pattern email) then
    IO.ret (PStr "The email address seems incorrect. Please provide a valid one.")
  else
    IO.try_except_RequestException
      (let webhook_url := getenv "WEBHOOK_URL" in
       let data := [("email", JStr email); ("name", JStr name)] in
       response <- requests_call POST webhook_url data o ;;
       raise_for_status response ;;
       IO.ret (PStr ("Dental appointment booking link sent to " ++ email
                     ++ ". Please check your email.")))%io
      (IO.print "Error booking appointment: " ;;
       IO.ret (PStr "There was an error booking your dental appointment. Please try again later."))%io.

(** The loop over the contacts of the lookup answer. *)
Fixpoint scan_contacts (contacts : list json) : IO.io pyval :=
  match contacts with
  | [] =>
      IO.ret (PStr "You haven't booked a dental appointment yet. Would you like assistance in scheduling one?")
  | contact :: rest =>
      (tags <- IO.of_result (PyJson.get_or_empty_list contact "tags") ;;
       booked <- IO.of_result (PyJson.str_in "livekit_appointment_booked" tags) ;;
       if booked
       then IO.ret (PStr "You have successfully booked a dental appointment.")
       else scan_contacts rest)%io
  end.

Definition check_appointment_status (email : string) (o : http_outcome) : IO.io pyval :=
  (IO.print "Checking dental appointment status" ;;
   IO.try_except_RequestException
     (let api_url := fstr (getenv "CRM_CONTACT_LOOKUP_ENDPOINT") ++ "?email=" ++ email in
      response <- requests_call GET (Some api_url) [] o ;;
      raise_for_status response ;;
      data <- response_json response ;;
      contacts <- IO.of_result (PyJson.get_or_empty_list data "contacts") ;;
      items <- IO.of_result (PyJson.iterate contacts) ;;
      scan_contacts items)
     (IO.print "Error during API request: " ;;
      IO.ret (PStr "Error checking the dental appointment status.")))%io.

End Functions.
End DentalAssistantFunction.

(* ================================================================== *)
(** ** The session and the code that runs inside it *)

(** The variables of [entrypoint] that its closures share. *)
Record session : Type := {
  human_agent_present : bool;
  chat_context : list ChatMessage;
  latest_image : option VideoFrame
}.

(** How the request for the outbound call leg ends. *)
Inductive sip_outcome : Type := SipPlaced | SipFailed.

(** One completed function call, as the assistant reports it. *)
Record CalledFunction : Type := {
  fn_name : string;                       (* [call_info.function_info.name] *)
  fn_arguments : list (string * string);  (* [call_info.arguments] *)
  fn_result : pyval                       (* [result] *)
}.

Fixpoint arguments_get (key : string) (args : list (string * string)) : option string :=
  match args with
  | [] => None
  | (k, v) :: rest => if String.eqb k key then Some v else arguments_get key rest
  end.

Definition pyval_of_option (v : option string) : pyval :=
  match v with Some s => PStr s | None => PNone end.

(** Code that reads and writes the session: a trace, a result, and the
    session it leaves.  An exception keeps the writes made before it. *)
Module Sess.

Definition M (A : Type) : Type := session -> (list effect * result A * session)%type.

Definition ret {A} (a : A) : M A := fun st => ([], Ok a, st).
Definition raise {A} (e : exn) : M A := fun st => ([], Raise e, st).
Definition emit (e : effect) : M unit := fun st => ([e], Ok tt, st).
Definition print (line : string) : M unit := emit (Print line).
Definition create_task (t : task) : M unit := emit (CreateTask t).
Definition get : M session := fun st => ([], Ok st, st).
Definition lift {A} (m : IO.io A) : M A := fun st => (fst m, snd m, st).

Definition bind {A B} (m : M A) (k : A -> M B) : M B :=
  fun st =>
    match m st with
    | (tr, Ok a, st1) =>
        match k a st1 with
        | (tr', r, st2) => ((tr ++ tr')%list, r, st2)
        end
    | (tr, Raise e, st1) => (tr, Raise e, st1)
    end.

Definition set_human_agent_present (b : bool) : M unit :=
  fun st => ([], Ok tt,
             {| human_agent_present := b;
                chat_context := chat_context st;
                latest_image := latest_image st |}).

(** [chat_context.messages.append(m)] *)
Definition append_message (m : ChatMessage) : M unit :=
  fun st => ([], Ok tt,
             {| human_agent_present := human_agent_present st;
                chat_context := (chat_context st ++ [m])%list;
                latest_image := latest_image st |}).

Definition trace {A} (x : list effect * result A * session) : list effect := fst (fst x).
Definition value {A} (x : list effect * result A * session) : result A := snd (fst x).
Definition final {A} (x : list effect * result A * session) : session := snd x.

End Sess.

Declare Scope sess_scope.
Delimit Scope sess_scope with sess.
Notation "x <- m ;; k" := (Sess.bind m (fun x => k))
  (at level 61, m at next level, right associativity) : sess_scope.
Notation "m ;; k" := (Sess.bind m (fun _ => k))
  (at level 61, right associativity) : sess_scope.

(** [create_sip_participant]: the same text in both variants that have it. *)
Definition create_sip_participant (phone_number : option string) (room_name : string)
    (o : sip_outcome) : Sess.M unit :=
  (Sess.print "trying to call an agent" ;;
   Sess.emit (CreateSipParticipant phone_number room_name ("sip_" ++ fstr phone_number)) ;;
   match o with
   | SipFailed => Sess.raise ApiError
   | SipPlaced => Sess.ret tt
   end ;;
   Sess.emit CloseApi)%sess.

(** The test both message handlers apply to a chat message while a human
    agent is present: ["help me" in msg.message.lower()]. *)
Definition is_help_request (message : string) : bool :=
  PyStr.contains "help me" (PyStr.lower message).

(** The reading of "contains, ignoring case": some stretch of [text] is
    [phrase] once lowered. *)
Definition contains_ignoring_case (phrase text : string) : Prop :=
  exists before middle rest,
    text = before ++ middle ++ rest /\ PyStr.lower middle = phrase.

(** A symptom description that mentions one of the urgent keywords. *)
Definition mentions_urgent_keyword (symptoms : string) : Prop :=
  exists keyword,
    In keyword DentalAssistantFunction.urgent_keywords /\
    contains_ignoring_case keyword symptoms.

(** The text every variant returns for a description that is not urgent. *)
Definition reassurance : string :=
  "Your dental issue doesn't appear to be immediately urgent, but it's still important to schedule an appointment soon for a proper evaluation.".

(** An environment for the worked examples. *)
Definition sample_env (key : string) : option string :=
  if String.eqb key "WEBHOOK_URL" then Some "https://hooks.example/book"
  else if String.eqb key "HUMAN_AGENT_PHONE" then Some "+15550100"
  else if String.eqb key "CRM_CONTACT_ENDPOINT" then Some "https://crm.example/contacts"
  else if String.eqb key "CRM_CONTACT_LOOKUP_ENDPOINT" then Some "https://crm.example/lookup"
  else if String.eqb key "APPOINTMENT_SLOTS_ENDPOINT" then Some "https://crm.example/slots"
  else if String.eqb key "BOOK_APPOINTMENT_ENDPOINT" then Some "https://crm.example/appointments"
  else if String.eqb key "CALENDAR_ID" then Some "cal-1"
  else None.

Definition sample_repr (j : json) : string := "<value>".

Definition fresh_session : session :=
  {| human_agent_present := false;
     chat_context := [{| msg_role := System; content := [Text (PStr "Your name is Daela")] |}];
     latest_image := None |}.

Definition with_human (st : session) : session :=
  {| human_agent_present := true;
     chat_context := chat_context st;
     latest_image := latest_image st |}.

(** A finished call whose result is the escalation sentinel. *)
Definition escalation_call (function_name : string) (args : list (string * string))
  : CalledFunction :=
  {| fn_name := function_name; fn_arguments := args; fn_result := PStr "call_human_agent" |}.

(** How many of the messages ask the assistant for help. *)
Definition help_requests (messages : list string) : nat :=
  List.length (filter is_help_request messages).

(** The session after [_answer] has put [text] to the model. *)
Definition user_message (text : string) : ChatMessage :=
  {| msg_role := User; content := [Text (PStr text)] |}.

Definition answered (st : session) (text : string) : session :=
  {| human_agent_present := human_agent_present st;
     chat_context := (chat_context st ++ [user_message text])%list;
     latest_image := latest_image st |}.

(** Tasks run after the handler that created them has returned; an
    exception raised inside a task ends that task only. *)
Definition isolated (m : Sess.M unit) : Sess.M unit :=
  fun st => match m st with (tr, _, st') => (tr, Ok tt, st') end.

(* ================================================================== *)
(** ** AIAssistedCustomerHelpDesk.py *)

Module HelpDesk.
Section Entrypoint.

Variable getenv : string -> option string.
Variable room_name : string.                 (* [ctx.room.name] *)

Definition assess_dental_urgency (symptoms : string) : IO.io pyval :=
  if PyStr.any_in DentalAssistantFunction.urgent_keywords (PyStr.lower symptoms)
  then IO.ret (PStr "call_human_agent")
  else IO.ret (PStr "Your dental issue doesn't appear to be immediately urgent, but it's still important to schedule an appointment soon for a proper evaluation.").

(** The parameter [human_agent_present] hides the variable of the same
    name that [entrypoint] owns, as it does in the source. *)
Definition _answer (text : pyval)
    (use_image human_agent_present ai_assistance_required : bool) : Sess.M unit :=
  if human_agent_present && negb ai_assistance_required then
    Sess.print "Human agent is present. AI assistant is silent."
  else
    (st <- Sess.get ;;
     image <- match use_image, latest_image st with
              | true, Some frame =>
                  Sess.print "Calling with latest image" ;; Sess.ret [Image frame]
              | _, _ => Sess.ret []
              end ;;
     Sess.append_message {| msg_role := User; content := Text text :: image |} ;;
     st' <- Sess.get ;;
     Sess.emit (GptChat (chat_context st')) ;;
     Sess.emit Say)%sess.

Definition follow_up_appointment (email : string) (o : http_outcome) : Sess.M unit :=
  (Sess.emit (Sleep 20) ;;
   Sess.print ("Finished waiting, checking dental appointment status for " ++ email) ;;
   status <- Sess.lift (DentalAssistantFunction.check_appointment_status getenv email o) ;;
   (* [await asyncio.create_task(_answer(status))]: created and run to its end here *)
   _answer status false false false)%sess.

Definition on_customer_agent_finished : Sess.M unit :=
  (Sess.print "Human Agent disconnected. AI Agent taking over." ;;
   Sess.create_task
     (AnswerTask
        (PStr "Human Agent interaction completed. Politely ask if it was helpful and if user is happy to proceed with the in-person appointment.")
        false false false))%sess.

Definition on_message_received (message : string) : Sess.M unit :=
  (st <- Sess.get ;;
   if PyStr.truthy message && negb (human_agent_present st) then
     Sess.create_task (AnswerTask (PStr message) false false false)
   else if PyStr.truthy message && human_agent_present st
           && PyStr.contains "help me" (PyStr.lower message) then
     Sess.create_task (AnswerTask (PStr message) false true true)
   else
     Sess.print "No Assistance is needed as Human agent is tackling the communication")%sess.

Definition on_function_calls_finished (called_functions : list CalledFunction) : Sess.M unit :=
  match called_functions with
  | [] => Sess.ret tt
  | function :: _ =>
      let function_name := fn_name function in
      (Sess.print function_name ;;
       if String.eqb function_name "assess_dental_urgency" then
         let result := fn_result function in
         if pyval_eqb result (PStr "call_human_agent") then
           Sess.print "calling an agent" ;;
           let human_agent_phone := getenv "HUMAN_AGENT_PHONE" in
           (* [asyncio.sleep(10)] is not awaited: it delays nothing *)
           Sess.create_task (SipTask human_agent_phone room_name) ;;
           Sess.set_human_agent_present true
         else
           Sess.create_task (AnswerTask result false false false)
       else if String.eqb function_name "book_appointment" then
         match arguments_get "email" (fn_arguments function) with
         | Some email =>
             if PyStr.truthy email
             then Sess.create_task (FollowUpTask email)
             else Sess.ret tt
         | None => Sess.ret tt
         end
       else if String.eqb function_name "analyze_dental_image" then
         let user_instruction := pyval_of_option (arguments_get "user_msg" (fn_arguments function)) in
         Sess.create_task (AnswerTask user_instruction true false false)
       else Sess.ret tt)%sess
  end.

(** The body of a task. *)
Definition run_task (http : http_outcome) (sip : sip_outcome) (t : task) : Sess.M unit :=
  match t with
  | AnswerTask text use_image hap air => _answer text use_image hap air
  | FollowUpTask email => follow_up_appointment email http
  | SipTask phone_number room => create_sip_participant phone_number room sip
  end.

Fixpoint run_tasks (http : http_outcome) (sip : sip_outcome) (ts : list task) : Sess.M unit :=
  match ts with
  | [] => Sess.ret tt
  | t :: rest => (isolated (run_task http sip t) ;; run_tasks http sip rest)%sess
  end.

(** An event handler, followed by the tasks it created. *)
Definition dispatch (http : http_outcome) (sip : sip_outcome) (handler : Sess.M unit) : Sess.M unit :=
  fun st =>
    match handler st with
    | (tr, r, st1) =>
        match run_tasks http sip (spawned tr) st1 with
        | (tr', _, st2) => ((tr ++ tr')%list, r, st2)
        end
    end.

(** A run of chat messages, each one delivered and answered in turn. *)
Fixpoint chat_messages (http : http_outcome) (sip : sip_outcome) (messages : list string) : Sess.M unit :=
  match messages with
  | [] => Sess.ret tt
  | m :: rest =>
      (isolated (dispatch http sip (on_message_received m)) ;;
       chat_messages http sip rest)%sess
  end.

End Entrypoint.
End HelpDesk.

(* ================================================================== *)
(** ** AIAssistedCustomerHelpDeskMultiFunction.py *)

Module MultiFunction.
Section Entrypoint.

Variable getenv : string -> option string.
Variable room_name : string.                 (* [ctx.room.name] *)
Variable py_repr : json -> string.           (* how an f-string prints a value that is not a string *)
Variable timestamp_ms : Z -> Z.              (* [int(d.timestamp() * 1000)] *)

Definition fmt (j : json) : string :=
  match j with JStr s => s | _ => py_repr j end.

Definition create_contact_in_crm (email name : string) (o : http_outcome) : IO.io pyval :=
  let api_url := fstr (getenv "CRM_CONTACT_ENDPOINT") in
  let data := [("email", JStr email); ("firstName", JStr name);
               ("tags", JArr [JStr "new_dental_patient"])] in
  IO.try_except_RequestException
    (response <- requests_call POST (Some api_url) data o ;;
     raise_for_status response ;;
     answer <- response_json response ;;
     contact <- IO.of_result (PyJson.getitem_key answer "contact") ;;
     contact_id <- IO.of_result (PyJson.getitem_key contact "id") ;;
     IO.ret (PStr ("Customer data is saved with Customer Reference ID: " ++ fmt contact_id
                   ++ ". Please save this reference for later.")))%io
    (IO.print "Error creating contact in CRM: " ;;
     IO.ret (PStr "There was an error creating your contact in our system. Please try again later."))%io.

Definition update_contact_info (contact_id issue_description : string) (o : http_outcome)
  : IO.io pyval :=
  let api_url := fstr (getenv "CRM_CONTACT_ENDPOINT") ++ "/" ++ contact_id in
  let data := [("customField", JObj [("describe_your_issue", JStr issue_description)])] in
  IO.try_except_RequestException
    (response <- requests_call PUT (Some api_url) data o ;;
     raise_for_status response ;;
     IO.ret (PStr "I've now reported your problem to our system. Please note you've a right to erasure all your data kept with us securely as part of your rights ensured by GDPR. "))%io
    (IO.print "Error updating contact information in CRM: " ;;
     IO.ret (PStr "There was an error updating your information in our system. Please try again later."))%io.

(** The query window [(start_date, end_date)] that [find_appointment_slots]
    computes from [current_time = datetime.now()]. *)
Definition slot_window (current_time : Z) (urgency : string) : Z * Z :=
  if String.eqb urgency "emergency" then
    let start_date := current_time in
    let end_date := current_time + timedelta_hours 24 in
    (start_date, end_date)
  else
    let start_date := current_time + timedelta_days 3 in
    let end_date := start_date + timedelta_days 7 in
    (start_date, end_date).

Definition find_appointment_slots (urgency : string) (current_time : Z) (o : http_outcome)
  : IO.io pyval :=
  let calendar_id := getenv "CALENDAR_ID" in
  let api_url := fstr (getenv "APPOINTMENT_SLOTS_ENDPOINT") in
  let (start_date, end_date) := slot_window current_time urgency in
  let params := [("calendarId", json_of_env calendar_id);
                 ("startDate", JNum (inject_Z (timestamp_ms start_date)));
                 ("endDate", JNum (inject_Z (timestamp_ms end_date)));
                 ("timezone", JStr "Europe/London")] in
  IO.try_except_RequestException
    (response <- requests_call GET (Some api_url) params o ;;
     raise_for_status response ;;
     slots <- response_json response ;;
     if PyJson.truthy slots then
       dates <- IO.of_result (PyJson.keys slots) ;;
       first_date <- match dates with
                     | d :: _ => IO.ret d
                     | [] => IO.raise IndexError
                     end ;;
       day <- IO.of_result (PyJson.getitem_key slots first_date) ;;
       day_slots <- IO.of_result (PyJson.getitem_key day "slots") ;;
       first_slot <- IO.of_result (PyJson.getitem_0 day_slots) ;;
       IO.ret (PStr ("The first available slot is " ++ fmt first_slot))
     else
       IO.ret (PStr "No Slot Found"))%io
    (IO.print "Error finding appointment slots: " ;;
     IO.ret PNone)%io.

Definition book_emergency_appointment (slot email : string) (o : http_outcome) : IO.io pyval :=
  let calendar_id := getenv "CALENDAR_ID" in
  let api_url := fstr (getenv "BOOK_APPOINTMENT_ENDPOINT") in
  let data := [("calendarId", json_of_env calendar_id);
               ("selectedTimezone", JStr "Europe/London");
               ("selectedSlot", JStr slot);
               ("email", JStr email);
               ("phone", JStr "+0000000000")] in
  IO.try_except_RequestException
    (response <- requests_call POST (Some api_url) data o ;;
     raise_for_status response ;;
     appointment <- response_json response ;;
     IO.ret (PStr "call_human_agent"))%io
    (IO.print "Error booking emergency appointment: " ;;
     IO.ret (PStr "There was an error booking your emergency appointment. Please try again later."))%io.

Definition assess_dental_urgency (symptoms : string) : IO.io pyval :=
  if PyStr.any_in DentalAssistantFunction.urgent_keywords (PyStr.lower symptoms)
  then IO.ret (PStr "The issue needs urgent attention !!")
  else IO.ret (PStr "Your dental issue doesn't appear to be immediately urgent, but it's still important to schedule an appointment soon for a proper evaluation.").

(** The functions registered with [ai_callable], with their arguments. *)
Inductive callable : Type :=
| analyze_dental_image_ (user_msg : string)
| create_contact_in_crm_ (email name : string)
| book_appointment_ (email name : string)
| update_contact_info_ (contact_id issue_description : string)
| find_appointment_slots_ (urgency : string)
| book_emergency_appointment_ (slot email : string)
| assess_dental_urgency_ (symptoms : string).

Definition invoke (c : callable) (current_time : Z) (o : http_outcome) : IO.io pyval :=
  match c with
  | analyze_dental_image_ user_msg => DentalAssistantFunction.analyze_dental_image user_msg
  | create_contact_in_crm_ email name => create_contact_in_crm email name o
  | book_appointment_ email name => DentalAssistantFunction.book_appointment getenv email name o
  | update_contact_info_ contact_id issue => update_contact_info contact_id issue o
  | find_appointment_slots_ urgency => find_appointment_slots urgency current_time o
  | book_emergency_appointment_ slot email => book_emergency_appointment slot email o
  | assess_dental_urgency_ symptoms => assess_dental_urgency symptoms
  end.

(** The shape of answer each function reads without trouble:
    [create_contact_in_crm] wants [answer['contact']['id']];
    [find_appointment_slots] wants nothing at all, or an object whose first
    entry has a non-empty ['slots']. *)
Definition has_contact_id (answer : json) : bool :=
  match PyJson.getitem_key answer "contact" with
  | Ok contact =>
      match PyJson.getitem_key contact "id" with Ok _ => true | Raise _ => false end
  | Raise _ => false
  end.

Definition has_first_slot (slots : json) : bool :=
  match slots with
  | JObj ((_, day) :: _) =>
      match PyJson.getitem_key day "slots" with
      | Ok day_slots =>
          match PyJson.getitem_0 day_slots with Ok _ => true | Raise _ => false end
      | Raise _ => false
      end
  | _ => false
  end.

Definition expected_body (c : callable) (o : http_outcome) : bool :=
  match c, o with
  | create_contact_in_crm_ _ _, Success answer => has_contact_id answer
  | find_appointment_slots_ _, Success slots => negb (PyJson.truthy slots) || has_first_slot slots
  | _, _ => true
  end.

(** Where the design answers [None] instead of a text. *)
Definition answers_none (c : callable) (o : http_outcome) : bool :=
  match c, o with
  | analyze_dental_image_ _, _ => true
  | find_appointment_slots_ _, (RequestFailed | ErrorStatus | SuccessNotJson) => true
  | _, _ => false
  end.

(** [text.lower()] where [text] may be [None]. *)
Definition text_lower (text : pyval) : Sess.M string :=
  match text with
  | PStr s => Sess.ret (PyStr.lower s)
  | PNone => Sess.raise AttributeError
  end.

Definition _answer (text : pyval)
    (use_image human_agent_present ai_assistance_required : bool) : Sess.M unit :=
  (silent <- (if human_agent_present then
                lowered <- text_lower text ;;
                Sess.ret (PyStr.contains "help me" lowered && negb ai_assistance_required)
              else Sess.ret false) ;;
   if (silent : bool) then
     Sess.print "Human agent is present. AI assistant is silent."
   else
     st <- Sess.get ;;
     image <- match use_image, latest_image st with
              | true, Some frame =>
                  Sess.print "Calling with latest image" ;; Sess.ret [Image frame]
              | _, _ => Sess.ret []
              end ;;
     Sess.append_message {| msg_role := User; content := Text text :: image |} ;;
     st' <- Sess.get ;;
     Sess.emit (GptChat (chat_context st')) ;;
     Sess.emit Say)%sess.

Definition follow_up_appointment (email : string) (o : http_outcome) : Sess.M unit :=
  (Sess.emit (Sleep 20) ;;
   Sess.print ("Finished waiting, checking dental appointment status for " ++ email) ;;
   status <- Sess.lift (DentalAssistantFunction.check_appointment_status getenv email o) ;;
   _answer status false false false)%sess.

Definition on_message_received (message : string) : Sess.M unit :=
  (st <- Sess.get ;;
   if PyStr.truthy message && negb (human_agent_present st) then
     Sess.create_task (AnswerTask (PStr message) false false false)
   else if PyStr.truthy message && human_agent_present st
           && PyStr.contains "help me" (PyStr.lower message) then
     Sess.create_task (AnswerTask (PStr message) false true true)
   else
     Sess.print "No Assistance is needed as Human agent is tackling the communication")%sess.

Definition on_function_calls_finished (called_functions : list CalledFunction) : Sess.M unit :=
  match called_functions with
  | [] => Sess.ret tt
  | function :: _ =>
      let function_name := fn_name function in
      (Sess.print function_name ;;
       if String.eqb function_name "book_emergency_appointment" then
         let result := fn_result function in
         if pyval_eqb result (PStr "call_human_agent") then
           Sess.print "calling an agent" ;;
           let human_agent_phone := getenv "HUMAN_AGENT_PHONE" in
           Sess.create_task
             (AnswerTask
                (PStr "Human assistance is coming. Please wait while I'm trying to connect you. I'll be here if you need me, just say my name.")
                false true true) ;;
           (* [asyncio.sleep(10)] is not awaited: it delays nothing *)
           Sess.create_task (SipTask human_agent_phone room_name) ;;
           Sess.set_human_agent_present true
         else
           Sess.create_task (AnswerTask result false false false)
       else if String.eqb function_name "book_appointment" then
         match arguments_get "email" (fn_arguments function) with
         | Some email =>
             if PyStr.truthy email
             then Sess.create_task (FollowUpTask email)
             else Sess.ret tt
         | None => Sess.ret tt
         end
       else if String.eqb function_name "analyze_dental_image" then
         let user_instruction := pyval_of_option (arguments_get "user_msg" (fn_arguments function)) in
         Sess.create_task (AnswerTask user_instruction true false false)
       else Sess.ret tt)%sess
  end.

Definition run_task (http : http_outcome) (sip : sip_outcome) (t : task) : Sess.M unit :=
  match t with
  | AnswerTask text use_image hap air => _answer text use_image hap air
  | FollowUpTask email => follow_up_appointment email http
  | SipTask phone_number room => create_sip_participant phone_number room sip
  end.

Fixpoint run_tasks (http : http_outcome) (sip : sip_outcome) (ts : list task) : Sess.M unit :=
  match ts with
  | [] => Sess.ret tt
  | t :: rest => (isolated (run_task http sip t) ;; run_tasks http sip rest)%sess
  end.

Definition dispatch (http : http_outcome) (sip : sip_outcome) (handler : Sess.M unit) : Sess.M unit :=
  fun st =>
    match handler st with
    | (tr, r, st1) =>
        match run_tasks http sip (spawned tr) st1 with
        | (tr', _, st2) => ((tr ++ tr')%list, r, st2)
        end
    end.

Fixpoint chat_messages (http : http_outcome) (sip : sip_outcome) (messages : list string) : Sess.M unit :=
  match messages with
  | [] => Sess.ret tt
  | m :: rest =>
      (isolated (dispatch http sip (on_message_received m)) ;;
       chat_messages http sip rest)%sess
  end.

(** The model calls [book_appointment]; the assistant then reports the
    finished call to [on_function_calls_finished]. *)
Definition called_book_appointment (email name : string) (result : pyval) : CalledFunction :=
  {| fn_name := "book_appointment";
     fn_arguments := [("email", email); ("name", name)];
     fn_result := result |}.

End Entrypoint.
End MultiFunction.

(* ================================================================== *)
(** ** KnolabsDentalAssistant.py *)

Module Knolabs.

(** What a name can be bound to, as far as the handler cares. *)
Inductive pyobj : Type :=
| ObjCalledFunction (f : CalledFunction)
| ObjList (l : list CalledFunction)
| ObjStr (s : string)
| ObjOther.

Definition scope : Type := list (string * pyobj).

Fixpoint lookup (x : string) (sc : scope) : option pyobj :=
  match sc with
  | [] => None
  | (y, o) :: rest => if String.eqb y x then Some o else lookup x rest
  end.

(** Reading a variable: [NameError] when no scope binds it. *)
Definition load_name (sc : scope) (x : string) : Sess.M pyobj :=
  match lookup x sc with
  | Some o => Sess.ret o
  | None => Sess.raise (NameError x)
  end.

(** [o.result] *)
Definition getattr_result (o : pyobj) : Sess.M pyval :=
  match o with
  | ObjCalledFunction f => Sess.ret (fn_result f)
  | _ => Sess.raise AttributeError
  end.

Definition opaque (names : list string) : scope :=
  map (fun x => (x, ObjOther)) names.

(** The names bound at module level: the imports, the class and the two
    module-level coroutines. *)
Definition module_scope : scope :=
  opaque ["asyncio"; "Annotated"; "re"; "os"; "requests"; "load_dotenv";
          "agents"; "rtc"; "JobContext"; "WorkerOptions"; "cli"; "tokenize"; "tts";
          "ChatContext"; "ChatMessage"; "ChatImage"; "VoiceAssistant";
          "deepgram"; "openai"; "silero";
          "DentalAssistantFunction"; "get_video_track"; "entrypoint"].

(** The names [entrypoint] binds, visible to the closures it defines. *)
Definition entrypoint_scope : scope :=
  opaque ["ctx"; "chat_context"; "gpt"; "openai_tts"; "latest_image"; "assistant";
          "chat"; "_answer"; "follow_up_appointment"; "on_message_received";
          "on_function_calls_finished"; "video_track"; "event"].

(** What the handler sees at the point where it has bound
    [function_name]. *)
Definition handler_scope (called_functions : list CalledFunction) (function_name : string) : scope :=
  ([("called_functions", ObjList called_functions); ("function_name", ObjStr function_name)]
   ++ entrypoint_scope ++ module_scope)%list.

Definition assess_dental_urgency (symptoms : string) : IO.io pyval :=
  if PyStr.any_in DentalAssistantFunction.urgent_keywords (PyStr.lower symptoms)
  then IO.ret (PStr "Based on your description, this seems to be an urgent dental issue. I recommend seeking immediate dental care.")
  else IO.ret (PStr "Your dental issue doesn't appear to be immediately urgent, but it's still important to schedule an appointment soon for a proper evaluation.").

(** This variant's [_answer] takes a text and [use_image] only; its tasks
    carry [false] for the two flags it does not have. *)
Definition on_function_calls_finished (called_functions : list CalledFunction) : Sess.M unit :=
  match called_functions with
  | [] => Sess.ret tt
  | first :: _ =>
      let function_name := fn_name first in
      let sc := handler_scope called_functions function_name in
      (Sess.print function_name ;;
       if String.eqb function_name "assess_dental_urgency" then
         function <- load_name sc "function" ;;
         urgency_result <- getattr_result function ;;
         Sess.create_task (AnswerTask urgency_result false false false)
       else if String.eqb function_name "book_appointment" then
         match arguments_get "email" (fn_arguments first) with
         | Some email =>
             if PyStr.truthy email
             then Sess.create_task (FollowUpTask email)
             else Sess.ret tt
         | None => Sess.ret tt
         end
       else if String.eqb function_name "analyze_dental_image" then
         let user_instruction := pyval_of_option (arguments_get "user_msg" (fn_arguments first)) in
         Sess.create_task (AnswerTask user_instruction true false false)
       else Sess.ret tt)%sess
  end.

(** The model calls [assess_dental_urgency]; the assistant reports the
    finished call with the value the function returned. *)
Definition called_assess_dental_urgency (symptoms : string) : CalledFunction :=
  {| fn_name := "assess_dental_urgency";
     fn_arguments := [("symptoms", symptoms)];
     fn_result := match snd (assess_dental_urgency symptoms) with
                  | Ok v => v
                  | Raise _ => PNone
                  end |}.

End Knolabs.

(* ================================================================== *)
(** ** The video side of [entrypoint] *)

Module Video.

Inductive track : Type :=
| RemoteVideoTrack (sid : string)
| RemoteAudioTrack (sid : string).

(** [track_publication.track] is [None] until the track is subscribed. *)
Definition publication : Type := option track.

(** The values of [participant.track_publications], in order. *)
Definition participant : Type := list publication.

(** The values of [room.remote_participants], in order. *)
Definition room : Type := list participant.

(** The [asyncio.Future] that [get_video_track] fills. *)
Inductive future : Type :=
| Pending
| Resolved (t : track).

Definition is_video (p : publication) : bool :=
  match p with Some (RemoteVideoTrack _) => true | _ => false end.

(** The inner loop: it stops at the first video track.  [set_result] on a
    future that is already resolved raises [InvalidStateError], written
    [None] here. *)
Fixpoint scan_publications (publications : participant) (video_track : future)
  : list effect * option future :=
  match publications with
  | [] => ([], Some video_track)
  | Some (RemoteVideoTrack sid) :: _ =>
      match video_track with
      | Pending =>
          ([Print ("Using video track " ++ sid)], Some (Resolved (RemoteVideoTrack sid)))
      | Resolved _ => ([], None)
      end
  | _ :: rest => scan_publications rest video_track
  end.

(** The outer loop: the [break] above leaves the inner loop only. *)
Fixpoint scan_participants (participants : room) (video_track : future)
  : list effect * option future :=
  match participants with
  | [] => ([], Some video_track)
  | p :: rest =>
      match scan_publications p video_track with
      | (tr, Some fut) =>
          let (tr', r) := scan_participants rest fut in ((tr ++ tr')%list, r)
      | (tr, None) => (tr, None)
      end
  end.

(** What [await video_track] comes to. *)
Inductive awaited : Type :=
| Returned (t : track)
| InvalidStateError
| NeverResolves.

Definition get_video_track (r : room) : list effect * awaited :=
  match scan_participants r Pending with
  | (tr, Some (Resolved t)) => (tr, Returned t)
  | (tr, Some Pending) => (tr, NeverResolves)
  | (tr, None) => (tr, InvalidStateError)
  end.

(** [latest_image = event.frame], for one event of the video stream. *)
Definition receive_frame (frame : VideoFrame) : Sess.M unit :=
  fun st => ([], Ok tt,
             {| human_agent_present := human_agent_present st;
                chat_context := chat_context st;
                latest_image := Some frame |}).

(** [async for event in rtc.VideoStream(video_track)] over the frames that
    arrive. *)
Fixpoint video_stream (frames : list VideoFrame) : Sess.M unit :=
  match frames with
  | [] => Sess.ret tt
  | frame :: rest => (receive_frame frame ;; video_stream rest)%sess
  end.

(** The first video track among some publications, and the participants
    that publish one. *)
Fixpoint first_video (publications : participant) : option track :=
  match publications with
  | [] => None
  | p :: rest => if is_video p then p else first_video rest
  end.

Definition has_video (p : participant) : bool := existsb is_video p.

Definition with_video (r : room) : list participant := filter has_video r.

End Video.

(* ================================================================== *)
(** ** A session as a run of events *)

Inductive event : Type :=
| MessageReceived (message : string)
| FunctionCallsFinished (called_functions : list CalledFunction)
| ParticipantDisconnected
| FrameReceived (frame : VideoFrame).

(** An event, with what the CRM and the call service answer to the tasks
    it sets off. *)
Record stimulus : Type := {
  what : event;
  http_answer : http_outcome;
  sip_answer : sip_outcome
}.

Module HelpDeskSession.
Section Entrypoint.

Variable getenv : string -> option string.
Variable room_name : string.

Definition react (s : stimulus) : Sess.M unit :=
  let run := HelpDesk.dispatch getenv (http_answer s) (sip_answer s) in
  match what s with
  | MessageReceived message => run (HelpDesk.on_message_received message)
  | FunctionCallsFinished called_functions =>
      run (HelpDesk.on_function_calls_finished getenv room_name called_functions)
  | ParticipantDisconnected => run HelpDesk.on_customer_agent_finished
  | FrameReceived frame => Video.receive_frame frame
  end.

Fixpoint session_run (events : list stimulus) : Sess.M unit :=
  match events with
  | [] => Sess.ret tt
  | s :: rest => (isolated (react s) ;; session_run rest)%sess
  end.

End Entrypoint.
End HelpDeskSession.

Module MultiFunctionSession.
Section Entrypoint.

Variable getenv : string -> option string.
Variable room_name : string.

(** This file registers no handler for [participant_disconnected]. *)
Definition react (s : stimulus) : Sess.M unit :=
  let run := MultiFunction.dispatch getenv (http_answer s) (sip_answer s) in
  match what s with
  | MessageReceived message => run (MultiFunction.on_message_received message)
  | FunctionCallsFinished called_functions =>
      run (MultiFunction.on_function_calls_finished getenv room_name called_functions)
  | ParticipantDisconnected => Sess.ret tt
  | FrameReceived frame => Video.receive_frame frame
  end.

Fixpoint session_run (events : list stimulus) : Sess.M unit :=
  match events with
  | [] => Sess.ret tt
  | s :: rest => (isolated (react s) ;; session_run rest)%sess
  end.

End Entrypoint.
End MultiFunctionSession.

(** [st'] comes after [st] along the trace [tr]: the flag, once set, is
    still set; the transcript has grown at its end, by user messages only,
    and by one message for each invocation of the model. *)
Definition is_user_message (m : ChatMessage) : bool :=
  match msg_role m with User => true | _ => false end.

Definition keeps_pace (tr : list effect) (st st' : session) : Prop :=
  (human_agent_present st = true -> human_agent_present st' = true) /\
  exists added,
    chat_context st' = (chat_context st ++ added)%list /\
    forallb is_user_message added = true /\
    List.length added = count is_gpt tr.

(** Code that keeps pace from every session it starts in. *)
Definition paced {A : Type} (m : Sess.M A) : Prop :=
  forall st, keeps_pace (Sess.trace (m st)) st (Sess.final (m st)).

(* ================================================================== *)
(** ** agent.py *)

Module Agent.

(** What [requests.get] brings back when nothing checks the status for it:
    an exception, or a response with its status code and decoded body. *)
Inductive http_reply : Type :=
| NoReply
| Reply (status_code : Z) (payload : json).

(** [room_info.get("num_participants", 0)] *)
Definition get_num_participants (room_info : json) : result json :=
  match room_info with
  | JObj fields =>
      match PyJson.assoc "num_participants" fields with
      | Some v => Ok v
      | None => Ok (JNum 0)
      end
  | _ => Raise AttributeError
  end.

(** [participants > 0]: numbers and booleans compare with an integer, the
    other values raise [TypeError]. *)
Definition gt_zero (participants : json) : result bool :=
  match participants with
  | JNum q => Ok (0 <? Qnum q)
  | JBool b => Ok b
  | _ => Raise TypeError
  end.

(** The parameters that this file's [_answer] declares. *)
Definition _answer_parameters : list string := ["text"].

(** Calling [_answer(text, **keywords)] builds the coroutine, or raises
    [TypeError] for a keyword that [_answer] does not declare. *)
Definition call__answer (text : string) (keywords : list string) : Sess.M task :=
  if forallb (fun k => existsb (String.eqb k) _answer_parameters) keywords
  then Sess.ret (AnswerTask (PStr text) false false false)
  else Sess.raise TypeError.

Definition on_function_calls_finished (called_functions : list CalledFunction) : Sess.M unit :=
  match called_functions with
  | [] => Sess.ret tt
  | first :: _ =>
      (match arguments_get "user_msg" (fn_arguments first) with
       | Some user_msg =>
           if PyStr.truthy user_msg
           then coroutine <- call__answer user_msg ["use_image"] ;;
                Sess.create_task coroutine
           else Sess.ret tt
       | None => Sess.ret tt
       end ;;
       match arguments_get "email" (fn_arguments first) with
       | Some email =>
           if PyStr.truthy email
           then Sess.create_task (FollowUpTask email)
           else Sess.ret tt
       | None => Sess.ret tt
       end)%sess
  end.

Section Room.

Variable getenv : string -> option string.
Variable str_of_int : Z -> string.       (* how an f-string prints an integer *)

Definition check_room_status (room_name : string) (r : http_reply) : IO.io bool :=
  IO.try_except_RequestException
    (IO.emit (Http GET (Some (fstr (getenv "LIVEKIT_SERVER_URL") ++ "/rooms/" ++ room_name)) []) ;;
     match r with
     | NoReply => IO.raise ConnectionError
     | Reply status_code payload =>
         if status_code =? 200 then
           participants <- IO.of_result (get_num_participants payload) ;;
           IO.of_result (gt_zero participants)
         else IO.ret false
     end)%io
    (IO.print "Error checking room status: " ;;
     IO.ret false)%io.

Definition max_retries : Z := 12.

(** The [while] loop of [wait_for_room], from a given value of [retries];
    [replies i] is what the poll made with [retries = i] gets.  [None] is
    a loop that has not ended when the fuel has. *)
Fixpoint wait_loop (fuel : nat) (room_name : string) (replies : Z -> http_reply)
    (retries : Z) : IO.io (option bool) :=
  match fuel with
  | O => IO.ret None
  | S fuel' =>
      if retries <? max_retries then
        (room_exists <- check_room_status room_name (replies retries) ;;
         if (room_exists : bool) then
           IO.print ("Room " ++ room_name ++ " is active. Joining now...") ;;
           IO.ret (Some true)
         else
           IO.print ("Waiting for the room " ++ room_name ++ " to become active... ("
                     ++ str_of_int (retries + 1) ++ "/" ++ str_of_int max_retries ++ ")") ;;
           IO.emit (Sleep 5) ;;
           wait_loop fuel' room_name replies (retries + 1))%io
      else IO.ret (Some false)
  end.

Definition wait_for_room (room_name : string) (replies : Z -> http_reply)
  : IO.io (option bool) :=
  wait_loop 13 room_name replies 0.

End Room.

(** What the poll made with [retries = i] finds. *)
Definition poll (getenv : string -> option string) (room_name : string)
    (replies : Z -> http_reply) (i : Z) : result bool :=
  IO.value (check_room_status getenv room_name (replies i)).

(** Requests made along a trace. *)
Definition polls (tr : list effect) : Z := Z.of_nat (count is_http tr).

(** Seconds slept along a trace. *)
Fixpoint slept (tr : list effect) : Z :=
  match tr with
  | [] => 0
  | Sleep seconds :: rest => seconds + slept rest
  | _ :: rest => slept rest
  end.

End Agent.

(* ================================================================== *)
(** ** config.py, tts/__init__.py, tts/openai_tts.py, assistant/voice_assistant.py *)

Module Startup.

(** [os.getenv(key, default)] *)
Definition getenv_or (getenv : string -> option string) (key default : string) : string :=
  match getenv key with Some v => v | None => default end.

Record config : Type := {
  openai_api_key : option string;
  livekit_api_key : option string;
  livekit_api_secret : option string;
  tts_provider : string;
  webhook_url : option string;
  gpt_model : string;
  openai_tts_voice : string
}.

Definition load_config (getenv : string -> option string) : config :=
  {| openai_api_key := getenv "OPENAI_API_KEY";
     livekit_api_key := getenv "LIVEKIT_API_KEY";
     livekit_api_secret := getenv "LIVEKIT_API_SECRET";
     tts_provider := getenv_or getenv "TTS_PROVIDER" "openai";
     webhook_url := getenv "WEBHOOK_URL";
     gpt_model := getenv_or getenv "GPT_MODEL" "gpt-4o-mini";
     openai_tts_voice := getenv_or getenv "OPENAI_TTS_VOICE" "alloy" |}.

(** What the speech engine is built from. *)
Inductive tts_engine : Type := OpenAITTS (voice : string).

(** What a constructor may raise. *)
Inductive failure : Type :=
| ValueError (message : string)
| LibraryError (what : string).

Inductive built (A : Type) : Type :=
| Built (a : A)
| Fails (e : failure).
Arguments Built {A} a.
Arguments Fails {A} e.

Definition and_then {A B} (m : built A) (k : A -> built B) : built B :=
  match m with
  | Built a => k a
  | Fails e => Fails e
  end.

(** The constructors of the libraries that start-up calls.  Whether one
    of them succeeds depends on the process (API keys, model files), so
    each is given by what it raises, if anything. *)
Record libraries : Type := {
  openai_LLM : string -> option failure;      (* [openai.LLM(model=...)] *)
  openai_TTS : string -> option failure;      (* [openai.TTS(voice=...)] *)
  SentenceTokenizer : option failure;         (* [tokenize.basic.SentenceTokenizer()] *)
  StreamAdapter : option failure;             (* [tts.StreamAdapter(tts=..., sentence_tokenizer=...)] *)
  silero_VAD_load : option failure;           (* [silero.VAD.load()] *)
  deepgram_STT : option failure;              (* [deepgram.STT()] *)
  AssistantFunction_init : option failure;    (* [AssistantFunction(webhook_url)] *)
  VoiceAssistant_init : option failure        (* [VoiceAssistant(...)] *)
}.

Definition call (raised : option failure) : built unit :=
  match raised with
  | None => Built tt
  | Some e => Fails e
  end.

Definition create_openai_tts (lib : libraries) (c : config) : built tts_engine :=
  and_then (call (openai_TTS lib (openai_tts_voice c))) (fun _ =>
  and_then (call (SentenceTokenizer lib)) (fun _ =>
  and_then (call (StreamAdapter lib)) (fun _ =>
  Built (OpenAITTS (openai_tts_voice c))))).

Definition get_tts_engine (lib : libraries) (c : config) : built tts_engine :=
  if String.eqb (tts_provider c) "openai"
  then create_openai_tts lib c
  else Fails (ValueError ("Unsupported TTS provider: " ++ tts_provider c)).

(** The parts of the voice assistant that the configuration decides. *)
Record voice_assistant : Type := {
  llm_model : string;
  tts : tts_engine;
  fnc_webhook_url : option string;
  chat_ctx : list ChatMessage
}.

(** [gpt] is built first, then the speech engine; the arguments of
    [VoiceAssistant(...)] are evaluated in the order they are written. *)
Definition create_voice_assistant (lib : libraries) (c : config)
    (chat_context : list ChatMessage) : built voice_assistant :=
  and_then (call (openai_LLM lib (gpt_model c))) (fun _ =>
  and_then (get_tts_engine lib c) (fun tts_engine =>
  and_then (call (silero_VAD_load lib)) (fun _ =>
  and_then (call (deepgram_STT lib)) (fun _ =>
  and_then (call (AssistantFunction_init lib)) (fun _ =>
  and_then (call (VoiceAssistant_init lib)) (fun _ =>
  Built {| llm_model := gpt_model c;
           tts := tts_engine;
           fnc_webhook_url := webhook_url c;
           chat_ctx := chat_context |})))))).

(** Every constructor other than [openai.LLM] succeeds. *)
Definition the_rest_builds (lib : libraries) (voice : string) : Prop :=
  openai_TTS lib voice = None /\ SentenceTokenizer lib = None /\
  StreamAdapter lib = None /\ silero_VAD_load lib = None /\
  deepgram_STT lib = None /\ AssistantFunction_init lib = None /\
  VoiceAssistant_init lib = None.

(** A process in which every constructor succeeds, and one in which
    [openai.LLM] finds no API key. *)
Definition working_libraries : libraries :=
  {| openai_LLM := fun _ => None;
     openai_TTS := fun _ => None;
     SentenceTokenizer := None;
     StreamAdapter := None;
     silero_VAD_load := None;
     deepgram_STT := None;
     AssistantFunction_init := None;
     VoiceAssistant_init := None |}.

Definition libraries_without_key : libraries :=
  {| openai_LLM := fun _ => Some (ValueError "OpenAI API key is required");
     openai_TTS := fun _ => Some (LibraryError "OpenAIError");
     SentenceTokenizer := None;
     StreamAdapter := None;
     silero_VAD_load := None;
     deepgram_STT := None;
     AssistantFunction_init := None;
     VoiceAssistant_init := None |}.

End Startup.

(** The class [[^@]] of the email pattern. *)
Definition not_at : Re.regex := Re.Chr (Re.NotLit "@"%char).

(** A piece of text without the character [@]. *)
Fixpoint no_at (s : string) : bool :=
  match s with
  | EmptyString => true
  | String c s' => negb (Ascii.eqb c "@"%char) && no_at s'
  end.

(** An email that starts as [local@domain.x]: a local part and a domain
    without [@], a dot, and one more character that is not [@]. *)
Definition has_email_form (email : string) : Prop :=
  exists local domain c rest,
    email = local ++ "@" ++ domain ++ "." ++ String c rest /\
    local <> "" /\ no_at local = true /\
    domain <> "" /\ no_at domain = true /\
    c <> "@"%char.

(** The requests that write a contact. *)
Definition create_contact_request (getenv : string -> option string) (email name : string)
  : effect :=
  Http POST (Some (fstr (getenv "CRM_CONTACT_ENDPOINT")))
    [("email", JStr email); ("firstName", JStr name);
     ("tags", JArr [JStr "new_dental_patient"])].

Definition update_contact_request (getenv : string -> option string)
    (contact_id issue_description : string) : effect :=
  Http PUT (Some (fstr (getenv "CRM_CONTACT_ENDPOINT") ++ "/" ++ contact_id))
    [("customField", JObj [("describe_your_issue", JStr issue_description)])].

Definition booked_message : string :=
  "You have successfully booked a dental appointment.".

Definition offer_message : string :=
  "You haven't booked a dental appointment yet. Would you like assistance in scheduling one?".

(** The request [check_appointment_status] makes. *)
Definition lookup_request (getenv : string -> option string) (email : string) : effect :=
  Http GET (Some (fstr (getenv "CRM_CONTACT_LOOKUP_ENDPOINT") ++ "?email=" ++ email)) [].

(** An answer of the lookup endpoint as the CRM documents it: an object
    whose [contacts], when present, is a list of objects whose [tags], when
    present, is a list. *)
Definition well_formed_contact (contact : json) : bool :=
  match contact with
  | JObj fields =>
      match PyJson.assoc "tags" fields with
      | Some (JArr _) | None => true
      | Some _ => false
      end
  | _ => false
  end.

Definition well_formed_lookup (data : json) : bool :=
  match data with
  | JObj fields =>
      match PyJson.assoc "contacts" fields with
      | Some (JArr contacts) => forallb well_formed_contact contacts
      | None => true
      | Some _ => false
      end
  | _ => false
  end.

Definition contact_is_booked (contact : json) : bool :=
  match contact with
  | JObj fields =>
      match PyJson.assoc "tags" fields with
      | Some (JArr tags) =>
          existsb (fun tag => PyJson.is_str tag "livekit_appointment_booked") tags
      | _ => false
      end
  | _ => false
  end.

Definition lookup_contacts (data : json) : list json :=
  match data with
  | JObj fields =>
      match PyJson.assoc "contacts" fields with
      | Some (JArr contacts) => contacts
      | _ => []
      end
  | _ => []
  end.

Definition is_object (j : json) : bool :=
  match j with JObj _ => true | _ => false end.

(** A server that does not answer, then does not know the room, then
    reports it with one participant. *)
Definition room_with (participants : Z) : json :=
  JObj [("name", JStr "clinic-room"); ("num_participants", JNum (inject_Z participants))].

Definition third_poll_finds_someone (i : Z) : Agent.http_reply :=
  if i =? 0 then Agent.NoReply
  else if i =? 1 then Agent.Reply 404 JNull
  else Agent.Reply 200 (room_with (i - 1)).

(** An environment that asks for another speech provider. *)
Definition elevenlabs_env (key : string) : option string :=
  if String.eqb key "TTS_PROVIDER" then Some "elevenlabs" else sample_env key.

Definition is_sip (e : effect) : bool :=
  match e with CreateSipParticipant _ _ _ => true | _ => false end.

(** The finished call that the assistant reports after the model has
    called [assess_dental_urgency] of AIAssistedCustomerHelpDesk.py. *)
Definition assessed (symptoms : string) : CalledFunction :=
  {| fn_name := "assess_dental_urgency";
     fn_arguments := [("symptoms", symptoms)];
     fn_result := match IO.value (HelpDesk.assess_dental_urgency symptoms) with
                  | Ok v => v
                  | Raise _ => PNone
                  end |}.

(** The finished call after [book_emergency_appointment]. *)
Definition emergency_booked (getenv : string -> option string) (slot email : string)
    (o : http_outcome) : CalledFunction :=
  {| fn_name := "book_emergency_appointment";
     fn_arguments := [("slot", slot); ("email", email)];
     fn_result := match IO.value (MultiFunction.book_emergency_appointment getenv slot email o) with
                  | Ok v => v
                  | Raise _ => PNone
                  end |}.

(** The finished call after [analyze_dental_image]. *)
Definition image_requested (user_msg : string) : CalledFunction :=
  {| fn_name := "analyze_dental_image";
     fn_arguments := [("user_msg", user_msg)];
     fn_result := PNone |}.

Definition announcement : string :=
  "Human assistance is coming. Please wait while I'm trying to connect you. I'll be here if you need me, just say my name.".

(** The user message that [_answer] appends for [text], with the cached
    frame when there is one. *)
Definition message_with_image (text : string) (image : option VideoFrame) : ChatMessage :=
  {| msg_role := User;
     content := Text (PStr text) :: match image with
                                    | Some frame => [Image frame]
                                    | None => []
                                    end |}.

(* ================================================================== *)
(** ** Values named in the statements below *)

(** The message [book_emergency_appointment] returns when its request
    fails. *)
Definition emergency_booking_error : string :=
  "There was an error booking your emergency appointment. Please try again later.".

(** The one request [find_appointment_slots] makes, for a given window. *)
Definition slots_request (getenv : string -> option string) (timestamp_ms : Z -> Z)
    (window : Z * Z) : effect :=
  Http GET (Some (fstr (getenv "APPOINTMENT_SLOTS_ENDPOINT")))
    [("calendarId", json_of_env (getenv "CALENDAR_ID"));
     ("startDate", JNum (inject_Z (timestamp_ms (fst window))));
     ("endDate", JNum (inject_Z (timestamp_ms (snd window))));
     ("timezone", JStr "Europe/London")].

(** An answer of the slots endpoint with one day and one slot. *)
Definition one_slot_answer : json :=
  JObj [("2024-10-17", JObj [("slots", JArr [JStr "2024-10-17T03:30:00+01:00"])])].

(* ================================================================== *)
(** * Properties *)

(** ** Strings *)

Module PyStrFacts.

Lemma prefix_app (a b : string) : String.prefix a (a ++ b) = true.
Proof.
  induction a as [|c a IH]; simpl.
  - now destruct b.
  - destruct (ascii_dec c c) as [_|ne]; [exact IH | now elim ne].
Qed.

Lemma prefix_inv (a s : string) :
  String.prefix a s = true -> exists b, s = a ++ b.
Proof.
  revert s; induction a as [|c a IH]; intros s H.
  - now exists s.
  - destruct s as [|d s]; simpl in H; [discriminate|].
    destruct (ascii_dec c d) as [->|_]; [|discriminate].
    destruct (IH _ H) as [b ->]. now exists b.
Qed.

Lemma contains_of_prefix (needle hay : string) :
  String.prefix needle hay = true -> PyStr.contains needle hay = true.
Proof. intros H. destruct hay; cbn [PyStr.contains]; now rewrite H. Qed.

Lemma contains_app (needle before rest : string) :
  PyStr.contains needle (before ++ needle ++ rest) = true.
Proof.
  induction before as [|c before IH].
  - cbn [append]. apply contains_of_prefix, prefix_app.
  - change (String c before ++ needle ++ rest)
      with (String c (before ++ needle ++ rest)).
    cbn [PyStr.contains]. rewrite IH.
    now destruct (String.prefix needle (String c (before ++ needle ++ rest))).
Qed.

Lemma contains_inv (needle hay : string) :
  PyStr.contains needle hay = true ->
  exists before rest, hay = before ++ needle ++ rest.
Proof.
  induction hay as [|c hay IH]; cbn [PyStr.contains].
  - destruct (String.prefix needle "") eqn:P; [|discriminate].
    intros _. destruct (prefix_inv _ _ P) as [b Hb]. now exists "", b.
  - destruct (String.prefix needle (String c hay)) eqn:P.
    + intros _. destruct (prefix_inv _ _ P) as [b Hb]. now exists "", b.
    + intros H. destruct (IH H) as (before & rest & ->).
      now exists (String c before), rest.
Qed.

(** [needle in hay] holds exactly when [hay] has [needle] as a substring. *)
Lemma contains_spec (needle hay : string) :
  PyStr.contains needle hay = true <->
  exists before rest, hay = before ++ needle ++ rest.
Proof.
  split; [apply contains_inv|].
  intros (before & rest & ->). apply contains_app.
Qed.

Lemma lower_app (a b : string) :
  PyStr.lower (a ++ b) = PyStr.lower a ++ PyStr.lower b.
Proof. induction a as [|c a IH]; simpl; [reflexivity | now rewrite IH]. Qed.

Lemma lower_split (s x y : string) :
  PyStr.lower s = x ++ y ->
  exists s1 s2, s = s1 ++ s2 /\ PyStr.lower s1 = x /\ PyStr.lower s2 = y.
Proof.
  revert s; induction x as [|c x IH]; intros s H.
  - now exists "", s.
  - destruct s as [|d s]; simpl in H; [discriminate|].
    injection H as Hc Hs.
    destruct (IH _ Hs) as (s1 & s2 & -> & L1 & L2).
    exists (String d s1), s2. simpl. now rewrite Hc, L1.
Qed.

(** The test [phrase in text.lower()] is containment ignoring the case of
    [text]. *)
Lemma contains_lower_spec (phrase text : string) :
  PyStr.contains phrase (PyStr.lower text) = true <->
  contains_ignoring_case phrase text.
Proof.
  unfold contains_ignoring_case. rewrite contains_spec. split.
  - intros (b & r & H).
    destruct (lower_split _ _ _ H) as (s1 & s23 & -> & _ & H23).
    destruct (lower_split _ _ _ H23) as (s2 & s3 & -> & L2 & _).
    now exists s1, s2, s3.
  - intros (b & m & r & -> & L).
    exists (PyStr.lower b), (PyStr.lower r).
    now rewrite !lower_app, L.
Qed.

Lemma any_in_spec (keywords : list string) (text : string) :
  PyStr.any_in keywords (PyStr.lower text) = true <->
  exists keyword, In keyword keywords /\ contains_ignoring_case keyword text.
Proof.
  unfold PyStr.any_in. rewrite existsb_exists.
  split; intros (k & Hin & H); exists k; split; trivial;
    now apply contains_lower_spec.
Qed.

Lemma truthy_of_contains (needle hay : string) :
  PyStr.truthy needle = true -> PyStr.contains needle hay = true ->
  PyStr.truthy hay = true.
Proof.
  intros Hn H. destruct hay; [|reflexivity].
  simpl in H. destruct needle; [discriminate Hn | discriminate H].
Qed.

End PyStrFacts.

(** ** Regular expressions *)

Module ReFacts.
Import Re.

Lemma app_empty_inv (a b : string) : a ++ b = "" -> a = "" /\ b = "".
Proof. destruct a; simpl; [now intros -> | discriminate]. Qed.

Lemma app_empty_r (a : string) : a ++ "" = a.
Proof. induction a as [|c a IH]; simpl; [reflexivity | now rewrite IH]. Qed.

Lemma app_assoc (a b c : string) : (a ++ b) ++ c = a ++ b ++ c.
Proof. induction a as [|x a IH]; simpl; [reflexivity | now rewrite IH]. Qed.

Lemma lang_empty_nullable (r : regex) (s : string) :
  lang r s -> s = "" -> nullable r = true.
Proof.
  induction 1 as [ | | r1 r2 s1 s2 _ IH1 _ IH2 | r1 r2 s _ IH | r1 r2 s _ IH | | ];
    intros E; simpl; trivial.
  - discriminate.
  - destruct (app_empty_inv _ _ E) as [E1 E2]. now rewrite IH1, IH2.
  - now rewrite IH.
  - rewrite (IH E). apply orb_true_r.
Qed.

Lemma nullable_lang (r : regex) : nullable r = true <-> lang r "".
Proof.
  split; [|intros H; now apply (lang_empty_nullable r "")].
  induction r as [ | | cs | r1 IH1 r2 IH2 | r1 IH1 r2 IH2 | r IH]; simpl; intros H;
    try discriminate.
  - constructor.
  - apply andb_true_iff in H as [H1 H2].
    change "" with ("" ++ ""). constructor; auto.
  - apply orb_true_iff in H as [H|H]; [apply lang_alt_l | apply lang_alt_r]; auto.
  - constructor.
Qed.

Lemma deriv_sound (c : ascii) (r : regex) :
  forall s, lang (deriv c r) s -> lang r (String c s).
Proof.
  induction r as [ | | cs | r1 IH1 r2 IH2 | r1 IH1 r2 IH2 | r IH]; simpl; intros s H.
  - inversion H.
  - inversion H.
  - destruct (accepts cs c) eqn:A; inversion H; subst. now constructor.
  - assert (left : forall t, lang (Cat (deriv c r1) r2) t -> lang (Cat r1 r2) (String c t)).
    { intros t Ht. inversion Ht; subst.
      change (String c (s1 ++ s2)) with (String c s1 ++ s2). constructor; auto. }
    destruct (nullable r1) eqn:N; [|now apply left].
    inversion H; subst; [now apply left|].
    change (String c s) with ("" ++ String c s).
    constructor; [now apply nullable_lang | auto].
  - inversion H; subst; [apply lang_alt_l | apply lang_alt_r]; auto.
  - inversion H; subst.
    change (String c (s1 ++ s2)) with (String c s1 ++ s2). constructor; auto.
Qed.

Lemma deriv_complete (c : ascii) (r : regex) (w : string) :
  lang r w -> forall s, w = String c s -> lang (deriv c r) s.
Proof.
  induction 1 as [ | cs d A | r1 r2 s1 s2 H1 IH1 H2 IH2 | r1 r2 s0 _ IH | r1 r2 s0 _ IH
                   | | r s1 s2 H1 IH1 H2 IH2 ]; intros s E.
  - discriminate.
  - injection E as -> <-. simpl. rewrite A. constructor.
  - simpl. destruct s1 as [|d s1]; simpl in E.
    + rewrite ((proj2 (nullable_lang r1)) H1). apply lang_alt_r. auto.
    + injection E as -> <-.
      assert (lang (Cat (deriv c r1) r2) (s1 ++ s2)) by (constructor; auto).
      destruct (nullable r1); [now apply lang_alt_l | assumption].
  - simpl. apply lang_alt_l. auto.
  - simpl. apply lang_alt_r. auto.
  - discriminate.
  - destruct s1 as [|d s1]; simpl in E.
    + auto.
    + injection E as -> <-. simpl. constructor; auto.
Qed.

(** The matcher decides membership in the language of the pattern. *)
Lemma fullmatch_lang (r : regex) (s : string) :
  fullmatch r s = true <-> lang r s.
Proof.
  revert r; induction s as [|c s IH]; intros r; simpl.
  - apply nullable_lang.
  - rewrite IH. split; [apply deriv_sound|].
    intros H. now apply (deriv_complete c r (String c s)).
Qed.

Lemma fullmatch_re_match_app (r : regex) (p q : string) :
  fullmatch r p = true -> re_match r (p ++ q) = true.
Proof.
  revert r; induction p as [|c p IH]; intros r H; simpl in *.
  - destruct q; simpl; now rewrite H.
  - destruct (nullable r); [reflexivity | now apply IH].
Qed.

Lemma re_match_inv (r : regex) (s : string) :
  re_match r s = true -> exists p q, s = p ++ q /\ fullmatch r p = true.
Proof.
  revert r; induction s as [|c s IH]; intros r; simpl.
  - destruct (nullable r) eqn:N; [|discriminate]. now exists "", "".
  - destruct (nullable r) eqn:N.
    + now exists "", (String c s).
    + intros H. destruct (IH _ H) as (p & q & -> & F).
      now exists (String c p), q.
Qed.

(** [re.match] succeeds exactly when some prefix of the string is in the
    language of the pattern. *)
Lemma re_match_spec (r : regex) (s : string) :
  re_match r s = true <-> exists p q, s = p ++ q /\ lang r p.
Proof.
  split.
  - intros H. destruct (re_match_inv _ _ H) as (p & q & -> & F).
    exists p, q. split; [reflexivity | now apply fullmatch_lang].
  - intros (p & q & -> & L). now apply fullmatch_re_match_app, fullmatch_lang.
Qed.

Lemma strip_final_newline_inv (s s' : string) :
  strip_final_newline s = Some s' -> s = s' ++ String (ascii_of_nat 10) "".
Proof.
  revert s'; induction s as [|c s IH]; intros s'; [discriminate|].
  cbn [strip_final_newline]. destruct s as [|d s].
  - destruct (Ascii.eqb c (ascii_of_nat 10)) eqn:E; [|discriminate].
    intros [= <-]. apply Ascii.eqb_eq in E. now subst.
  - destruct (strip_final_newline (String d s)) as [t|]; [|discriminate].
    simpl. intros [= <-]. now rewrite (IH t eq_refl).
Qed.

(** Whatever the anchored pattern accepts, the unanchored [re.match]
    accepts too. *)
Lemma anchored_match_re_match (r : regex) (s : string) :
  anchored_match r s = true -> re_match r s = true.
Proof.
  unfold anchored_match. intros H. apply orb_true_iff in H as [H|H].
  - rewrite <- (app_empty_r s). now apply fullmatch_re_match_app.
  - destruct (strip_final_newline s) as [s'|] eqn:E; [|discriminate].
    rewrite (strip_final_newline_inv _ _ E). now apply fullmatch_re_match_app.
Qed.

Lemma re_match_nonempty (s : string) :
  re_match email_pattern s = true -> PyStr.truthy s = true.
Proof. destruct s; [discriminate | reflexivity]. Qed.

End ReFacts.

(** ** The callable functions *)

Lemma book_appointment_rejected getenv email name o :
  Re.re_match email_pattern email = false ->
  DentalAssistantFunction.book_appointment getenv email name o =
  ([], Ok (PStr "The email address seems incorrect. Please provide a valid one.")).
Proof.
  intros H. unfold DentalAssistantFunction.book_appointment. now rewrite H.
Qed.

Lemma book_appointment_accepted getenv email name o :
  Re.re_match email_pattern email = true ->
  DentalAssistantFunction.book_appointment getenv email name o =
  match o with
  | Success _ | SuccessNotJson =>
      ([Http POST (getenv "WEBHOOK_URL") [("email", JStr email); ("name", JStr name)]],
       Ok (PStr ("Dental appointment booking link sent to " ++ email
                 ++ ". Please check your email.")))
  | RequestFailed | ErrorStatus =>
      ([Http POST (getenv "WEBHOOK_URL") [("email", JStr email); ("name", JStr name)];
        Print "Error booking appointment: "],
       Ok (PStr "There was an error booking your dental appointment. Please try again later."))
  end.
Proof.
  intros H. unfold DentalAssistantFunction.book_appointment. rewrite H.
  now destruct o.
Qed.

Lemma follow_up_scheduled getenv room_name email name result st :
  PyStr.truthy email = true ->
  MultiFunction.on_function_calls_finished getenv room_name
    [MultiFunction.called_book_appointment email name result] st =
  ([Print "book_appointment"; CreateTask (FollowUpTask email)], Ok tt, st).
Proof.
  intros H. unfold MultiFunction.on_function_calls_finished,
    MultiFunction.called_book_appointment.
  cbn. rewrite H. reflexivity.
Qed.

(** C1 (as amended): [book_appointment] validates with [re.match], which
    pins the pattern at the start of the email only.  Every email that the
    fully anchored pattern accepts is accepted.  For an accepted email the
    function issues exactly one HTTP request, a POST to the webhook carrying
    the email and the name, and the function-calls-finished handler creates
    exactly one follow-up task for that email.  For a rejected email the
    function returns the correction message and issues no request.  An
    email is accepted exactly when it starts with a stretch that the
    pattern matches. *)
Theorem C1_book_appointment_accepts_by_prefix :
  forall getenv room_name email name o result st,
    let call := DentalAssistantFunction.book_appointment getenv email name o in
    let finished :=
      MultiFunction.on_function_calls_finished getenv room_name
        [MultiFunction.called_book_appointment email name result] st in
    (spec_anchored_email email = true -> Re.re_match email_pattern email = true) /\
    (Re.re_match email_pattern email = true ->
       count is_http (IO.trace call) = 1%nat /\
       count is_post (IO.trace call) = 1%nat /\
       In (Http POST (getenv "WEBHOOK_URL") [("email", JStr email); ("name", JStr name)])
          (IO.trace call) /\
       spawned (Sess.trace finished) = [FollowUpTask email]) /\
    (Re.re_match email_pattern email = false ->
       call = ([], Ok (PStr "The email address seems incorrect. Please provide a valid one."))) /\
    (Re.re_match email_pattern email = true <->
     exists matched rest, email = matched ++ rest /\ Re.lang email_pattern matched).
Proof.
  intros getenv room_name email name o result st call finished.
  split; [apply ReFacts.anchored_match_re_match|].
  split; [|split].
  - intros H. subst call finished.
    rewrite (book_appointment_accepted _ _ _ _ H).
    rewrite (follow_up_scheduled _ _ _ _ _ _ (ReFacts.re_match_nonempty _ H)).
    destruct o; cbn; auto.
  - apply book_appointment_rejected.
  - apply ReFacts.re_match_spec.
Qed.

Lemma C1_witness :
  Re.re_match email_pattern "bob@example.com" = true /\
  count is_post
    (IO.trace (DentalAssistantFunction.book_appointment sample_env
                 "bob@example.com" "Bob" (Success JNull))) = 1%nat /\
  spawned
    (Sess.trace
       (MultiFunction.on_function_calls_finished sample_env "clinic-room"
          [MultiFunction.called_book_appointment "bob@example.com" "Bob"
             (PStr "Dental appointment booking link sent to bob@example.com. Please check your email.")]
          fresh_session))
  = [FollowUpTask "bob@example.com"] /\
  DentalAssistantFunction.book_appointment sample_env "not-an-email" "Bob" (Success JNull)
  = ([], Ok (PStr "The email address seems incorrect. Please provide a valid one.")).
Proof.
  assert (valid : Re.re_match email_pattern "bob@example.com" = true) by reflexivity.
  assert (invalid : Re.re_match email_pattern "not-an-email" = false) by reflexivity.
  pose proof (C1_book_appointment_accepts_by_prefix sample_env "clinic-room"
                "bob@example.com" "Bob" (Success JNull)
                (PStr "Dental appointment booking link sent to bob@example.com. Please check your email.")
                fresh_session) as ok.
  pose proof (C1_book_appointment_accepts_by_prefix sample_env "clinic-room"
                "not-an-email" "Bob" (Success JNull) PNone fresh_session) as ko.
  cbv zeta in ok, ko.
  destruct ok as (_ & ok & _). destruct (ok valid) as (_ & posts & _ & follow).
  destruct ko as (_ & _ & ko & _).
  exact (conj valid (conj posts (conj follow (ko invalid)))).
Defined.

(** C1, as stated, fails: an email with a second [@] after a well-formed
    start does not match the anchored pattern, yet it is accepted and
    posted to the webhook. *)
Lemma C1_counterexample :
  spec_anchored_email "a@b.c@d" = false /\
  DentalAssistantFunction.book_appointment sample_env "a@b.c@d" "Bob" (Success JNull) =
  ([Http POST (Some "https://hooks.example/book")
      [("email", JStr "a@b.c@d"); ("name", JStr "Bob")]],
   Ok (PStr "Dental appointment booking link sent to a@b.c@d. Please check your email.")).
Proof. split; reflexivity. Qed.

Lemma mentions_urgent_keyword_iff (symptoms : string) :
  mentions_urgent_keyword symptoms <->
  PyStr.any_in DentalAssistantFunction.urgent_keywords (PyStr.lower symptoms) = true.
Proof. symmetry. apply PyStrFacts.any_in_spec. Qed.

Lemma not_mentions_urgent_keyword_iff (symptoms : string) :
  ~ mentions_urgent_keyword symptoms <->
  PyStr.any_in DentalAssistantFunction.urgent_keywords (PyStr.lower symptoms) = false.
Proof.
  rewrite mentions_urgent_keyword_iff.
  destruct (PyStr.any_in _ _); split; intros H; try reflexivity; try discriminate.
  now elim H.
Qed.

(** C2 (as amended): [assess_dental_urgency] is a local classification that
    issues no request and cannot raise.  A description that contains one of
    the six keywords, ignoring case, gets the sentinel [call_human_agent] in
    AIAssistedCustomerHelpDesk.py, where the handler consumes it: it creates
    the outbound-call task and sets [human_agent_present].  In
    AIAssistedCustomerHelpDeskMultiFunction.py the same description gets the
    plain text "The issue needs urgent attention !!", and the handler of that
    file does nothing on a finished [assess_dental_urgency] call.  Any other
    description gets the reassurance text in both files. *)
Theorem C2_assess_dental_urgency_per_variant :
  forall symptoms getenv room_name args any_result st,
    (mentions_urgent_keyword symptoms ->
       HelpDesk.assess_dental_urgency symptoms = ([], Ok (PStr "call_human_agent")) /\
       MultiFunction.assess_dental_urgency symptoms
       = ([], Ok (PStr "The issue needs urgent attention !!"))) /\
    (~ mentions_urgent_keyword symptoms ->
       HelpDesk.assess_dental_urgency symptoms = ([], Ok (PStr reassurance)) /\
       MultiFunction.assess_dental_urgency symptoms = ([], Ok (PStr reassurance))) /\
    (let finished :=
       HelpDesk.on_function_calls_finished getenv room_name
         [{| fn_name := "assess_dental_urgency"; fn_arguments := args;
             fn_result := PStr "call_human_agent" |}] st in
     spawned (Sess.trace finished) = [SipTask (getenv "HUMAN_AGENT_PHONE") room_name] /\
     human_agent_present (Sess.final finished) = true) /\
    MultiFunction.on_function_calls_finished getenv room_name
      [{| fn_name := "assess_dental_urgency"; fn_arguments := args;
          fn_result := any_result |}] st
    = ([Print "assess_dental_urgency"], Ok tt, st).
Proof.
  intros symptoms getenv room_name args any_result st.
  unfold HelpDesk.assess_dental_urgency, MultiFunction.assess_dental_urgency.
  repeat split.
  - apply mentions_urgent_keyword_iff in H. now rewrite H.
  - apply mentions_urgent_keyword_iff in H. now rewrite H.
  - apply not_mentions_urgent_keyword_iff in H. now rewrite H.
  - apply not_mentions_urgent_keyword_iff in H. now rewrite H.
Qed.

Lemma C2_witness :
  (HelpDesk.assess_dental_urgency "My gum is BLEEDING a lot" = ([], Ok (PStr "call_human_agent")) /\
   MultiFunction.assess_dental_urgency "My gum is BLEEDING a lot"
   = ([], Ok (PStr "The issue needs urgent attention !!"))) /\
  (HelpDesk.assess_dental_urgency "time for a check-up" = ([], Ok (PStr reassurance)) /\
   MultiFunction.assess_dental_urgency "time for a check-up" = ([], Ok (PStr reassurance))).
Proof.
  assert (urgent : mentions_urgent_keyword "My gum is BLEEDING a lot").
  { exists "bleeding". split; [simpl; tauto|].
    now exists "My gum is ", "BLEEDING", " a lot". }
  assert (calm : ~ mentions_urgent_keyword "time for a check-up").
  { now apply not_mentions_urgent_keyword_iff. }
  pose proof (C2_assess_dental_urgency_per_variant "My gum is BLEEDING a lot"
                sample_env "clinic-room" [] PNone fresh_session) as (yes & _).
  pose proof (C2_assess_dental_urgency_per_variant "time for a check-up"
                sample_env "clinic-room" [] PNone fresh_session) as (_ & no & _).
  exact (conj (yes urgent) (no calm)).
Defined.

(** C2, as stated, fails in the multi-function file: a description with an
    urgent keyword gets a text that is not the sentinel, and the handler
    leaves the session as it was. *)
Lemma C2_counterexample :
  let symptoms := "my tooth is bleeding and swollen" in
  let answer := PStr "The issue needs urgent attention !!" in
  mentions_urgent_keyword symptoms /\
  MultiFunction.assess_dental_urgency symptoms = ([], Ok answer) /\
  pyval_eqb answer (PStr "call_human_agent") = false /\
  MultiFunction.on_function_calls_finished sample_env "clinic-room"
    [{| fn_name := "assess_dental_urgency"; fn_arguments := [("symptoms", symptoms)];
        fn_result := answer |}] fresh_session
  = ([Print "assess_dental_urgency"], Ok tt, fresh_session).
Proof.
  cbv zeta. split; [|repeat split].
  exists "bleeding". split; [simpl; tauto|].
  now exists "my tooth is ", "bleeding", " and swollen".
Qed.

(** ** The session while a human agent is present *)

Lemma help_request_nonempty (m : string) :
  is_help_request m = true -> PyStr.truthy m = true.
Proof. destruct m; [discriminate | reflexivity]. Qed.

Lemma HelpDesk_on_message_while_human (m : string) (st : session) :
  human_agent_present st = true ->
  HelpDesk.on_message_received m st =
  if is_help_request m
  then ([CreateTask (AnswerTask (PStr m) false true true)], Ok tt, st)
  else ([Print "No Assistance is needed as Human agent is tackling the communication"],
        Ok tt, st).
Proof.
  intros H. unfold HelpDesk.on_message_received, Sess.bind, Sess.get.
  fold (is_help_request m). rewrite H.
  destruct (is_help_request m) eqn:Hm.
  - now rewrite (help_request_nonempty _ Hm).
  - now destruct (PyStr.truthy m).
Qed.

Lemma MultiFunction_on_message_while_human (m : string) (st : session) :
  human_agent_present st = true ->
  MultiFunction.on_message_received m st =
  if is_help_request m
  then ([CreateTask (AnswerTask (PStr m) false true true)], Ok tt, st)
  else ([Print "No Assistance is needed as Human agent is tackling the communication"],
        Ok tt, st).
Proof.
  intros H. unfold MultiFunction.on_message_received, Sess.bind, Sess.get.
  fold (is_help_request m). rewrite H.
  destruct (is_help_request m) eqn:Hm.
  - now rewrite (help_request_nonempty _ Hm).
  - now destruct (PyStr.truthy m).
Qed.

Lemma HelpDesk_answer_addressed (m : string) (st : session) :
  HelpDesk._answer (PStr m) false true true st =
  ([GptChat (chat_context (answered st m)); Say], Ok tt, answered st m).
Proof. reflexivity. Qed.

Lemma MultiFunction_answer_addressed (m : string) (st : session) :
  MultiFunction._answer (PStr m) false true true st =
  ([GptChat (chat_context (answered st m)); Say], Ok tt, answered st m).
Proof.
  unfold MultiFunction._answer, MultiFunction.text_lower, Sess.bind, Sess.ret.
  now rewrite andb_false_r.
Qed.

Lemma HelpDesk_message_while_human getenv http sip m st :
  human_agent_present st = true ->
  HelpDesk.dispatch getenv http sip (HelpDesk.on_message_received m) st =
  if is_help_request m then
    ([CreateTask (AnswerTask (PStr m) false true true);
      GptChat (chat_context (answered st m)); Say], Ok tt, answered st m)
  else
    ([Print "No Assistance is needed as Human agent is tackling the communication"],
     Ok tt, st).
Proof.
  intros H. unfold HelpDesk.dispatch.
  rewrite (HelpDesk_on_message_while_human _ _ H).
  destruct (is_help_request m); [|reflexivity].
  cbn [spawned HelpDesk.run_tasks HelpDesk.run_task].
  unfold Sess.bind, isolated. rewrite HelpDesk_answer_addressed. reflexivity.
Qed.

Lemma MultiFunction_message_while_human getenv http sip m st :
  human_agent_present st = true ->
  MultiFunction.dispatch getenv http sip (MultiFunction.on_message_received m) st =
  if is_help_request m then
    ([CreateTask (AnswerTask (PStr m) false true true);
      GptChat (chat_context (answered st m)); Say], Ok tt, answered st m)
  else
    ([Print "No Assistance is needed as Human agent is tackling the communication"],
     Ok tt, st).
Proof.
  intros H. unfold MultiFunction.dispatch.
  rewrite (MultiFunction_on_message_while_human _ _ H).
  destruct (is_help_request m); [|reflexivity].
  cbn [spawned MultiFunction.run_tasks MultiFunction.run_task].
  unfold Sess.bind, isolated. rewrite MultiFunction_answer_addressed. reflexivity.
Qed.

Lemma count_app (p : effect -> bool) (a b : list effect) :
  count p (a ++ b) = (count p a + count p b)%nat.
Proof. unfold count. now rewrite filter_app, length_app. Qed.

Lemma answered_keeps_flag (st : session) (m : string) :
  human_agent_present (answered st m) = human_agent_present st.
Proof. reflexivity. Qed.

Lemma HelpDesk_chat_while_human getenv http sip (messages : list string) :
  forall st,
    human_agent_present st = true ->
    let run := HelpDesk.chat_messages getenv http sip messages st in
    count is_gpt (Sess.trace run) = help_requests messages /\
    human_agent_present (Sess.final run) = true.
Proof.
  induction messages as [|m rest IH]; intros st H; [now split|].
  cbn [HelpDesk.chat_messages]. unfold Sess.bind, isolated.
  rewrite (HelpDesk_message_while_human _ _ _ _ _ H).
  unfold help_requests. cbn [filter].
  destruct (is_help_request m).
  - specialize (IH (answered st m) H). cbv zeta in IH.
    destruct (HelpDesk.chat_messages getenv http sip rest (answered st m)) as [[tr r] st'].
    destruct IH as [IH1 IH2]. split; [|exact IH2].
    unfold Sess.trace in *. cbn [fst snd] in *.
    rewrite count_app, IH1. reflexivity.
  - specialize (IH st H). cbv zeta in IH.
    destruct (HelpDesk.chat_messages getenv http sip rest st) as [[tr r] st'].
    destruct IH as [IH1 IH2]. split; [|exact IH2].
    unfold Sess.trace in *. cbn [fst snd] in *.
    rewrite count_app, IH1. reflexivity.
Qed.

Lemma MultiFunction_chat_while_human getenv http sip (messages : list string) :
  forall st,
    human_agent_present st = true ->
    let run := MultiFunction.chat_messages getenv http sip messages st in
    count is_gpt (Sess.trace run) = help_requests messages /\
    human_agent_present (Sess.final run) = true.
Proof.
  induction messages as [|m rest IH]; intros st H; [now split|].
  cbn [MultiFunction.chat_messages]. unfold Sess.bind, isolated.
  rewrite (MultiFunction_message_while_human _ _ _ _ _ H).
  unfold help_requests. cbn [filter].
  destruct (is_help_request m).
  - specialize (IH (answered st m) H). cbv zeta in IH.
    destruct (MultiFunction.chat_messages getenv http sip rest (answered st m)) as [[tr r] st'].
    destruct IH as [IH1 IH2]. split; [|exact IH2].
    unfold Sess.trace in *. cbn [fst snd] in *.
    rewrite count_app, IH1. reflexivity.
  - specialize (IH st H). cbv zeta in IH.
    destruct (MultiFunction.chat_messages getenv http sip rest st) as [[tr r] st'].
    destruct IH as [IH1 IH2]. split; [|exact IH2].
    unfold Sess.trace in *. cbn [fst snd] in *.
    rewrite count_app, IH1. reflexivity.
Qed.

(** C3: while [human_agent_present] is true, a chat message without the
    help phrase ("help me", in any case) is dropped: no task is created for
    it, the model is not invoked and the session is left as it was.  A
    message with the help phrase is put to the model exactly once.  Over any
    run of chat messages the model is invoked once per help request and not
    otherwise, and the flag stays true.  Both files that have the flag
    behave so. *)
Theorem C3_chat_suppressed_while_human_present :
  forall getenv http sip st,
    human_agent_present st = true ->
    (forall m,
       is_help_request m = false ->
       let quiet := ([Print "No Assistance is needed as Human agent is tackling the communication"],
                     Ok tt, st) in
       HelpDesk.dispatch getenv http sip (HelpDesk.on_message_received m) st = quiet /\
       MultiFunction.dispatch getenv http sip (MultiFunction.on_message_received m) st = quiet) /\
    (forall m,
       is_help_request m = true ->
       count is_gpt
         (Sess.trace (HelpDesk.dispatch getenv http sip (HelpDesk.on_message_received m) st))
       = 1%nat /\
       count is_gpt
         (Sess.trace (MultiFunction.dispatch getenv http sip
                        (MultiFunction.on_message_received m) st))
       = 1%nat) /\
    (forall messages,
       let run1 := HelpDesk.chat_messages getenv http sip messages st in
       let run2 := MultiFunction.chat_messages getenv http sip messages st in
       count is_gpt (Sess.trace run1) = help_requests messages /\
       human_agent_present (Sess.final run1) = true /\
       count is_gpt (Sess.trace run2) = help_requests messages /\
       human_agent_present (Sess.final run2) = true).
Proof.
  intros getenv http sip st H. split; [|split].
  - intros m Hm. cbv zeta.
    rewrite (HelpDesk_message_while_human _ _ _ _ _ H),
            (MultiFunction_message_while_human _ _ _ _ _ H), Hm.
    now split.
  - intros m Hm.
    rewrite (HelpDesk_message_while_human _ _ _ _ _ H),
            (MultiFunction_message_while_human _ _ _ _ _ H), Hm.
    now split.
  - intros messages. cbv zeta.
    destruct (HelpDesk_chat_while_human getenv http sip messages st H) as [a b].
    destruct (MultiFunction_chat_while_human getenv http sip messages st H) as [c d].
    auto.
Qed.

Lemma C3_witness :
  let st := with_human fresh_session in
  let messages := ["my tooth hurts"; "Daela, please HELP ME"; "are you there?"] in
  count is_gpt
    (Sess.trace (HelpDesk.chat_messages sample_env RequestFailed SipPlaced messages st))
  = 1%nat /\
  count is_gpt
    (Sess.trace (MultiFunction.chat_messages sample_env RequestFailed SipPlaced messages st))
  = 1%nat.
Proof.
  cbv zeta.
  assert (present : human_agent_present (with_human fresh_session) = true) by reflexivity.
  destruct (C3_chat_suppressed_while_human_present sample_env RequestFailed SipPlaced
              (with_human fresh_session) present) as (_ & _ & runs).
  destruct (runs ["my tooth hurts"; "Daela, please HELP ME"; "are you there?"])
    as (r1 & _ & r2 & _).
  exact (conj r1 r2).
Defined.

(** ** Disconnection and escalation *)

Lemma HelpDesk_disconnect getenv http sip st :
  HelpDesk.dispatch getenv http sip HelpDesk.on_customer_agent_finished st =
  let text := "Human Agent interaction completed. Politely ask if it was helpful and if user is happy to proceed with the in-person appointment." in
  ([Print "Human Agent disconnected. AI Agent taking over.";
    CreateTask (AnswerTask (PStr text) false false false);
    GptChat (chat_context (answered st text)); Say],
   Ok tt, answered st text).
Proof. reflexivity. Qed.

(** C4: what the participant-disconnected handler of
    AIAssistedCustomerHelpDesk.py does, in any session: it creates exactly
    one re-engagement task, which puts the re-engagement text to the model
    once, and it leaves [human_agent_present] as it found it.  A session in
    which the human agent was present therefore still counts the human as
    present after the disconnection, and the next chat message is answered
    only if it carries the help phrase. *)
Theorem C4_disconnect_leaves_flag_untouched :
  forall getenv http sip st m,
    let run := HelpDesk.dispatch getenv http sip HelpDesk.on_customer_agent_finished st in
    let later := HelpDesk.dispatch getenv http sip HelpDesk.on_customer_agent_finished
                   (with_human st) in
    spawned (Sess.trace run) =
      [AnswerTask
         (PStr "Human Agent interaction completed. Politely ask if it was helpful and if user is happy to proceed with the in-person appointment.")
         false false false] /\
    count is_gpt (Sess.trace run) = 1%nat /\
    human_agent_present (Sess.final run) = human_agent_present st /\
    human_agent_present (Sess.final later) = true /\
    count is_gpt
      (Sess.trace (HelpDesk.dispatch getenv http sip (HelpDesk.on_message_received m)
                     (Sess.final later)))
    = (if is_help_request m then 1 else 0)%nat.
Proof.
  intros getenv http sip st m run later. subst run later.
  rewrite !HelpDesk_disconnect. cbv zeta. unfold Sess.trace, Sess.final. cbn [fst snd].
  repeat split.
  rewrite HelpDesk_message_while_human by reflexivity.
  now destruct (is_help_request m).
Qed.

Lemma HelpDesk_escalation getenv room_name args rest st :
  HelpDesk.on_function_calls_finished getenv room_name
    (escalation_call "assess_dental_urgency" args :: rest) st =
  ([Print "assess_dental_urgency"; Print "calling an agent";
    CreateTask (SipTask (getenv "HUMAN_AGENT_PHONE") room_name)],
   Ok tt, with_human st).
Proof. reflexivity. Qed.

Lemma MultiFunction_escalation getenv room_name args rest st :
  MultiFunction.on_function_calls_finished getenv room_name
    (escalation_call "book_emergency_appointment" args :: rest) st =
  ([Print "book_emergency_appointment"; Print "calling an agent";
    CreateTask
      (AnswerTask
         (PStr "Human assistance is coming. Please wait while I'm trying to connect you. I'll be here if you need me, just say my name.")
         false true true);
    CreateTask (SipTask (getenv "HUMAN_AGENT_PHONE") room_name)],
   Ok tt, with_human st).
Proof. reflexivity. Qed.

(** C5 (as amended): on an escalation the handler creates exactly one task
    for the outbound call, to the configured number and into the session's
    room, sets [human_agent_present] to true at once and returns normally.
    It does not wait for the call request.  When the request fails, the
    exception ends the call task; the flag is true before the task runs and
    is still true after it, whatever the outcome of the request. *)
Theorem C5_escalation_sets_flag_before_the_call :
  forall getenv room_name args rest http sip st,
    let h1 := HelpDesk.on_function_calls_finished getenv room_name
                (escalation_call "assess_dental_urgency" args :: rest) in
    let h2 := MultiFunction.on_function_calls_finished getenv room_name
                (escalation_call "book_emergency_appointment" args :: rest) in
    let call := SipTask (getenv "HUMAN_AGENT_PHONE") room_name in
    (Sess.value (h1 st) = Ok tt /\
     filter (fun t => match t with SipTask _ _ => true | _ => false end)
       (spawned (Sess.trace (h1 st))) = [call] /\
     human_agent_present (Sess.final (h1 st)) = true /\
     human_agent_present (Sess.final (HelpDesk.dispatch getenv http sip h1 st)) = true) /\
    (Sess.value (h2 st) = Ok tt /\
     filter (fun t => match t with SipTask _ _ => true | _ => false end)
       (spawned (Sess.trace (h2 st))) = [call] /\
     human_agent_present (Sess.final (h2 st)) = true /\
     human_agent_present (Sess.final (MultiFunction.dispatch getenv http sip h2 st)) = true) /\
    (forall s,
       Sess.value (HelpDesk.run_task getenv http SipFailed call s) = Raise ApiError /\
       Sess.value (MultiFunction.run_task getenv http SipFailed call s) = Raise ApiError).
Proof.
  intros getenv room_name args rest http sip st h1 h2 call. subst h1 h2 call.
  rewrite HelpDesk_escalation, MultiFunction_escalation.
  unfold HelpDesk.dispatch, MultiFunction.dispatch.
  rewrite HelpDesk_escalation, MultiFunction_escalation.
  destruct sip; repeat split.
Qed.

(** C5, as stated, fails: the request for the outbound call errors, and the
    session nevertheless says that a human agent is present. *)
Lemma C5_counterexample :
  let finished :=
    HelpDesk.on_function_calls_finished sample_env "clinic-room"
      [escalation_call "assess_dental_urgency" [("symptoms", "severe pain")]] in
  let run := HelpDesk.dispatch sample_env RequestFailed SipFailed finished fresh_session in
  Sess.value
    (HelpDesk.run_task sample_env RequestFailed SipFailed
       (SipTask (Some "+15550100") "clinic-room") (Sess.final (finished fresh_session)))
  = Raise ApiError /\
  Sess.value run = Ok tt /\
  human_agent_present (Sess.final run) = true.
Proof. repeat split. Qed.

(** ** Who may speak *)

(** [_answer] never reads the session's flag: its own parameter of the same
    name decides, and the callers below leave it at its default. *)
Lemma HelpDesk_answer_plain (text : string) (st : session) :
  HelpDesk._answer (PStr text) false false false st =
  ([GptChat (chat_context (answered st text)); Say], Ok tt, answered st text).
Proof. reflexivity. Qed.

Lemma MultiFunction_answer_plain (text : string) (st : session) :
  MultiFunction._answer (PStr text) false false false st =
  ([GptChat (chat_context (answered st text)); Say], Ok tt, answered st text).
Proof. reflexivity. Qed.

Lemma HelpDesk_answer_ignores_session_flag text use_image hap air st :
  Sess.trace (HelpDesk._answer text use_image hap air (with_human st))
  = Sess.trace (HelpDesk._answer text use_image hap air st).
Proof.
  destruct st as [present ctx [frame|]], use_image, hap, air; reflexivity.
Qed.

Lemma MultiFunction_answer_ignores_session_flag text use_image hap air st :
  Sess.trace (MultiFunction._answer text use_image hap air (with_human st))
  = Sess.trace (MultiFunction._answer text use_image hap air st).
Proof.
  destruct st as [present ctx img]. unfold MultiFunction._answer.
  destruct hap.
  - destruct text as [|s]; [reflexivity|].
    unfold MultiFunction.text_lower, Sess.bind, Sess.ret, with_human.
    destruct (PyStr.contains "help me" (PyStr.lower s) && negb air);
      destruct use_image, img; reflexivity.
  - destruct use_image, img; reflexivity.
Qed.

Lemma scan_contacts_silent (contacts : list json) :
  IO.trace (DentalAssistantFunction.scan_contacts contacts) = [].
Proof.
  induction contacts as [|contact rest IH]; [reflexivity|].
  cbn [DentalAssistantFunction.scan_contacts].
  unfold IO.bind, IO.of_result.
  destruct (PyJson.get_or_empty_list contact "tags") as [tags|]; [|reflexivity].
  destruct (PyJson.str_in "livekit_appointment_booked" tags) as [[|]|]; try reflexivity.
  destruct (DentalAssistantFunction.scan_contacts rest) as [tr r].
  unfold IO.trace in IH. cbn [fst] in *. now subst tr.
Qed.

(** The status check talks to the CRM and to nobody else. *)
Lemma check_appointment_status_no_model getenv email o :
  count is_gpt (IO.trace (DentalAssistantFunction.check_appointment_status getenv email o))
  = O.
Proof.
  destruct o as [ | | payload | ]; try reflexivity.
  unfold DentalAssistantFunction.check_appointment_status.
  unfold requests_call, raise_for_status, response_json, IO.try_except_RequestException,
    IO.bind, IO.of_result, IO.print, IO.emit, IO.ret, IO.raise.
  cbn [raises_for_status body].
  destruct (PyJson.get_or_empty_list payload "contacts") as [contacts|e];
    [|destruct e; reflexivity].
  destruct (PyJson.iterate contacts) as [items|e]; [|destruct e; reflexivity].
  pose proof (scan_contacts_silent items) as S.
  destruct (DentalAssistantFunction.scan_contacts items) as [tr [v|e]];
    unfold IO.trace in S; cbn [fst] in S; subst tr; [reflexivity|].
  destruct e; reflexivity.
Qed.

Lemma HelpDesk_follow_up getenv email o tr status st :
  DentalAssistantFunction.check_appointment_status getenv email o = (tr, Ok (PStr status)) ->
  HelpDesk.follow_up_appointment getenv email o st =
  ((Sleep 20
      :: Print ("Finished waiting, checking dental appointment status for " ++ email)
      :: tr ++ [GptChat (chat_context (answered st status)); Say])%list,
   Ok tt, answered st status).
Proof.
  intros E. unfold HelpDesk.follow_up_appointment, Sess.bind, Sess.lift.
  rewrite E. reflexivity.
Qed.

Lemma MultiFunction_follow_up getenv email o tr status st :
  DentalAssistantFunction.check_appointment_status getenv email o = (tr, Ok (PStr status)) ->
  MultiFunction.follow_up_appointment getenv email o st =
  ((Sleep 20
      :: Print ("Finished waiting, checking dental appointment status for " ++ email)
      :: tr ++ [GptChat (chat_context (answered st status)); Say])%list,
   Ok tt, answered st status).
Proof.
  intros E. unfold MultiFunction.follow_up_appointment, Sess.bind, Sess.lift.
  rewrite E. reflexivity.
Qed.

Lemma follow_up_trace_facts (tr : list effect) (ctx : list ChatMessage) (line : string) :
  count is_gpt tr = O ->
  count is_gpt (Sleep 20 :: Print line :: tr ++ [GptChat ctx; Say])%list = 1%nat /\
  In Say (Sleep 20 :: Print line :: tr ++ [GptChat ctx; Say])%list.
Proof.
  intros H. split.
  - change (count is_gpt (tr ++ [GptChat ctx; Say])%list = 1%nat).
    now rewrite count_app, H.
  - right. right. apply in_or_app. right. simpl. auto.
Qed.

(** C9: what the delayed follow-up does while [human_agent_present] is
    true.  Whenever the status check yields a text, the follow-up puts that
    text to the model and speaks, in both files: it is not suppressed, and
    the flag is still true afterwards. *)
Theorem C9_follow_up_speaks_while_human_present :
  forall getenv email o status st,
    human_agent_present st = true ->
    IO.value (DentalAssistantFunction.check_appointment_status getenv email o)
    = Ok (PStr status) ->
    let run1 := HelpDesk.follow_up_appointment getenv email o st in
    let run2 := MultiFunction.follow_up_appointment getenv email o st in
    count is_gpt (Sess.trace run1) = 1%nat /\
    In Say (Sess.trace run1) /\
    human_agent_present (Sess.final run1) = true /\
    count is_gpt (Sess.trace run2) = 1%nat /\
    In Say (Sess.trace run2) /\
    human_agent_present (Sess.final run2) = true.
Proof.
  intros getenv email o status st H Hs.
  pose proof (check_appointment_status_no_model getenv email o) as quiet.
  destruct (DentalAssistantFunction.check_appointment_status getenv email o)
    as [tr r] eqn:E.
  unfold IO.value, IO.trace in *. cbn [fst snd] in *. subst r.
  cbv zeta.
  rewrite (HelpDesk_follow_up _ _ _ _ _ st E), (MultiFunction_follow_up _ _ _ _ _ st E).
  unfold Sess.trace, Sess.final. cbn [fst snd].
  destruct (follow_up_trace_facts tr (chat_context (answered st status))
              ("Finished waiting, checking dental appointment status for " ++ email) quiet)
    as [one said].
  rewrite answered_keeps_flag. auto 10.
Qed.

Lemma C9_witness :
  let run := HelpDesk.follow_up_appointment sample_env "bob@example.com" RequestFailed
               (with_human fresh_session) in
  count is_gpt (Sess.trace run) = 1%nat /\ In Say (Sess.trace run) /\
  human_agent_present (Sess.final run) = true.
Proof.
  cbv zeta.
  assert (present : human_agent_present (with_human fresh_session) = true) by reflexivity.
  assert (status :
            IO.value (DentalAssistantFunction.check_appointment_status sample_env
                        "bob@example.com" RequestFailed)
            = Ok (PStr "Error checking the dental appointment status.")) by reflexivity.
  destruct (C9_follow_up_speaks_while_human_present sample_env "bob@example.com"
              RequestFailed _ _ present status) as (a & b & c & _).
  exact (conj a (conj b c)).
Defined.

(** ** The dispatch of KnolabsDentalAssistant.py *)

Lemma Knolabs_function_unbound (called_functions : list CalledFunction) (function_name : string) :
  Knolabs.lookup "function" (Knolabs.handler_scope called_functions function_name) = None.
Proof. reflexivity. Qed.

(** C10: in KnolabsDentalAssistant.py the handler, given a finished
    [assess_dental_urgency] call, reads the name [function], which no scope
    binds, and raises [NameError].  It has printed the function's name and
    nothing else: no task is created, the model is not invoked, and the
    session is unchanged, so the urgency result is not spoken. *)
Theorem C10_knolabs_assess_dispatch_raises_NameError :
  forall f rest st,
    fn_name f = "assess_dental_urgency" ->
    let run := Knolabs.on_function_calls_finished (f :: rest) st in
    Sess.value run = Raise (NameError "function") /\
    Sess.trace run = [Print "assess_dental_urgency"] /\
    spawned (Sess.trace run) = [] /\
    count is_gpt (Sess.trace run) = O /\
    Sess.final run = st.
Proof.
  intros [name args result] rest st H. simpl in H. subst name.
  cbv zeta. unfold Knolabs.on_function_calls_finished.
  cbn [fn_name String.eqb Ascii.eqb Bool.eqb].
  unfold Knolabs.load_name. rewrite Knolabs_function_unbound.
  repeat split.
Qed.

Lemma C10_witness :
  let run := Knolabs.on_function_calls_finished
               [Knolabs.called_assess_dental_urgency "my tooth is bleeding"] fresh_session in
  Sess.value run = Raise (NameError "function") /\ spawned (Sess.trace run) = [].
Proof.
  cbv zeta.
  assert (name : fn_name (Knolabs.called_assess_dental_urgency "my tooth is bleeding")
                 = "assess_dental_urgency") by reflexivity.
  destruct (C10_knolabs_assess_dispatch_raises_NameError _ [] fresh_session name)
    as (a & _ & b & _).
  exact (conj a b).
Defined.

(** ** Slots and emergency bookings *)

(** C7 (as amended): [book_emergency_appointment] issues one POST.  When
    the status is a success status and the body decodes as JSON it returns
    the sentinel [call_human_agent], whatever the slot, the email and the
    decoded body are; the handler takes that result as the order to bring
    in the human agent.  When the request fails, the status is an error
    status, or the status is a success status and the body does not decode,
    it prints its error line and returns the generic error message. *)
Theorem C7_emergency_booking_escalates_on_decoded_success :
  forall getenv room_name slot email,
    let book := MultiFunction.book_emergency_appointment getenv slot email in
    (forall payload, IO.value (book (Success payload)) = Ok (PStr "call_human_agent")) /\
    IO.value (book RequestFailed) = Ok (PStr emergency_booking_error) /\
    IO.value (book ErrorStatus) = Ok (PStr emergency_booking_error) /\
    IO.value (book SuccessNotJson) = Ok (PStr emergency_booking_error) /\
    (forall o,
       count is_post (IO.trace (book o)) = 1%nat /\
       count is_http (IO.trace (book o)) = 1%nat /\
       (IO.value (book o) = Ok (PStr "call_human_agent") <-> exists payload, o = Success payload) /\
       (In (Print "Error booking emergency appointment: ") (IO.trace (book o))
        <-> IO.value (book o) = Ok (PStr emergency_booking_error))) /\
    (forall st,
       human_agent_present
         (Sess.final
            (MultiFunction.on_function_calls_finished getenv room_name
               [{| fn_name := "book_emergency_appointment";
                   fn_arguments := [("slot", slot); ("email", email)];
                   fn_result := PStr "call_human_agent" |}] st)) = true).
Proof.
  intros getenv room_name slot email book. subst book.
  split; [reflexivity|]. split; [reflexivity|]. split; [reflexivity|].
  split; [reflexivity|]. split; [|reflexivity].
  intros o. split; [now destruct o|]. split; [now destruct o|]. split.
  - destruct o as [ | | payload | ]; split;
      try discriminate; try (intros [payload' E]; discriminate E).
    + intros _. now exists payload.
    + reflexivity.
  - destruct o as [ | | payload | ]; split;
      try reflexivity; try discriminate; try (intros _; cbn; tauto).
    cbn. intros [E|[]]. discriminate E.
Qed.

(** C7, as stated, fails: a booking POST whose status is a success status
    but whose body does not decode as JSON passes [raise_for_status], and
    the function still returns the generic error message, not the
    sentinel. *)
Lemma C7_counterexample :
  let slot := "2024-10-17T03:30:00+01:00" in
  let email := "bob@example.com" in
  let answered := requests_call POST (Some "https://crm.example/book") [] SuccessNotJson in
  IO.value (response <- answered ;; raise_for_status response)%io = Ok tt /\
  IO.value (MultiFunction.book_emergency_appointment sample_env slot email SuccessNotJson)
  = Ok (PStr emergency_booking_error) /\
  IO.value (MultiFunction.book_emergency_appointment sample_env slot email SuccessNotJson)
  <> Ok (PStr "call_human_agent").
Proof. cbv zeta. split; [reflexivity|]. split; [reflexivity|discriminate]. Qed.

Lemma find_appointment_slots_trace getenv py_repr timestamp_ms urgency now o :
  let request := slots_request getenv timestamp_ms (MultiFunction.slot_window now urgency) in
  let tr := IO.trace (MultiFunction.find_appointment_slots getenv py_repr timestamp_ms
                        urgency now o) in
  tr = [request] \/ tr = [request; Print "Error finding appointment slots: "].
Proof.
  cbv zeta. unfold MultiFunction.find_appointment_slots, slots_request.
  destruct (MultiFunction.slot_window now urgency) as [start_date end_date].
  cbn [fst snd].
  destruct o as [ | | slots | ]; [now right | now right | | now right].
  unfold requests_call, raise_for_status, response_json, IO.try_except_RequestException,
    IO.bind, IO.of_result, IO.print, IO.emit, IO.ret, IO.raise.
  cbn [raises_for_status body].
  destruct (PyJson.truthy slots); [|now left].
  destruct (PyJson.keys slots) as [[|d dates]|e];
    [now left | | destruct e; (now left) || (now right)].
  destruct (PyJson.getitem_key slots d) as [day|e];
    [|destruct e; (now left) || (now right)].
  destruct (PyJson.getitem_key day "slots") as [day_slots|e];
    [|destruct e; (now left) || (now right)].
  destruct (PyJson.getitem_0 day_slots) as [first_slot|e];
    [now left | destruct e; (now left) || (now right)].
Qed.

(** C8: [find_appointment_slots] asks for the window from now to now plus
    24 hours when [urgency] is the word emergency, and from now plus 3 days
    to now plus 10 days for every other value; the one request it makes is
    the GET that carries that window, so no booking is attempted.  When the
    request fails, the status is an error status or the body does not
    decode, the result is [None], which is not the text "No Slot Found".
    That text is the result exactly when the decoded answer is empty.  An
    answer that reports no slots in another way is not handled: when its
    first date has an empty list of slots the function raises [IndexError],
    and when its first entry is a string, as in an answer that holds a
    trace id and no date, it raises [TypeError]; neither is caught. *)
Theorem C8_find_appointment_slots_raises_on_a_day_without_slots :
  forall getenv py_repr timestamp_ms urgency now,
    let find := MultiFunction.find_appointment_slots getenv py_repr timestamp_ms urgency now in
    let request := slots_request getenv timestamp_ms (MultiFunction.slot_window now urgency) in
    let failed := ([request; Print "Error finding appointment slots: "], Ok PNone) in
    MultiFunction.slot_window now "emergency" = (now, now + timedelta_hours 24) /\
    (urgency <> "emergency" ->
       MultiFunction.slot_window now urgency
       = (now + timedelta_days 3, now + timedelta_days 10)) /\
    (forall o,
       hd_error (IO.trace (find o)) = Some request /\
       count is_http (IO.trace (find o)) = 1%nat /\
       count is_post (IO.trace (find o)) = O) /\
    (forall o,
       IO.value (find o) = Ok (PStr "No Slot Found")
       <-> exists slots, o = Success slots /\ PyJson.truthy slots = false) /\
    (forall slots,
       PyJson.truthy slots = false ->
       find (Success slots) = ([request], Ok (PStr "No Slot Found"))) /\
    (forall date other_fields later_dates,
       find (Success (JObj ((date, JObj (("slots", JArr []) :: other_fields)) :: later_dates)))
       = ([request], Raise IndexError)) /\
    (forall key text later_fields,
       find (Success (JObj ((key, JStr text) :: later_fields)))
       = ([request], Raise TypeError)) /\
    find RequestFailed = failed /\
    find ErrorStatus = failed /\
    find SuccessNotJson = failed /\
    pyval_eqb PNone (PStr "No Slot Found") = false.
Proof.
  intros getenv py_repr timestamp_ms urgency now find request failed.
  subst find request failed.
  split; [reflexivity|]. split.
  { intros H. unfold MultiFunction.slot_window.
    apply String.eqb_neq in H. rewrite H. unfold timedelta_days. f_equal. lia. }
  split.
  { intros o.
    destruct (find_appointment_slots_trace getenv py_repr timestamp_ms urgency now o)
      as [E|E]; cbv zeta in E; rewrite E; repeat split. }
  unfold MultiFunction.find_appointment_slots, slots_request.
  destruct (MultiFunction.slot_window now urgency) as [start_date end_date].
  unfold requests_call, raise_for_status, response_json, IO.try_except_RequestException,
    IO.bind, IO.of_result, IO.print, IO.emit, IO.ret, IO.raise, IO.value.
  cbn [raises_for_status body fst snd].
  split; [|split; [|split; [|split; [|repeat split]]]].
  - intros o. split.
    + destruct o as [ | | slots | ]; try discriminate.
      cbn [raises_for_status body fst snd].
      destruct (PyJson.truthy slots) eqn:T; [|intros _; now exists slots].
      destruct (PyJson.keys slots) as [[|d dates]|e]; [discriminate | | now destruct e].
      destruct (PyJson.getitem_key slots d) as [day|e]; [|now destruct e].
      destruct (PyJson.getitem_key day "slots") as [day_slots|e]; [|now destruct e].
      destruct (PyJson.getitem_0 day_slots) as [first_slot|e]; [|now destruct e].
      cbn [app snd String.append]. discriminate.
    + intros (slots & E & T). subst o. cbn [raises_for_status body fst snd].
      now rewrite T.
  - intros slots T. now rewrite T.
  - intros date other_fields later_dates.
    cbn [PyJson.truthy PyJson.keys map fst PyJson.getitem_key PyJson.assoc].
    rewrite String.eqb_refl. reflexivity.
  - intros key text later_fields.
    cbn [PyJson.truthy PyJson.keys map fst PyJson.getitem_key PyJson.assoc].
    rewrite String.eqb_refl. reflexivity.
Qed.

Lemma C8_witness :
  MultiFunction.slot_window 1000 "non_emergency"
  = (1000 + timedelta_days 3, 1000 + timedelta_days 10) /\
  MultiFunction.find_appointment_slots sample_env sample_repr (fun d => d / 1000)
    "non_emergency" 1000 (Success (JObj [("2024-10-17", JObj [("slots", JArr [])])]))
  = ([slots_request sample_env (fun d => d / 1000)
        (MultiFunction.slot_window 1000 "non_emergency")],
     Raise IndexError) /\
  MultiFunction.find_appointment_slots sample_env sample_repr (fun d => d / 1000)
    "non_emergency" 1000 (Success (JObj [("traceId", JStr "a1b2c3")]))
  = ([slots_request sample_env (fun d => d / 1000)
        (MultiFunction.slot_window 1000 "non_emergency")],
     Raise TypeError).
Proof.
  destruct (C8_find_appointment_slots_raises_on_a_day_without_slots sample_env sample_repr
              (fun d => d / 1000) "non_emergency" 1000)
    as (_ & window & _ & _ & _ & empty_day & trace_id & _).
  assert (other : "non_emergency" <> "emergency") by discriminate.
  exact (conj (window other)
           (conj (empty_day "2024-10-17" [] []) (trace_id "traceId" "a1b2c3" []))).
Defined.

(** ** Every registered function *)

Ltac unfold_io :=
  unfold requests_call, raise_for_status, response_json, IO.try_except_RequestException,
    IO.bind, IO.of_result, IO.print, IO.emit, IO.ret, IO.raise, IO.value;
  cbn [raises_for_status body fst snd].

Lemma create_contact_in_crm_returns getenv py_repr email name o :
  MultiFunction.expected_body (MultiFunction.create_contact_in_crm_ email name) o = true ->
  exists text,
    IO.value (MultiFunction.create_contact_in_crm getenv py_repr email name o)
    = Ok (PStr text).
Proof.
  destruct o as [ | | answer | ]; [now eexists | now eexists | | now eexists].
  cbn [MultiFunction.expected_body]. unfold MultiFunction.has_contact_id.
  unfold MultiFunction.create_contact_in_crm. unfold_io.
  destruct (PyJson.getitem_key answer "contact") as [contact|]; [|discriminate].
  destruct (PyJson.getitem_key contact "id") as [contact_id|]; [|discriminate].
  intros _. now eexists.
Qed.

Lemma find_appointment_slots_returns getenv py_repr timestamp_ms urgency now o :
  MultiFunction.expected_body (MultiFunction.find_appointment_slots_ urgency) o = true ->
  exists v,
    IO.value (MultiFunction.find_appointment_slots getenv py_repr timestamp_ms urgency now o)
    = Ok v /\
    is_text v = match o with Success _ => true | _ => false end.
Proof.
  unfold MultiFunction.find_appointment_slots.
  destruct (MultiFunction.slot_window now urgency) as [start_date end_date].
  destruct o as [ | | slots | ]; [now eexists | now eexists | | now eexists].
  cbn [MultiFunction.expected_body]. unfold_io.
  destruct (PyJson.truthy slots) eqn:T; [|now eexists].
  cbn [negb orb]. unfold MultiFunction.has_first_slot.
  destruct slots as [ | | | | | [|[date day] rest]]; try discriminate.
  cbn [PyJson.keys map fst PyJson.getitem_key PyJson.assoc].
  rewrite String.eqb_refl.
  destruct (PyJson.getitem_key day "slots") as [day_slots|]; [|discriminate].
  destruct (PyJson.getitem_0 day_slots) as [first_slot|]; [|discriminate].
  intros _. now eexists.
Qed.

(** C6 (as amended): every registered function returns normally, without
    raising, whenever the request fails, the status is an error status, the
    body does not decode, or the request succeeds with an answer of the
    shape the function reads (the functions that do not read the answer
    accept any).  What it returns is a text, except that
    [analyze_dental_image] always returns [None] and
    [find_appointment_slots] returns [None] when its request fails, has an
    error status or has a body that does not decode. *)
Theorem C6_registered_functions_return_on_expected_answers :
  forall getenv py_repr timestamp_ms c now o,
    MultiFunction.expected_body c o = true ->
    exists v,
      IO.value (MultiFunction.invoke getenv py_repr timestamp_ms c now o) = Ok v /\
      is_text v = negb (MultiFunction.answers_none c o).
Proof.
  intros getenv py_repr timestamp_ms c now o H.
  destruct c as [user_msg | email name | email name | contact_id issue | urgency
                 | slot email | symptoms]; cbn [MultiFunction.invoke].
  - now exists PNone.
  - destruct (create_contact_in_crm_returns getenv py_repr _ _ _ H) as [text E].
    exists (PStr text). split; [exact E | now destruct o].
  - destruct (Re.re_match email_pattern email) eqn:M.
    + rewrite (book_appointment_accepted _ _ _ _ M). destruct o; now eexists.
    + rewrite (book_appointment_rejected _ _ _ _ M). destruct o; now eexists.
  - destruct o; now eexists.
  - destruct (find_appointment_slots_returns getenv py_repr timestamp_ms _ now _ H)
      as (v & E & T).
    exists v. split; [exact E | rewrite T; now destruct o].
  - destruct o; now eexists.
  - unfold MultiFunction.assess_dental_urgency.
    destruct (PyStr.any_in _ _); destruct o; now eexists.
Qed.

Lemma C6_witness :
  exists v,
    IO.value (MultiFunction.invoke sample_env sample_repr (fun d => d / 1000)
                (MultiFunction.find_appointment_slots_ "emergency") 0
                (Success one_slot_answer)) = Ok v /\
    is_text v = true.
Proof.
  apply (C6_registered_functions_return_on_expected_answers sample_env sample_repr
           (fun d => d / 1000) (MultiFunction.find_appointment_slots_ "emergency") 0
           (Success one_slot_answer)).
  reflexivity.
Defined.

(** C6, as stated, fails: two registered functions answer [None], which is
    not a text, and an answer without the contact record makes
    [create_contact_in_crm] raise [KeyError] past its [except] clause. *)
Lemma C6_counterexample :
  let invoke := MultiFunction.invoke sample_env sample_repr (fun d => d / 1000) in
  IO.value (invoke (MultiFunction.find_appointment_slots_ "emergency") 0 RequestFailed)
  = Ok PNone /\
  IO.value (invoke (MultiFunction.analyze_dental_image_ "look at this tooth") 0 RequestFailed)
  = Ok PNone /\
  is_text PNone = false /\
  IO.value (invoke (MultiFunction.create_contact_in_crm_ "bob@example.com" "Bob") 0
              (Success (JObj [("message", JStr "created")])))
  = Raise KeyError.
Proof. repeat split. Qed.

(* ================================================================== *)
(** * Further properties of the code *)

(** ** What the email validation accepts *)

Module EmailFacts.
Import Re.

Lemma lang_cat_inv (r1 r2 : regex) (s : string) :
  lang (Cat r1 r2) s -> exists s1 s2, s = s1 ++ s2 /\ lang r1 s1 /\ lang r2 s2.
Proof. intros H. inversion H; subst. now exists s1, s2. Qed.

Lemma lang_lit_inv (c : ascii) (s : string) :
  lang (Chr (Lit c)) s -> s = String c "".
Proof.
  intros H. inversion H as [ | cs d A | | | | | ]; subst.
  simpl in A. apply Ascii.eqb_eq in A. now subst.
Qed.

Lemma lang_star_not_at (s : string) : lang (Star not_at) s <-> no_at s = true.
Proof.
  split.
  - intros H. remember (Star not_at) as r eqn:E.
    induction H as [ | | | | | | r s1 s2 H1 _ H2 IH2 ]; try discriminate; [reflexivity|].
    injection E as ->. inversion H1 as [ | cs d A | | | | | ]; subst.
    simpl in *. rewrite A. now apply IH2.
  - induction s as [|c s IH]; simpl; intros H; [constructor|].
    apply andb_true_iff in H as [Hc Hs].
    change (String c s) with (String c "" ++ s).
    constructor; [now constructor | auto].
Qed.

Lemma lang_plus_not_at (s : string) :
  lang (Plus not_at) s <-> s <> "" /\ no_at s = true.
Proof.
  unfold Plus. split.
  - intros H. apply lang_cat_inv in H as (s1 & s2 & -> & H1 & H2).
    inversion H1 as [ | cs d A | | | | | ]; subst. simpl in *.
    split; [discriminate|]. rewrite A. now apply lang_star_not_at.
  - intros [Hne H]. destruct s as [|c s]; [now elim Hne|].
    simpl in H. apply andb_true_iff in H as [Hc Hs].
    change (String c s) with (String c "" ++ s).
    constructor; [now constructor | now apply lang_star_not_at].
Qed.

Lemma lang_email_pattern (p : string) :
  lang email_pattern p <->
  exists local domain tld,
    p = local ++ "@" ++ domain ++ "." ++ tld /\
    (local <> "" /\ no_at local = true) /\
    (domain <> "" /\ no_at domain = true) /\
    (tld <> "" /\ no_at tld = true).
Proof.
  unfold email_pattern. fold not_at. split.
  - intros H.
    apply lang_cat_inv in H as (l & r1 & -> & Hl & H).
    apply lang_cat_inv in H as (a & r2 & -> & Ha & H).
    apply lang_cat_inv in H as (d & r3 & -> & Hd & H).
    apply lang_cat_inv in H as (dot & t & -> & Hdot & Ht).
    apply lang_lit_inv in Ha. apply lang_lit_inv in Hdot. subst.
    exists l, d, t. repeat split; try reflexivity; now apply lang_plus_not_at.
  - intros (l & d & t & -> & Hl & Hd & Ht).
    constructor; [now apply lang_plus_not_at|].
    change ("@" ++ d ++ "." ++ t) with (String "@"%char "" ++ (d ++ "." ++ t)).
    constructor; [now constructor|].
    constructor; [now apply lang_plus_not_at|].
    change ("." ++ t) with (String "."%char "" ++ t).
    constructor; [now constructor | now apply lang_plus_not_at].
Qed.

Lemma re_match_email_form (email : string) :
  re_match email_pattern email = true <-> has_email_form email.
Proof.
  rewrite ReFacts.re_match_spec. unfold has_email_form. split.
  - intros (p & q & -> & H).
    apply lang_email_pattern in H as (l & d & t & -> & [Hl1 Hl2] & [Hd1 Hd2] & [Ht1 Ht2]).
    destruct t as [|c t]; [now elim Ht1|].
    simpl in Ht2. apply andb_true_iff in Ht2 as [Hc _].
    exists l, d, c, (t ++ q). repeat split; trivial.
    + rewrite !ReFacts.app_assoc. reflexivity.
    + intros ->. discriminate Hc.
  - intros (l & d & c & rest & -> & Hl1 & Hl2 & Hd1 & Hd2 & Hc).
    exists (l ++ "@" ++ d ++ "." ++ String c ""), rest. split.
    + rewrite !ReFacts.app_assoc. reflexivity.
    + apply lang_email_pattern. exists l, d, (String c "").
      repeat split; trivial; [discriminate|].
      simpl. destruct (Ascii.eqb c "@") eqn:E; [|reflexivity].
      apply Ascii.eqb_eq in E. now elim Hc.
Qed.

End EmailFacts.

(** X1: [book_appointment] sends its one request exactly for the emails
    that start as [local@domain.x], with a non-empty local part and domain
    free of [@] and a character other than [@] after the dot; whatever
    follows is not looked at.  Every other email gets the correction
    message and no request. *)
Theorem book_appointment_requests_iff_email_form :
  forall getenv email name o,
    let call := DentalAssistantFunction.book_appointment getenv email name o in
    (has_email_form email <-> count is_http (IO.trace call) = 1%nat) /\
    (~ has_email_form email <->
     call = ([], Ok (PStr "The email address seems incorrect. Please provide a valid one."))).
Proof.
  intros getenv email name o call. subst call.
  rewrite <- EmailFacts.re_match_email_form.
  destruct (Re.re_match email_pattern email) eqn:M.
  - rewrite (book_appointment_accepted _ _ _ _ M). split; split; intros H.
    + now destruct o.
    + reflexivity.
    + now elim H.
    + destruct o; discriminate H.
  - rewrite (book_appointment_rejected _ _ _ _ M). split; split; intros H;
      try reflexivity; try discriminate.
Qed.

(** ** The CRM functions *)

Lemma scan_contacts_well_formed (contacts : list json) :
  forallb well_formed_contact contacts = true ->
  DentalAssistantFunction.scan_contacts contacts =
  ([], Ok (PStr (if existsb contact_is_booked contacts
                 then booked_message else offer_message))).
Proof.
  induction contacts as [|contact rest IH]; [reflexivity|].
  cbn [forallb existsb DentalAssistantFunction.scan_contacts].
  intros H. apply andb_true_iff in H as [Hc Hrest].
  unfold IO.bind, IO.of_result.
  destruct contact as [ | | | | | fields]; try discriminate Hc.
  cbn [well_formed_contact contact_is_booked PyJson.get_or_empty_list] in *.
  destruct (PyJson.assoc "tags" fields) as [[ | | | | tags | ]|]; try discriminate Hc.
  - cbn [PyJson.str_in].
    destruct (existsb (fun x => PyJson.is_str x "livekit_appointment_booked") tags);
      [reflexivity|].
    cbn [orb]. rewrite (IH Hrest). reflexivity.
  - cbn [PyJson.str_in existsb orb]. rewrite (IH Hrest). reflexivity.
Qed.

(** X2: for an answer of the documented shape, [check_appointment_status]
    makes one GET to the lookup endpoint with the email in the query and
    says "booked" exactly when some contact of the answer carries the tag
    [livekit_appointment_booked]; with no such contact, with an empty
    contact list or with no [contacts] entry at all it offers to book. *)
Theorem check_appointment_status_reports_the_tag :
  forall getenv email data,
    well_formed_lookup data = true ->
    DentalAssistantFunction.check_appointment_status getenv email (Success data) =
    ([Print "Checking dental appointment status"; lookup_request getenv email],
     Ok (PStr (if existsb contact_is_booked (lookup_contacts data)
               then booked_message else offer_message))).
Proof.
  intros getenv email data H.
  unfold DentalAssistantFunction.check_appointment_status, lookup_request.
  unfold requests_call, raise_for_status, response_json, IO.try_except_RequestException,
    IO.bind, IO.of_result, IO.print, IO.emit, IO.ret, IO.raise.
  cbn [raises_for_status body].
  destruct data as [ | | | | | fields]; try discriminate H.
  cbn [well_formed_lookup lookup_contacts PyJson.get_or_empty_list] in *.
  destruct (PyJson.assoc "contacts" fields) as [[ | | | | contacts | ]|];
    try discriminate H.
  - cbn [PyJson.iterate]. rewrite (scan_contacts_well_formed _ H). reflexivity.
  - reflexivity.
Qed.

Lemma check_appointment_status_reports_the_tag_witness :
  DentalAssistantFunction.check_appointment_status sample_env "bob@example.com"
    (Success (JObj [("contacts",
                     JArr [JObj [("id", JStr "c1")];
                           JObj [("tags", JArr [JStr "vip";
                                                JStr "livekit_appointment_booked"])]])]))
  = ([Print "Checking dental appointment status";
      lookup_request sample_env "bob@example.com"],
     Ok (PStr booked_message)).
Proof.
  apply (check_appointment_status_reports_the_tag sample_env "bob@example.com").
  reflexivity.
Defined.

(** X3: when the lookup answers with something that is not an object (a
    list, a string, a number, null), [check_appointment_status] raises
    [AttributeError], which its [except] clause does not catch.  The
    follow-up that awaits it then ends there: the model is not invoked,
    nothing is said and the session is left as it was. *)
Theorem malformed_lookup_ends_the_follow_up :
  forall getenv email data st,
    is_object data = false ->
    IO.value (DentalAssistantFunction.check_appointment_status getenv email (Success data))
    = Raise AttributeError /\
    (let run := HelpDesk.follow_up_appointment getenv email (Success data) st in
     Sess.value run = Raise AttributeError /\
     count is_gpt (Sess.trace run) = O /\ ~ In Say (Sess.trace run) /\
     Sess.final run = st) /\
    (let run := MultiFunction.follow_up_appointment getenv email (Success data) st in
     Sess.value run = Raise AttributeError /\
     count is_gpt (Sess.trace run) = O /\ ~ In Say (Sess.trace run) /\
     Sess.final run = st).
Proof.
  intros getenv email data st H.
  assert (E : DentalAssistantFunction.check_appointment_status getenv email (Success data)
              = ([Print "Checking dental appointment status"; lookup_request getenv email],
                 Raise AttributeError)).
  { destruct data; try discriminate H; reflexivity. }
  unfold HelpDesk.follow_up_appointment, MultiFunction.follow_up_appointment,
    Sess.bind, Sess.lift.
  rewrite E. cbn.
  repeat split; try reflexivity;
    intros [F|[F|[F|[F|[]]]]]; discriminate F.
Qed.

Lemma malformed_lookup_ends_the_follow_up_witness :
  Sess.value (HelpDesk.follow_up_appointment sample_env "bob@example.com"
                (Success (JArr [])) fresh_session)
  = Raise AttributeError.
Proof.
  assert (shape : is_object (JArr []) = false) by reflexivity.
  destruct (malformed_lookup_ends_the_follow_up sample_env "bob@example.com"
              (JArr []) fresh_session shape) as (_ & (v & _) & _).
  exact v.
Defined.

(** X4: [create_contact_in_crm] posts the email, the name and the tag
    [new_dental_patient] once.  When the answer carries [contact.id] as a
    string, that string is handed back verbatim inside the confirmation.
    When the answer is an object without a [contact] entry the function
    raises [KeyError], and when the answer is not an object at all it raises
    [TypeError]; neither is caught. *)
Theorem create_contact_in_crm_hands_back_the_id :
  forall getenv py_repr email name,
    (forall answer contact id,
       PyJson.getitem_key answer "contact" = Ok contact ->
       PyJson.getitem_key contact "id" = Ok (JStr id) ->
       MultiFunction.create_contact_in_crm getenv py_repr email name (Success answer) =
       ([create_contact_request getenv email name],
        Ok (PStr ("Customer data is saved with Customer Reference ID: " ++ id
                  ++ ". Please save this reference for later.")))) /\
    (forall fields,
       PyJson.assoc "contact" fields = None ->
       MultiFunction.create_contact_in_crm getenv py_repr email name (Success (JObj fields)) =
       ([create_contact_request getenv email name], Raise KeyError)) /\
    (forall answer,
       is_object answer = false ->
       MultiFunction.create_contact_in_crm getenv py_repr email name (Success answer) =
       ([create_contact_request getenv email name], Raise TypeError)).
Proof.
  intros getenv py_repr email name.
  unfold MultiFunction.create_contact_in_crm, create_contact_request.
  unfold requests_call, raise_for_status, response_json, IO.try_except_RequestException,
    IO.bind, IO.of_result, IO.print, IO.emit, IO.ret, IO.raise.
  cbn [raises_for_status body].
  split; [|split].
  - intros answer contact id H1 H2. now rewrite H1, H2.
  - intros fields H. cbn [PyJson.getitem_key]. now rewrite H.
  - intros answer H. destruct answer; try discriminate H; reflexivity.
Qed.

Lemma create_contact_in_crm_hands_back_the_id_witness :
  MultiFunction.create_contact_in_crm sample_env sample_repr "bob@example.com" "Bob"
    (Success (JObj [("contact", JObj [("id", JStr "ocQHyuzHvysMo5N5VsXc")])]))
  = ([create_contact_request sample_env "bob@example.com" "Bob"],
     Ok (PStr "Customer data is saved with Customer Reference ID: ocQHyuzHvysMo5N5VsXc. Please save this reference for later.")) /\
  MultiFunction.create_contact_in_crm sample_env sample_repr "bob@example.com" "Bob"
    (Success (JObj [("message", JStr "created")]))
  = ([create_contact_request sample_env "bob@example.com" "Bob"], Raise KeyError) /\
  MultiFunction.create_contact_in_crm sample_env sample_repr "bob@example.com" "Bob"
    (Success (JStr "created"))
  = ([create_contact_request sample_env "bob@example.com" "Bob"], Raise TypeError).
Proof.
  destruct (create_contact_in_crm_hands_back_the_id sample_env sample_repr
              "bob@example.com" "Bob") as (ok & missing & other).
  exact (conj (ok (JObj [("contact", JObj [("id", JStr "ocQHyuzHvysMo5N5VsXc")])])
                  (JObj [("id", JStr "ocQHyuzHvysMo5N5VsXc")]) "ocQHyuzHvysMo5N5VsXc"
                  eq_refl eq_refl)
              (conj (missing [("message", JStr "created")] eq_refl)
                    (other (JStr "created") eq_refl))).
Defined.

(** [update_contact_info] never reads the answer.  For every body of a
    successful answer, decodable or not, it returns the same confirmation;
    for a failed request or an error status it returns the error message;
    in every case
    it has made exactly one request, a PUT to the contact endpoint followed
    by [/] and the contact id, carrying the description under
    [customField.describe_your_issue], and it does not raise. *)
Theorem update_contact_info_ignores_the_answer :
  forall getenv contact_id issue o,
    let call := MultiFunction.update_contact_info getenv contact_id issue o in
    IO.trace call = update_contact_request getenv contact_id issue
                    :: match o with
                       | Success _ | SuccessNotJson => []
                       | RequestFailed | ErrorStatus =>
                           [Print "Error updating contact information in CRM: "]
                       end /\
    IO.value call =
    Ok (PStr match o with
             | Success _ | SuccessNotJson => "I've now reported your problem to our system. Please note you've a right to erasure all your data kept with us securely as part of your rights ensured by GDPR. "
             | RequestFailed | ErrorStatus => "There was an error updating your information in our system. Please try again later."
             end).
Proof. intros getenv contact_id issue o. now destruct o. Qed.

(** X5: on a successful answer whose first date has a list of slots that
    starts with the string [slot], [find_appointment_slots] names that
    slot.  It looks at the first date only: the other slots of that date
    and all later dates play no part. *)
Theorem find_appointment_slots_names_the_first_slot :
  forall getenv py_repr timestamp_ms urgency now date day slot more_slots later_dates,
    PyJson.getitem_key day "slots" = Ok (JArr (JStr slot :: more_slots)) ->
    MultiFunction.find_appointment_slots getenv py_repr timestamp_ms urgency now
      (Success (JObj ((date, day) :: later_dates))) =
    ([slots_request getenv timestamp_ms (MultiFunction.slot_window now urgency)],
     Ok (PStr ("The first available slot is " ++ slot))).
Proof.
  intros getenv py_repr timestamp_ms urgency now date day slot more_slots later_dates H.
  unfold MultiFunction.find_appointment_slots, slots_request.
  destruct (MultiFunction.slot_window now urgency) as [start_date end_date].
  unfold requests_call, raise_for_status, response_json, IO.try_except_RequestException,
    IO.bind, IO.of_result, IO.print, IO.emit, IO.ret, IO.raise.
  cbn [raises_for_status body fst snd PyJson.truthy PyJson.keys map].
  assert (G : PyJson.getitem_key (JObj ((date, day) :: later_dates)) date = Ok day).
  { cbn [PyJson.getitem_key PyJson.assoc]. now rewrite String.eqb_refl. }
  rewrite G, H. reflexivity.
Qed.

Lemma find_appointment_slots_names_the_first_slot_witness :
  MultiFunction.find_appointment_slots sample_env sample_repr (fun d => d / 1000)
    "emergency" 0
    (Success (JObj [("2024-10-17", JObj [("slots", JArr [JStr "2024-10-17T03:30:00+01:00";
                                                         JStr "2024-10-17T04:00:00+01:00"])]);
                    ("2024-10-18", JObj [("slots", JArr [JStr "2024-10-18T09:00:00+01:00"])])]))
  = ([slots_request sample_env (fun d => d / 1000) (MultiFunction.slot_window 0 "emergency")],
     Ok (PStr "The first available slot is 2024-10-17T03:30:00+01:00")).
Proof.
  apply (find_appointment_slots_names_the_first_slot sample_env sample_repr
           (fun d => d / 1000) "emergency" 0 "2024-10-17" _
           "2024-10-17T03:30:00+01:00" [JStr "2024-10-17T04:00:00+01:00"] _).
  reflexivity.
Defined.

(** X6: two answers that [find_appointment_slots] does not survive.  When
    the first date has an empty list of slots it raises [IndexError], even
    if a later date has slots to offer; when the answer is a non-empty list
    instead of an object it raises [AttributeError].  Neither is caught, and
    in both cases the one GET has been made. *)
Theorem find_appointment_slots_trips_on_empty_first_day :
  forall getenv py_repr timestamp_ms urgency now,
    let find := MultiFunction.find_appointment_slots getenv py_repr timestamp_ms urgency now in
    let request := slots_request getenv timestamp_ms (MultiFunction.slot_window now urgency) in
    (forall date other_fields later_dates,
       find (Success (JObj ((date, JObj (("slots", JArr []) :: other_fields)) :: later_dates)))
       = ([request], Raise IndexError)) /\
    (forall item items,
       find (Success (JArr (item :: items))) = ([request], Raise AttributeError)).
Proof.
  intros getenv py_repr timestamp_ms urgency now find request. subst find request.
  unfold MultiFunction.find_appointment_slots, slots_request.
  destruct (MultiFunction.slot_window now urgency) as [start_date end_date].
  unfold requests_call, raise_for_status, response_json, IO.try_except_RequestException,
    IO.bind, IO.of_result, IO.print, IO.emit, IO.ret, IO.raise.
  cbn [raises_for_status body fst snd PyJson.truthy PyJson.keys map
       PyJson.getitem_key PyJson.assoc].
  split.
  - intros date other_fields later_dates. rewrite String.eqb_refl. reflexivity.
  - reflexivity.
Qed.

(** X7: the window that [find_appointment_slots] asks for never starts
    before now and always ends after it starts; it is 24 hours long for an
    emergency and 7 days long otherwise; and the emergency window is over
    two days before any other window begins. *)
Theorem slot_window_shape :
  forall now urgency,
    let w := MultiFunction.slot_window now urgency in
    now <= fst w /\ fst w < snd w /\
    snd w - fst w = (if String.eqb urgency "emergency"
                     then timedelta_hours 24 else timedelta_days 7) /\
    (urgency <> "emergency" ->
     snd (MultiFunction.slot_window now "emergency") + timedelta_days 2 = fst w).
Proof.
  intros now urgency w. subst w. unfold MultiFunction.slot_window.
  destruct (String.eqb urgency "emergency") eqn:E;
    unfold timedelta_hours, timedelta_days; cbn [fst snd].
  - repeat split; try lia. intros H. apply String.eqb_eq in E. now elim H.
  - cbn [String.eqb Ascii.eqb Bool.eqb]. cbn [fst snd]. repeat split; lia.
Qed.

Lemma slot_window_shape_witness :
  snd (MultiFunction.slot_window 1000 "emergency") + timedelta_days 2
  = fst (MultiFunction.slot_window 1000 "non_emergency").
Proof.
  destruct (slot_window_shape 1000 "non_emergency") as (_ & _ & _ & gap).
  apply gap. discriminate.
Defined.

(** ** The video track and the latest frame *)

Module VideoFacts.
Import Video.

Lemma scan_publications_pending (p : participant) :
  snd (scan_publications p Pending) =
  match first_video p with
  | Some t => Some (Resolved t)
  | None => Some Pending
  end.
Proof.
  induction p as [|[[sid|sid]|] rest IH]; cbn [scan_publications first_video is_video];
    trivial.
Qed.

Lemma scan_publications_resolved (p : participant) (t : track) :
  snd (scan_publications p (Resolved t)) =
  if has_video p then None else Some (Resolved t).
Proof.
  induction p as [|[[sid|sid]|] rest IH];
    cbn [scan_publications has_video existsb is_video orb]; trivial.
Qed.

Lemma first_video_has_video (p : participant) :
  has_video p = match first_video p with Some _ => true | None => false end.
Proof.
  induction p as [|[[sid|sid]|] rest IH]; cbn [first_video has_video existsb is_video orb];
    trivial.
Qed.

Lemma scan_participants_resolved (r : room) (t : track) :
  snd (scan_participants r (Resolved t)) =
  match with_video r with
  | [] => Some (Resolved t)
  | _ :: _ => None
  end.
Proof.
  induction r as [|p rest IH]; [reflexivity|].
  cbn [scan_participants with_video filter].
  pose proof (scan_publications_resolved p t) as S.
  destruct (scan_publications p (Resolved t)) as [tr [fut|]]; cbn [snd] in S.
  - destruct (has_video p); [discriminate|]. injection S as ->.
    destruct (scan_participants rest (Resolved t)) as [tr' r']. exact IH.
  - destruct (has_video p); [reflexivity | discriminate].
Qed.

Lemma scan_participants_pending (r : room) :
  snd (scan_participants r Pending) =
  match with_video r with
  | [] => Some Pending
  | [p] => option_map Resolved (first_video p)
  | _ :: _ :: _ => None
  end.
Proof.
  induction r as [|p rest IH]; [reflexivity|].
  cbn [scan_participants with_video filter].
  pose proof (scan_publications_pending p) as S.
  rewrite (first_video_has_video p).
  destruct (scan_publications p Pending) as [tr [fut|]]; cbn [snd] in S.
  - destruct (first_video p) as [t|] eqn:F; injection S as ->.
    + pose proof (scan_participants_resolved rest t) as R.
      destruct (scan_participants rest (Resolved t)) as [tr' r']. cbn [snd] in *.
      rewrite R. fold (with_video rest).
      destruct (with_video rest); [now rewrite F | reflexivity].
    + destruct (scan_participants rest Pending) as [tr' r']. exact IH.
  - destruct (first_video p); discriminate S.
Qed.

Lemma with_video_head (r : room) (p : participant) (others : list participant) :
  with_video r = p :: others -> has_video p = true.
Proof.
  intros E. assert (I : In p (with_video r)) by (rewrite E; now left).
  apply filter_In in I. tauto.
Qed.

End VideoFacts.

(** X8: [get_video_track] depends on how many participants publish a
    subscribed video track.  With none, the future it awaits is never
    resolved and the call never returns.  With exactly one, it returns that
    participant's first video track.  With two or more, the second
    [set_result] raises [InvalidStateError]: the [break] leaves the inner
    loop only. *)
Theorem get_video_track_by_number_of_video_participants :
  forall r : Video.room,
    snd (Video.get_video_track r) =
    match Video.with_video r with
    | [] => Video.NeverResolves
    | [p] => match Video.first_video p with
             | Some t => Video.Returned t
             | None => Video.NeverResolves
             end
    | _ :: _ :: _ => Video.InvalidStateError
    end /\
    (forall p, Video.with_video r = [p] ->
               exists t, snd (Video.get_video_track r) = Video.Returned t).
Proof.
  intros r.
  assert (main : snd (Video.get_video_track r) =
                 match Video.with_video r with
                 | [] => Video.NeverResolves
                 | [p] => match Video.first_video p with
                          | Some t => Video.Returned t
                          | None => Video.NeverResolves
                          end
                 | _ :: _ :: _ => Video.InvalidStateError
                 end).
  { unfold Video.get_video_track.
    pose proof (VideoFacts.scan_participants_pending r) as S.
    destruct (Video.scan_participants r Video.Pending) as [tr res]. cbn [snd] in S.
    subst res. destruct (Video.with_video r) as [|p [|q more]] eqn:E; try reflexivity.
    pose proof (VideoFacts.with_video_head _ _ _ E) as V.
    rewrite VideoFacts.first_video_has_video in V.
    destruct (Video.first_video p); [reflexivity | discriminate V]. }
  split; [exact main|].
  intros p E. rewrite main, E.
  pose proof (VideoFacts.with_video_head _ _ _ E) as V.
  rewrite VideoFacts.first_video_has_video in V.
  destruct (Video.first_video p) as [t|]; [now exists t | discriminate].
Qed.

Lemma get_video_track_by_number_of_video_participants_witness :
  exists t,
    snd (Video.get_video_track
           [[Some (Video.RemoteAudioTrack "TR_mic")];
            [None; Some (Video.RemoteAudioTrack "TR_a"); Some (Video.RemoteVideoTrack "TR_cam")]])
    = Video.Returned t.
Proof.
  apply (proj2 (get_video_track_by_number_of_video_participants
                  [[Some (Video.RemoteAudioTrack "TR_mic")];
                   [None; Some (Video.RemoteAudioTrack "TR_a");
                    Some (Video.RemoteVideoTrack "TR_cam")]])
           [None; Some (Video.RemoteAudioTrack "TR_a"); Some (Video.RemoteVideoTrack "TR_cam")]).
  reflexivity.
Defined.

Lemma last_cons_default {A} (l : list A) :
  forall x d, last (x :: l) d = last l x.
Proof.
  induction l as [|y l IH]; intros x d; [reflexivity|].
  change (last (x :: y :: l) d) with (last (y :: l) d).
  now rewrite !IH.
Qed.

Lemma video_stream_final (frames : list VideoFrame) :
  forall st,
    Video.video_stream frames st =
    ([], Ok tt,
     {| human_agent_present := human_agent_present st;
        chat_context := chat_context st;
        latest_image := last (map Some frames) (latest_image st) |}).
Proof.
  induction frames as [|f rest IH]; intros st.
  - now destruct st.
  - cbn [Video.video_stream]. unfold Sess.bind, Video.receive_frame.
    rewrite IH. cbn [human_agent_present chat_context latest_image map].
    now rewrite last_cons_default.
Qed.

(** X9: the frame cache keeps the most recent frame and nothing else.
    After any run of frames that ends with [frame], an answer that asks for
    the image puts the text and that last frame, and no earlier one, before
    the model, in both files; receiving frames changes neither the
    transcript nor the flag and invokes nothing. *)
Theorem latest_frame_wins :
  forall earlier frame text st,
    let st1 := Sess.final (Video.video_stream (earlier ++ [frame]) st) in
    let sent := {| msg_role := User; content := [Text (PStr text); Image frame] |} in
    Sess.trace (Video.video_stream (earlier ++ [frame]) st) = [] /\
    human_agent_present st1 = human_agent_present st /\
    chat_context st1 = chat_context st /\
    latest_image st1 = Some frame /\
    chat_context (Sess.final (HelpDesk._answer (PStr text) true false false st1))
    = (chat_context st ++ [sent])%list /\
    chat_context (Sess.final (MultiFunction._answer (PStr text) true false false st1))
    = (chat_context st ++ [sent])%list.
Proof.
  intros earlier frame text st st1 sent. subst st1 sent.
  rewrite video_stream_final, map_app. cbn [map]. rewrite last_last.
  destruct st as [present ctx img]. repeat split.
Qed.

(** ** What every run of a session keeps *)

Module PaceFacts.

Lemma keeps_pace_quiet (tr : list effect) (st : session) :
  count is_gpt tr = O -> keeps_pace tr st st.
Proof.
  intros H. split; [auto|]. exists []. rewrite app_nil_r, H. auto.
Qed.

Lemma keeps_pace_trans (t1 t2 : list effect) (a b c : session) :
  keeps_pace t1 a b -> keeps_pace t2 b c -> keeps_pace (t1 ++ t2) a c.
Proof.
  intros [F1 (x & E1 & U1 & L1)] [F2 (y & E2 & U2 & L2)]. split; [auto|].
  exists (x ++ y)%list. rewrite E2, E1, <- app_assoc, forallb_app, U1, U2.
  rewrite length_app, count_app, L1, L2. auto.
Qed.

Lemma paced_ret {A} (a : A) : paced (Sess.ret a).
Proof. intros st. now apply keeps_pace_quiet. Qed.

Lemma paced_raise {A} (e : exn) : paced (@Sess.raise A e).
Proof. intros st. now apply keeps_pace_quiet. Qed.

Lemma paced_get : paced Sess.get.
Proof. intros st. now apply keeps_pace_quiet. Qed.

Lemma paced_emit (e : effect) : is_gpt e = false -> paced (Sess.emit e).
Proof.
  intros H st. apply keeps_pace_quiet. unfold Sess.emit, Sess.trace, count.
  cbn [fst filter]. now rewrite H.
Qed.

Lemma paced_print (line : string) : paced (Sess.print line).
Proof. now apply paced_emit. Qed.

Lemma paced_create_task (t : task) : paced (Sess.create_task t).
Proof. now apply paced_emit. Qed.

Lemma paced_lift {A} (m : IO.io A) : count is_gpt (IO.trace m) = O -> paced (Sess.lift m).
Proof. intros H st. now apply keeps_pace_quiet. Qed.

Lemma paced_set_true : paced (Sess.set_human_agent_present true).
Proof.
  intros st. split; [reflexivity|]. exists []. cbn. now rewrite app_nil_r.
Qed.

Lemma paced_receive_frame (frame : VideoFrame) : paced (Video.receive_frame frame).
Proof.
  intros st. split; [auto|]. exists []. cbn. now rewrite app_nil_r.
Qed.

Lemma paced_bind {A B} (m : Sess.M A) (k : A -> Sess.M B) :
  paced m -> (forall a, paced (k a)) -> paced (Sess.bind m k).
Proof.
  intros Hm Hk st. specialize (Hm st). unfold Sess.bind.
  destruct (m st) as [[tr [a|e]] st1]; [|exact Hm].
  specialize (Hk a st1). destruct (k a st1) as [[tr' r] st2].
  exact (keeps_pace_trans _ _ _ _ _ Hm Hk).
Qed.

Lemma paced_isolated (m : Sess.M unit) : paced m -> paced (isolated m).
Proof.
  intros Hm st. specialize (Hm st). unfold isolated.
  now destruct (m st) as [[tr r] st1].
Qed.

Lemma keeps_pace_answered (notes : list effect) (st : session) (m : ChatMessage) :
  count is_gpt notes = O ->
  msg_role m = User ->
  let st' := {| human_agent_present := human_agent_present st;
                chat_context := (chat_context st ++ [m])%list;
                latest_image := latest_image st |} in
  keeps_pace (notes ++ [GptChat (chat_context st'); Say]) st st'.
Proof.
  intros Hn Hm st'. split; [auto|]. exists [m]. cbn [chat_context st'].
  unfold is_user_message. cbn [forallb]. rewrite Hm, count_app, Hn. auto.
Qed.

Lemma paced_HelpDesk_answer text use_image hap air :
  paced (HelpDesk._answer text use_image hap air).
Proof.
  unfold HelpDesk._answer.
  destruct (hap && negb air); [apply paced_print|].
  intros st. destruct st as [present ctx img].
  pose (st := {| human_agent_present := present; chat_context := ctx;
                 latest_image := img |}).
  pose (plain := {| msg_role := User; content := [Text text] |}).
  destruct use_image, img as [frame|].
  - exact (keeps_pace_answered [Print "Calling with latest image"]
             {| human_agent_present := present; chat_context := ctx;
                latest_image := Some frame |}
             {| msg_role := User; content := [Text text; Image frame] |}
             eq_refl eq_refl).
  - exact (keeps_pace_answered [] st plain eq_refl eq_refl).
  - exact (keeps_pace_answered [] st plain eq_refl eq_refl).
  - exact (keeps_pace_answered [] st plain eq_refl eq_refl).
Qed.

Lemma paced_MultiFunction_answer text use_image hap air :
  paced (MultiFunction._answer text use_image hap air).
Proof.
  assert (speaks : forall st,
            keeps_pace
              (Sess.trace (HelpDesk._answer text use_image false false st)) st
              (Sess.final (HelpDesk._answer text use_image false false st)))
    by apply paced_HelpDesk_answer.
  intros st. unfold MultiFunction._answer, MultiFunction.text_lower.
  destruct hap.
  - destruct text as [|s]; [now apply keeps_pace_quiet|].
    unfold Sess.bind, Sess.ret.
    destruct (PyStr.contains "help me" (PyStr.lower s) && negb air).
    + now apply keeps_pace_quiet.
    + destruct st as [present ctx img], use_image, img; exact (speaks _).
  - destruct st as [present ctx img], use_image, img; exact (speaks _).
Qed.

Lemma paced_create_sip_participant phone room o :
  paced (create_sip_participant phone room o).
Proof.
  unfold create_sip_participant.
  repeat first [ apply paced_bind; [|intros ?] | apply paced_print
               | apply paced_emit; reflexivity ].
  destruct o; [apply paced_ret | apply paced_raise].
Qed.

Lemma paced_HelpDesk_follow_up getenv email o :
  paced (HelpDesk.follow_up_appointment getenv email o).
Proof.
  unfold HelpDesk.follow_up_appointment.
  repeat first [ apply paced_HelpDesk_answer
               | apply paced_lift, check_appointment_status_no_model
               | apply paced_print
               | apply paced_emit; reflexivity
               | apply paced_bind; [|intros ?] ].
Qed.

Lemma paced_MultiFunction_follow_up getenv email o :
  paced (MultiFunction.follow_up_appointment getenv email o).
Proof.
  unfold MultiFunction.follow_up_appointment.
  repeat first [ apply paced_MultiFunction_answer
               | apply paced_lift, check_appointment_status_no_model
               | apply paced_print
               | apply paced_emit; reflexivity
               | apply paced_bind; [|intros ?] ].
Qed.

Lemma paced_HelpDesk_run_tasks getenv http sip (ts : list task) :
  paced (HelpDesk.run_tasks getenv http sip ts).
Proof.
  induction ts as [|t rest IH]; [apply paced_ret|].
  cbn [HelpDesk.run_tasks]. apply paced_bind; [|intros _; exact IH].
  apply paced_isolated. destruct t; cbn [HelpDesk.run_task].
  - apply paced_HelpDesk_answer.
  - apply paced_HelpDesk_follow_up.
  - apply paced_create_sip_participant.
Qed.

Lemma paced_MultiFunction_run_tasks getenv http sip (ts : list task) :
  paced (MultiFunction.run_tasks getenv http sip ts).
Proof.
  induction ts as [|t rest IH]; [apply paced_ret|].
  cbn [MultiFunction.run_tasks]. apply paced_bind; [|intros _; exact IH].
  apply paced_isolated. destruct t; cbn [MultiFunction.run_task].
  - apply paced_MultiFunction_answer.
  - apply paced_MultiFunction_follow_up.
  - apply paced_create_sip_participant.
Qed.

Lemma paced_HelpDesk_dispatch getenv http sip (handler : Sess.M unit) :
  paced handler -> paced (HelpDesk.dispatch getenv http sip handler).
Proof.
  intros H st. specialize (H st). unfold HelpDesk.dispatch.
  destruct (handler st) as [[tr r] st1].
  pose proof (paced_HelpDesk_run_tasks getenv http sip (spawned tr) st1) as T.
  destruct (HelpDesk.run_tasks getenv http sip (spawned tr) st1) as [[tr' r'] st2].
  exact (keeps_pace_trans _ _ _ _ _ H T).
Qed.

Lemma paced_MultiFunction_dispatch getenv http sip (handler : Sess.M unit) :
  paced handler -> paced (MultiFunction.dispatch getenv http sip handler).
Proof.
  intros H st. specialize (H st). unfold MultiFunction.dispatch.
  destruct (handler st) as [[tr r] st1].
  pose proof (paced_MultiFunction_run_tasks getenv http sip (spawned tr) st1) as T.
  destruct (MultiFunction.run_tasks getenv http sip (spawned tr) st1) as [[tr' r'] st2].
  exact (keeps_pace_trans _ _ _ _ _ H T).
Qed.

Ltac paced_handler :=
  repeat first
    [ apply paced_ret | apply paced_get | apply paced_print | apply paced_create_task
    | apply paced_set_true
    | apply paced_bind; [|intros ?]
    | match goal with
      | |- paced (if ?b then _ else _) => destruct b
      | |- paced (match ?x with _ => _ end) => destruct x
      end ].

Lemma paced_HelpDesk_on_message_received m : paced (HelpDesk.on_message_received m).
Proof. unfold HelpDesk.on_message_received. paced_handler. Qed.

Lemma paced_MultiFunction_on_message_received m :
  paced (MultiFunction.on_message_received m).
Proof. unfold MultiFunction.on_message_received. paced_handler. Qed.

Lemma paced_HelpDesk_on_function_calls_finished getenv room l :
  paced (HelpDesk.on_function_calls_finished getenv room l).
Proof. unfold HelpDesk.on_function_calls_finished. paced_handler. Qed.

Lemma paced_MultiFunction_on_function_calls_finished getenv room l :
  paced (MultiFunction.on_function_calls_finished getenv room l).
Proof. unfold MultiFunction.on_function_calls_finished. paced_handler. Qed.

Lemma paced_HelpDesk_on_customer_agent_finished :
  paced HelpDesk.on_customer_agent_finished.
Proof. unfold HelpDesk.on_customer_agent_finished. paced_handler. Qed.

Lemma paced_HelpDesk_session getenv room (events : list stimulus) :
  paced (HelpDeskSession.session_run getenv room events).
Proof.
  induction events as [|s rest IH]; [apply paced_ret|].
  cbn [HelpDeskSession.session_run]. apply paced_bind; [|intros _; exact IH].
  apply paced_isolated. unfold HelpDeskSession.react.
  destruct (what s); try apply paced_HelpDesk_dispatch.
  - apply paced_HelpDesk_on_message_received.
  - apply paced_HelpDesk_on_function_calls_finished.
  - apply paced_HelpDesk_on_customer_agent_finished.
  - apply paced_receive_frame.
Qed.

Lemma paced_MultiFunction_session getenv room (events : list stimulus) :
  paced (MultiFunctionSession.session_run getenv room events).
Proof.
  induction events as [|s rest IH]; [apply paced_ret|].
  cbn [MultiFunctionSession.session_run]. apply paced_bind; [|intros _; exact IH].
  apply paced_isolated. unfold MultiFunctionSession.react.
  destruct (what s); try apply paced_MultiFunction_dispatch.
  - apply paced_MultiFunction_on_message_received.
  - apply paced_MultiFunction_on_function_calls_finished.
  - apply paced_ret.
  - apply paced_receive_frame.
Qed.

End PaceFacts.

(** X10: nothing in either file ever clears [human_agent_present].  Over
    any run of events (chat messages, finished function calls, participant
    disconnections, video frames) with any answers from the CRM and the call
    service, a session in which the flag is set ends with the flag set. *)
Theorem human_agent_present_is_never_cleared :
  forall getenv room_name events st,
    human_agent_present st = true ->
    human_agent_present
      (Sess.final (HelpDeskSession.session_run getenv room_name events st)) = true /\
    human_agent_present
      (Sess.final (MultiFunctionSession.session_run getenv room_name events st)) = true.
Proof.
  intros getenv room_name events st H. split.
  - now apply (PaceFacts.paced_HelpDesk_session getenv room_name events st).
  - now apply (PaceFacts.paced_MultiFunction_session getenv room_name events st).
Qed.

Lemma human_agent_present_is_never_cleared_witness :
  human_agent_present
    (Sess.final
       (HelpDeskSession.session_run sample_env "clinic-room"
          [{| what := ParticipantDisconnected;
              http_answer := RequestFailed; sip_answer := SipPlaced |};
           {| what := MessageReceived "is anyone there?";
              http_answer := RequestFailed; sip_answer := SipPlaced |}]
          (with_human fresh_session))) = true.
Proof.
  apply (human_agent_present_is_never_cleared sample_env "clinic-room").
  reflexivity.
Defined.

(** X11: the transcript only grows, and in step with the model.  Over any
    run of events, in both files, the transcript at the end is the
    transcript at the start followed by new messages; every new message has
    the role user; and there is exactly one new message for each invocation
    of the model.  In particular the system message stays first. *)
Theorem transcript_grows_with_the_model :
  forall getenv room_name events st,
    let run1 := HelpDeskSession.session_run getenv room_name events st in
    let run2 := MultiFunctionSession.session_run getenv room_name events st in
    (exists added,
       chat_context (Sess.final run1) = (chat_context st ++ added)%list /\
       forallb is_user_message added = true /\
       List.length added = count is_gpt (Sess.trace run1)) /\
    (exists added,
       chat_context (Sess.final run2) = (chat_context st ++ added)%list /\
       forallb is_user_message added = true /\
       List.length added = count is_gpt (Sess.trace run2)) /\
    (forall system,
       hd_error (chat_context st) = Some system ->
       hd_error (chat_context (Sess.final run1)) = Some system /\
       hd_error (chat_context (Sess.final run2)) = Some system).
Proof.
  intros getenv room_name events st run1 run2.
  destruct (PaceFacts.paced_HelpDesk_session getenv room_name events st) as [_ G1].
  destruct (PaceFacts.paced_MultiFunction_session getenv room_name events st) as [_ G2].
  fold run1 in G1. fold run2 in G2.
  split; [exact G1|]. split; [exact G2|].
  intros system H.
  destruct G1 as (a1 & E1 & _). destruct G2 as (a2 & E2 & _).
  rewrite E1, E2. destruct (chat_context st); [discriminate H | auto].
Qed.

Lemma transcript_grows_with_the_model_witness :
  hd_error
    (chat_context
       (Sess.final
          (MultiFunctionSession.session_run sample_env "clinic-room"
             [{| what := MessageReceived "my tooth hurts";
                 http_answer := RequestFailed; sip_answer := SipPlaced |}]
             fresh_session)))
  = Some {| msg_role := System; content := [Text (PStr "Your name is Daela")] |}.
Proof.
  destruct (transcript_grows_with_the_model sample_env "clinic-room"
              [{| what := MessageReceived "my tooth hurts";
                  http_answer := RequestFailed; sip_answer := SipPlaced |}]
              fresh_session) as (_ & _ & first).
  exact (proj2 (first _ eq_refl)).
Defined.

(** ** agent.py: waiting for the room *)

Module AgentFacts.
Import Agent.

Lemma slept_app (a b : list effect) : slept (a ++ b) = slept a + slept b.
Proof.
  induction a as [|e a IH]; [reflexivity|].
  destruct e; cbn [slept app]; rewrite IH; lia.
Qed.

Lemma check_room_status_trace getenv room_name r :
  count is_http (IO.trace (check_room_status getenv room_name r)) = 1%nat /\
  slept (IO.trace (check_room_status getenv room_name r)) = 0.
Proof.
  unfold check_room_status.
  destruct r as [|status_code payload]; [now split|].
  unfold IO.try_except_RequestException, IO.bind, IO.of_result, IO.emit, IO.ret.
  destruct (status_code =? 200); [|now split].
  destruct (get_num_participants payload) as [participants|e]; [|now destruct e].
  destruct (gt_zero participants) as [b|e]; [now split | now destruct e].
Qed.

Section Loop.

Variable getenv : string -> option string.
Variable str_of_int : Z -> string.
Variable room_name : string.
Variable replies : Z -> http_reply.

Lemma polls_app (a b : list effect) : polls (a ++ b) = polls a + polls b.
Proof. unfold polls. rewrite count_app. lia. Qed.

Ltac tally C S :=
  unfold IO.print, IO.emit, IO.ret, IO.trace, IO.value in *;
  cbn [fst snd] in *;
  rewrite ?polls_app, ?slept_app;
  unfold polls in *; rewrite ?C, ?S;
  unfold count in *; cbn [filter is_http List.length slept app].

Lemma wait_loop_bounded (fuel : nat) :
  forall retries,
    0 <= retries <= 12 ->
    let run := wait_loop getenv str_of_int fuel room_name replies retries in
    polls (IO.trace run) <= 12 - retries /\
    slept (IO.trace run) <= 5 * (12 - retries) /\
    (12 - retries < Z.of_nat fuel -> IO.value run <> Ok None).
Proof.
  induction fuel as [|fuel IH]; intros retries R; cbv zeta.
  - cbn [wait_loop]. tally I I. repeat split; lia.
  - cbn [wait_loop]. unfold max_retries.
    destruct (retries <? 12) eqn:L.
    + apply Z.ltb_lt in L.
      destruct (check_room_status_trace getenv room_name (replies retries)) as [C S].
      unfold IO.bind.
      destruct (check_room_status getenv room_name (replies retries)) as [tr [[|]|e]].
      * tally C S. repeat split; try lia. discriminate.
      * specialize (IH (retries + 1) ltac:(lia)). cbv zeta in IH.
        destruct (wait_loop getenv str_of_int fuel room_name replies (retries + 1))
          as [tr' r'].
        tally C S. destruct IH as (P & Q & T).
        repeat split; try lia. intros F. apply T. lia.
      * tally C S. repeat split; try lia. discriminate.
    + apply Z.ltb_ge in L. tally I I. repeat split; try lia. discriminate.
Qed.

Lemma wait_loop_all_inactive (fuel : nat) :
  forall retries,
    0 <= retries <= 12 ->
    12 - retries < Z.of_nat fuel ->
    (forall i, retries <= i < 12 -> poll getenv room_name replies i = Ok false) ->
    let run := wait_loop getenv str_of_int fuel room_name replies retries in
    IO.value run = Ok (Some false) /\
    polls (IO.trace run) = 12 - retries /\
    slept (IO.trace run) = 5 * (12 - retries).
Proof.
  induction fuel as [|fuel IH]; intros retries R F H; cbv zeta; [lia|].
  cbn [wait_loop]. unfold max_retries.
  destruct (retries <? 12) eqn:L.
  - apply Z.ltb_lt in L.
    destruct (check_room_status_trace getenv room_name (replies retries)) as [C S].
    pose proof (H retries ltac:(lia)) as V. unfold poll in V.
    unfold IO.bind.
    specialize (IH (retries + 1) ltac:(lia) ltac:(lia)
                  (fun i Hi => H i ltac:(lia))). cbv zeta in IH.
    destruct (check_room_status getenv room_name (replies retries)) as [tr r].
    destruct (wait_loop getenv str_of_int fuel room_name replies (retries + 1))
      as [tr' r'].
    unfold IO.value in V; cbn [snd] in V; subst r.
    tally C S. destruct IH as (P & Q & T).
    repeat split; [assumption | lia | lia].
  - apply Z.ltb_ge in L. tally I I. repeat split; lia.
Qed.

Lemma wait_loop_active_at (fuel : nat) (k : Z) :
  forall retries,
    0 <= retries <= k -> k < 12 ->
    k - retries < Z.of_nat fuel ->
    (forall i, retries <= i < k -> poll getenv room_name replies i = Ok false) ->
    poll getenv room_name replies k = Ok true ->
    let run := wait_loop getenv str_of_int fuel room_name replies retries in
    IO.value run = Ok (Some true) /\
    polls (IO.trace run) = k - retries + 1 /\
    slept (IO.trace run) = 5 * (k - retries).
Proof.
  induction fuel as [|fuel IH]; intros retries R K F H A; cbv zeta; [lia|].
  cbn [wait_loop]. unfold max_retries.
  assert (L : (retries <? 12) = true) by (apply Z.ltb_lt; lia). rewrite L.
  destruct (check_room_status_trace getenv room_name (replies retries)) as [C S].
  unfold IO.bind.
  destruct (Z.eq_dec retries k) as [E|N].
  - subst retries. unfold poll in A.
    destruct (check_room_status getenv room_name (replies k)) as [tr r].
    unfold IO.value in A; cbn [snd] in A; subst r.
    tally C S. repeat split; lia.
  - pose proof (H retries ltac:(lia)) as V. unfold poll in V.
    specialize (IH (retries + 1) ltac:(lia) K ltac:(lia)
                  (fun i Hi => H i ltac:(lia)) A). cbv zeta in IH.
    destruct (check_room_status getenv room_name (replies retries)) as [tr r].
    destruct (wait_loop getenv str_of_int fuel room_name replies (retries + 1))
      as [tr' r'].
    unfold IO.value in V; cbn [snd] in V; subst r.
    tally C S. destruct IH as (P & Q & T).
    repeat split; [assumption | lia | lia].
Qed.

End Loop.
End AgentFacts.

(** X12: [wait_for_room] is a bounded wait.  Whatever the server answers,
    it makes at most 12 polls, sleeps at most 60 seconds, and ends (the loop
    of the model does not run out of fuel).  When each of the 12 polls finds
    the room inactive, it returns [False] after exactly 12 polls and 60
    seconds.  When the poll number [k] (counting from 0) is the first to
    find the room active, it returns [True] after [k + 1] polls and [5 * k]
    seconds. *)
Theorem wait_for_room_is_a_bounded_wait :
  forall getenv str_of_int room_name replies,
    let run := Agent.wait_for_room getenv str_of_int room_name replies in
    let found := Agent.poll getenv room_name replies in
    (Agent.polls (IO.trace run) <= 12 /\
     Agent.slept (IO.trace run) <= 60 /\
     IO.value run <> Ok None) /\
    ((forall i, 0 <= i < 12 -> found i = Ok false) ->
     IO.value run = Ok (Some false) /\
     Agent.polls (IO.trace run) = 12 /\
     Agent.slept (IO.trace run) = 60) /\
    (forall k,
       0 <= k < 12 ->
       (forall i, 0 <= i < k -> found i = Ok false) ->
       found k = Ok true ->
       IO.value run = Ok (Some true) /\
       Agent.polls (IO.trace run) = k + 1 /\
       Agent.slept (IO.trace run) = 5 * k).
Proof.
  intros getenv str_of_int room_name replies run found. subst run found.
  unfold Agent.wait_for_room. split; [|split].
  - destruct (AgentFacts.wait_loop_bounded getenv str_of_int room_name replies 13 0
                ltac:(lia)) as (P & Q & T).
    repeat split; [lia | lia | apply T; lia].
  - intros H.
    destruct (AgentFacts.wait_loop_all_inactive getenv str_of_int room_name replies 13 0
                ltac:(lia) ltac:(lia) H) as (V & P & Q).
    repeat split; [assumption | lia | lia].
  - intros k K H A.
    destruct (AgentFacts.wait_loop_active_at getenv str_of_int room_name replies 13 k 0
                ltac:(lia) ltac:(lia) ltac:(lia) H A) as (V & P & Q).
    repeat split; [assumption | lia | lia].
Qed.

Lemma wait_for_room_is_a_bounded_wait_witness :
  let run := Agent.wait_for_room sample_env (fun _ => "n") "clinic-room"
               third_poll_finds_someone in
  IO.value run = Ok (Some true) /\
  Agent.polls (IO.trace run) = 3 /\
  Agent.slept (IO.trace run) = 10.
Proof.
  cbv zeta.
  destruct (wait_for_room_is_a_bounded_wait sample_env (fun _ => "n") "clinic-room"
              third_poll_finds_someone) as (_ & _ & active).
  apply (active 2); [lia | | reflexivity].
  intros i Hi. assert (E : i = 0 \/ i = 1) by lia.
  destruct E as [->| ->]; reflexivity.
Defined.

(** X13: the function-calls-finished handler of agent.py calls
    [_answer(user_msg, use_image=True)], but the [_answer] of that file
    takes a text only.  So whenever the finished call carries a non-empty
    [user_msg], the handler raises [TypeError] before it creates any task,
    and the follow-up for an [email] in the same call is not scheduled
    either.  Without a [user_msg] it schedules a follow-up exactly when the
    call carries a non-empty [email], whatever function was called. *)
Theorem agent_dispatch_raises_on_user_msg :
  forall first others st,
    (forall user_msg,
       arguments_get "user_msg" (fn_arguments first) = Some user_msg ->
       PyStr.truthy user_msg = true ->
       Agent.on_function_calls_finished (first :: others) st = ([], Raise TypeError, st)) /\
    (arguments_get "user_msg" (fn_arguments first) = None ->
     Agent.on_function_calls_finished (first :: others) st =
     (match arguments_get "email" (fn_arguments first) with
      | Some email => if PyStr.truthy email then [CreateTask (FollowUpTask email)] else []
      | None => []
      end, Ok tt, st)).
Proof.
  intros first others st. unfold Agent.on_function_calls_finished. split.
  - intros user_msg H T. unfold Sess.bind. now rewrite H, T.
  - intros H. unfold Sess.bind. rewrite H.
    destruct (arguments_get "email" (fn_arguments first)) as [email|]; [|reflexivity].
    now destruct (PyStr.truthy email).
Qed.

Lemma agent_dispatch_raises_on_user_msg_witness :
  Agent.on_function_calls_finished
    [{| fn_name := "provideImage";
        fn_arguments := [("user_msg", "what do you see?"); ("email", "bob@example.com")];
        fn_result := PNone |}] fresh_session
  = ([], Raise TypeError, fresh_session) /\
  Agent.on_function_calls_finished
    [{| fn_name := "anything";
        fn_arguments := [("email", "bob@example.com")];
        fn_result := PNone |}] fresh_session
  = ([CreateTask (FollowUpTask "bob@example.com")], Ok tt, fresh_session).
Proof.
  split.
  - apply (proj1 (agent_dispatch_raises_on_user_msg
                    {| fn_name := "provideImage";
                       fn_arguments := [("user_msg", "what do you see?");
                                        ("email", "bob@example.com")];
                       fn_result := PNone |} [] fresh_session)
             "what do you see?"); reflexivity.
  - apply (proj2 (agent_dispatch_raises_on_user_msg
                    {| fn_name := "anything";
                       fn_arguments := [("email", "bob@example.com")];
                       fn_result := PNone |} [] fresh_session)).
    reflexivity.
Defined.

(** ** Start-up *)

(** X14: start-up from the environment.  [create_voice_assistant] builds
    [openai.LLM] with the model [GPT_MODEL] or [gpt-4o-mini] before it looks
    at the speech provider: when that constructor raises, its exception is
    the outcome whatever [TTS_PROVIDER] says.  When it succeeds and
    [TTS_PROVIDER] is set to anything but [openai], [elevenlabs] included,
    the outcome is a [ValueError] that names the provider.  An assistant is
    built only if [TTS_PROVIDER] is unset or is [openai], and then with that
    model, the OpenAI voice [OPENAI_TTS_VOICE] or [alloy], and the webhook
    [WEBHOOK_URL]; it is built whenever, in addition, every constructor
    succeeds. *)
Theorem startup_checks_the_provider_after_the_llm :
  forall lib getenv chat_context,
    let started :=
      Startup.create_voice_assistant lib (Startup.load_config getenv) chat_context in
    let model := Startup.getenv_or getenv "GPT_MODEL" "gpt-4o-mini" in
    let voice := Startup.getenv_or getenv "OPENAI_TTS_VOICE" "alloy" in
    let assistant :=
      {| Startup.llm_model := model;
         Startup.tts := Startup.OpenAITTS voice;
         Startup.fnc_webhook_url := getenv "WEBHOOK_URL";
         Startup.chat_ctx := chat_context |} in
    (forall e, Startup.openai_LLM lib model = Some e -> started = Startup.Fails e) /\
    (forall provider,
       Startup.openai_LLM lib model = None ->
       getenv "TTS_PROVIDER" = Some provider -> provider <> "openai" ->
       started = Startup.Fails (Startup.ValueError ("Unsupported TTS provider: " ++ provider))) /\
    (forall a,
       started = Startup.Built a ->
       (getenv "TTS_PROVIDER" = None \/ getenv "TTS_PROVIDER" = Some "openai") /\
       a = assistant) /\
    (Startup.openai_LLM lib model = None ->
     Startup.the_rest_builds lib voice ->
     getenv "TTS_PROVIDER" = None \/ getenv "TTS_PROVIDER" = Some "openai" ->
     started = Startup.Built assistant).
Proof.
  intros lib getenv chat_context started model voice assistant.
  subst started assistant.
  unfold Startup.create_voice_assistant, Startup.get_tts_engine, Startup.create_openai_tts,
    Startup.load_config.
  cbn [Startup.tts_provider Startup.gpt_model Startup.openai_tts_voice Startup.webhook_url].
  fold model. fold voice.
  assert (P : forall provider, getenv "TTS_PROVIDER" = Some provider ->
                Startup.getenv_or getenv "TTS_PROVIDER" "openai" = provider)
    by (intros provider H; unfold Startup.getenv_or; now rewrite H).
  assert (Q : getenv "TTS_PROVIDER" = None ->
              Startup.getenv_or getenv "TTS_PROVIDER" "openai" = "openai")
    by (intros H; unfold Startup.getenv_or; now rewrite H).
  split; [|split; [|split]].
  - intros e H. now rewrite H.
  - intros provider L H N. rewrite L, (P _ H).
    apply String.eqb_neq in N. cbn [Startup.call Startup.and_then]. now rewrite N.
  - intros a. destruct (Startup.openai_LLM lib model); [discriminate|].
    cbn [Startup.call Startup.and_then].
    destruct (getenv "TTS_PROVIDER") as [provider|] eqn:H.
    + rewrite (P _ eq_refl).
      destruct (String.eqb provider "openai") eqn:E; [|discriminate].
      apply String.eqb_eq in E. subst provider.
      destruct (Startup.openai_TTS lib voice); [discriminate|].
      destruct (Startup.SentenceTokenizer lib); [discriminate|].
      destruct (Startup.StreamAdapter lib); [discriminate|].
      destruct (Startup.silero_VAD_load lib); [discriminate|].
      destruct (Startup.deepgram_STT lib); [discriminate|].
      destruct (Startup.AssistantFunction_init lib); [discriminate|].
      destruct (Startup.VoiceAssistant_init lib); [discriminate|].
      cbn [Startup.call Startup.and_then]. intros [= <-]. auto.
    + rewrite (Q eq_refl). cbn [String.eqb Ascii.eqb Bool.eqb].
      destruct (Startup.openai_TTS lib voice); [discriminate|].
      destruct (Startup.SentenceTokenizer lib); [discriminate|].
      destruct (Startup.StreamAdapter lib); [discriminate|].
      destruct (Startup.silero_VAD_load lib); [discriminate|].
      destruct (Startup.deepgram_STT lib); [discriminate|].
      destruct (Startup.AssistantFunction_init lib); [discriminate|].
      destruct (Startup.VoiceAssistant_init lib); [discriminate|].
      cbn [Startup.call Startup.and_then]. intros [= <-]. auto.
  - intros L (T & K & A & V & D & F & W) H. rewrite L.
    assert (O : Startup.getenv_or getenv "TTS_PROVIDER" "openai" = "openai")
      by (destruct H as [H|H]; [now apply Q | now apply P]).
    rewrite O, T, K, A, V, D, F, W. reflexivity.
Qed.

Lemma startup_checks_the_provider_after_the_llm_witness :
  Startup.create_voice_assistant Startup.libraries_without_key
    (Startup.load_config elevenlabs_env) []
  = Startup.Fails (Startup.ValueError "OpenAI API key is required") /\
  Startup.create_voice_assistant Startup.working_libraries
    (Startup.load_config elevenlabs_env) []
  = Startup.Fails (Startup.ValueError "Unsupported TTS provider: elevenlabs") /\
  Startup.create_voice_assistant Startup.working_libraries
    (Startup.load_config sample_env) []
  = Startup.Built
      {| Startup.llm_model := "gpt-4o-mini";
         Startup.tts := Startup.OpenAITTS "alloy";
         Startup.fnc_webhook_url := Some "https://hooks.example/book";
         Startup.chat_ctx := [] |}.
Proof.
  destruct (startup_checks_the_provider_after_the_llm Startup.libraries_without_key
              elevenlabs_env []) as (no_key & _).
  destruct (startup_checks_the_provider_after_the_llm Startup.working_libraries
              elevenlabs_env []) as (_ & other & _).
  destruct (startup_checks_the_provider_after_the_llm Startup.working_libraries
              sample_env []) as (_ & _ & _ & works).
  cbv zeta in no_key, other, works.
  refine (conj (no_key _ eq_refl) (conj (other "elevenlabs" eq_refl eq_refl _) (works eq_refl _ _))).
  - discriminate.
  - repeat split.
  - now left.
Defined.

(** ** From a finished call to the session *)

(** X15: in AIAssistedCustomerHelpDesk.py, a finished
    [assess_dental_urgency] call on a description with an urgent keyword
    sets the flag and requests the call leg once, and the assistant itself
    says nothing: the model is not invoked and the transcript is unchanged.
    On any other description the flag is left as it was, no call is
    requested, and the reassurance text is put to the model once. *)
Theorem assessment_escalates_exactly_on_urgent_keywords :
  forall getenv room_name http sip symptoms st,
    let run := HelpDesk.dispatch getenv http sip
                 (HelpDesk.on_function_calls_finished getenv room_name [assessed symptoms])
                 st in
    (mentions_urgent_keyword symptoms ->
     human_agent_present (Sess.final run) = true /\
     count is_sip (Sess.trace run) = 1%nat /\
     count is_gpt (Sess.trace run) = O /\
     chat_context (Sess.final run) = chat_context st) /\
    (~ mentions_urgent_keyword symptoms ->
     human_agent_present (Sess.final run) = human_agent_present st /\
     count is_sip (Sess.trace run) = O /\
     count is_gpt (Sess.trace run) = 1%nat /\
     chat_context (Sess.final run) = (chat_context st ++ [user_message reassurance])%list).
Proof.
  intros getenv room_name http sip symptoms st run. subst run.
  unfold assessed, HelpDesk.assess_dental_urgency.
  split; intros H.
  - apply mentions_urgent_keyword_iff in H. rewrite H.
    destruct st as [present ctx img], sip; repeat split.
  - apply not_mentions_urgent_keyword_iff in H. rewrite H.
    destruct st as [present ctx img]; repeat split.
Qed.

Lemma assessment_escalates_exactly_on_urgent_keywords_witness :
  let finished symptoms :=
    HelpDesk.dispatch sample_env RequestFailed SipPlaced
      (HelpDesk.on_function_calls_finished sample_env "clinic-room" [assessed symptoms])
      fresh_session in
  human_agent_present (Sess.final (finished "I have SEVERE PAIN in a molar")) = true /\
  human_agent_present (Sess.final (finished "my filling feels rough")) = false.
Proof.
  cbv zeta.
  assert (urgent : mentions_urgent_keyword "I have SEVERE PAIN in a molar").
  { now apply mentions_urgent_keyword_iff. }
  assert (calm : ~ mentions_urgent_keyword "my filling feels rough").
  { now apply not_mentions_urgent_keyword_iff. }
  destruct (assessment_escalates_exactly_on_urgent_keywords sample_env "clinic-room"
              RequestFailed SipPlaced "I have SEVERE PAIN in a molar" fresh_session)
    as (yes & _).
  destruct (assessment_escalates_exactly_on_urgent_keywords sample_env "clinic-room"
              RequestFailed SipPlaced "my filling feels rough" fresh_session)
    as (_ & no).
  exact (conj (proj1 (yes urgent)) (proj1 (no calm))).
Defined.

(** X16: in the multi-function file, a finished
    [book_emergency_appointment] call whose request had a success status
    and a body that decodes sets the flag, requests the call leg once and
    has the assistant announce the human agent: the announcement is put to
    the model once.  When the request failed, had an error status or had a
    body that does not decode, the flag is left as it was, no call is
    requested, and the error message is put to the model once instead. *)
Theorem emergency_booking_then_handoff :
  forall getenv room_name http sip slot email o st,
    let run := MultiFunction.dispatch getenv http sip
                 (MultiFunction.on_function_calls_finished getenv room_name
                    [emergency_booked getenv slot email o]) st in
    count is_gpt (Sess.trace run) = 1%nat /\
    match o with
    | Success _ =>
        human_agent_present (Sess.final run) = true /\
        count is_sip (Sess.trace run) = 1%nat /\
        chat_context (Sess.final run) = (chat_context st ++ [user_message announcement])%list
    | _ =>
        human_agent_present (Sess.final run) = human_agent_present st /\
        count is_sip (Sess.trace run) = O /\
        chat_context (Sess.final run)
        = (chat_context st ++ [user_message emergency_booking_error])%list
    end.
Proof.
  intros getenv room_name http sip slot email o st run. subst run.
  destruct st as [present ctx img], o, sip; repeat split.
Qed.

(** X17: a finished [analyze_dental_image] call puts the user's message to
    the model once, together with the cached frame when there is one and
    alone when there is none; it does so whether or not a human agent is
    present, and it leaves the flag as it was.  Both files behave so. *)
Theorem image_analysis_attaches_the_cached_frame :
  forall getenv room_name http sip user_msg st,
    let run1 := HelpDesk.dispatch getenv http sip
                  (HelpDesk.on_function_calls_finished getenv room_name
                     [image_requested user_msg]) st in
    let run2 := MultiFunction.dispatch getenv http sip
                  (MultiFunction.on_function_calls_finished getenv room_name
                     [image_requested user_msg]) st in
    let sent := message_with_image user_msg (latest_image st) in
    (chat_context (Sess.final run1) = (chat_context st ++ [sent])%list /\
     count is_gpt (Sess.trace run1) = 1%nat /\
     human_agent_present (Sess.final run1) = human_agent_present st) /\
    (chat_context (Sess.final run2) = (chat_context st ++ [sent])%list /\
     count is_gpt (Sess.trace run2) = 1%nat /\
     human_agent_present (Sess.final run2) = human_agent_present st).
Proof.
  intros getenv room_name http sip user_msg st run1 run2 sent. subst run1 run2 sent.
  destruct st as [present ctx [frame|]]; repeat split.
Qed.

(** X18: the guard of [_answer] differs between the two files.  Called
    with [human_agent_present=True] and without [ai_assistance_required],
    the [_answer] of AIAssistedCustomerHelpDesk.py is silent for every
    text.  The [_answer] of the multi-function file is silent only for a
    text that contains the help phrase; every other text is put to the
    model. *)
Theorem answer_guards_differ :
  forall text use_image st,
    count is_gpt (Sess.trace (HelpDesk._answer (PStr text) use_image true false st)) = O /\
    Sess.final (HelpDesk._answer (PStr text) use_image true false st) = st /\
    count is_gpt (Sess.trace (MultiFunction._answer (PStr text) use_image true false st))
    = (if is_help_request text then 0 else 1)%nat.
Proof.
  intros text use_image st. repeat split.
  unfold MultiFunction._answer, MultiFunction.text_lower, Sess.bind, Sess.ret,
    is_help_request.
  cbn [negb]. rewrite andb_true_r.
  destruct (PyStr.contains "help me" (PyStr.lower text)); [reflexivity|].
  destruct st as [present ctx [frame|]], use_image; reflexivity.
Qed.

(** X19: [check_room_status] reports the room as active exactly when the
    server answers with status 200 and an object whose [num_participants]
    is a positive number (or [true]).  A request that fails is swallowed
    and reported as inactive, and so is every other status, whatever the
    body. *)
Theorem check_room_status_active_iff :
  forall getenv room_name r,
    (IO.value (Agent.check_room_status getenv room_name r) = Ok true <->
     exists fields participants,
       r = Agent.Reply 200 (JObj fields) /\
       PyJson.assoc "num_participants" fields = Some participants /\
       Agent.gt_zero participants = Ok true) /\
    IO.value (Agent.check_room_status getenv room_name Agent.NoReply) = Ok false /\
    (forall status_code payload,
       status_code <> 200 ->
       IO.value (Agent.check_room_status getenv room_name (Agent.Reply status_code payload))
       = Ok false).
Proof.
  intros getenv room_name r. split; [|split].
  - unfold Agent.check_room_status.
    unfold IO.try_except_RequestException, IO.bind, IO.of_result, IO.emit, IO.ret, IO.value.
    split.
    + destruct r as [|status_code payload]; [discriminate|].
      destruct (status_code =? 200) eqn:E; [|discriminate].
      apply Z.eqb_eq in E. subst status_code.
      destruct payload as [ | | | | | fields]; try discriminate.
      cbn [Agent.get_num_participants].
      destruct (PyJson.assoc "num_participants" fields) as [participants|] eqn:A;
        [|discriminate].
      destruct (Agent.gt_zero participants) as [[|]|e] eqn:G;
        try discriminate; [|destruct e; discriminate].
      intros _. now exists fields, participants.
    + intros (fields & participants & -> & A & G).
      cbn [Z.eqb Pos.eqb Agent.get_num_participants]. now rewrite A, G.
  - reflexivity.
  - intros status_code payload N. unfold Agent.check_room_status.
    apply Z.eqb_neq in N.
    unfold IO.try_except_RequestException, IO.bind, IO.emit, IO.ret, IO.value.
    now rewrite N.
Qed.

(** X20: from a booking to the spoken status.  After a finished
    [book_appointment] call with a non-empty email, the follow-up sleeps 20
    seconds, then looks the email up once, and puts to the model exactly
    what the lookup found: the booked message when a contact carries the
    tag, the offer to book otherwise.  Nothing else is said, and the flag is
    left as it was.  Both files behave so. *)
Theorem follow_up_speaks_what_the_lookup_found :
  forall getenv room_name sip email name result data st,
    PyStr.truthy email = true ->
    well_formed_lookup data = true ->
    let status := if existsb contact_is_booked (lookup_contacts data)
                  then booked_message else offer_message in
    let expected :=
      ([Print "book_appointment"; CreateTask (FollowUpTask email);
        Sleep 20;
        Print ("Finished waiting, checking dental appointment status for " ++ email);
        Print "Checking dental appointment status";
        lookup_request getenv email;
        GptChat (chat_context (answered st status)); Say],
       Ok tt, answered st status) in
    HelpDesk.dispatch getenv (Success data) sip
      (HelpDesk.on_function_calls_finished getenv room_name
         [MultiFunction.called_book_appointment email name result]) st = expected /\
    MultiFunction.dispatch getenv (Success data) sip
      (MultiFunction.on_function_calls_finished getenv room_name
         [MultiFunction.called_book_appointment email name result]) st = expected.
Proof.
  intros getenv room_name sip email name result data st T W status expected.
  subst expected.
  pose proof (check_appointment_status_reports_the_tag getenv email data W) as E.
  fold status in E.
  assert (H1 : HelpDesk.on_function_calls_finished getenv room_name
                 [MultiFunction.called_book_appointment email name result] st
               = ([Print "book_appointment"; CreateTask (FollowUpTask email)], Ok tt, st)).
  { unfold HelpDesk.on_function_calls_finished, MultiFunction.called_book_appointment.
    cbn. now rewrite T. }
  split.
  - unfold HelpDesk.dispatch. rewrite H1.
    cbn [spawned HelpDesk.run_tasks HelpDesk.run_task].
    unfold Sess.bind, isolated.
    rewrite (HelpDesk_follow_up _ _ _ _ _ st E). reflexivity.
  - unfold MultiFunction.dispatch. rewrite follow_up_scheduled by exact T.
    cbn [spawned MultiFunction.run_tasks MultiFunction.run_task].
    unfold Sess.bind, isolated.
    rewrite (MultiFunction_follow_up _ _ _ _ _ st E). reflexivity.
Qed.

Lemma follow_up_speaks_what_the_lookup_found_witness :
  chat_context
    (Sess.final
       (HelpDesk.dispatch sample_env
          (Success (JObj [("contacts",
                           JArr [JObj [("tags", JArr [JStr "livekit_appointment_booked"])]])]))
          SipPlaced
          (HelpDesk.on_function_calls_finished sample_env "clinic-room"
             [MultiFunction.called_book_appointment "bob@example.com" "Bob" PNone])
          fresh_session))
  = (chat_context fresh_session ++ [user_message booked_message])%list.
Proof.
  destruct (follow_up_speaks_what_the_lookup_found sample_env "clinic-room" SipPlaced
              "bob@example.com" "Bob" PNone
              (JObj [("contacts",
                      JArr [JObj [("tags", JArr [JStr "livekit_appointment_booked"])]])])
              fresh_session eq_refl eq_refl) as [E _].
  cbv zeta in E. rewrite E. reflexivity.
Defined.

Lemma check_room_status_active_iff_witness :
  IO.value (Agent.check_room_status sample_env "clinic-room"
              (Agent.Reply 503 (room_with 2))) = Ok false.
Proof.
  destruct (check_room_status_active_iff sample_env "clinic-room" Agent.NoReply)
    as (_ & _ & other).
  apply other. discriminate.
Defined.
